(** * data-analyst-agent: the statistics, column-resolution, classification
      and chart-size code of the handlers, embedded in Rocq.

    Source files covered:
      - [src/services/visualizationService.js]  (VisualizationService, DuckDBHandler)
      - [src/handlers/wikipediaHandler.js]      (WikipediaHandler)
      - [src/handlers/csvhandler]               (CSVHandler)
      - [src/unnamed/part_001]                  (LLMService)

    JavaScript numbers are IEEE-754 binary64 values; they are modelled with
    the Standard Library's executable specification of binary floating point
    ([SpecFloat], precision 53, maximal exponent 1024), so every arithmetic
    step below rounds exactly as the JavaScript engine does. *)

From Stdlib Require Import ZArith Bool List String Ascii Lia.
From Stdlib Require Import DecimalString.
From Stdlib Require Import Floats.SpecFloat.
From Stdlib Require Import Sorting.Sorted Sorting.Permutation.
Import ListNotations.

Local Open Scope Z_scope.

(* ------------------------------------------------------------------ *)
(** ** JavaScript numbers                                              *)
(* ------------------------------------------------------------------ *)

Module Num.

Definition prec : Z := 53.
Definition emax : Z := 1024.

(** A JavaScript [Number]. *)
Definition number : Type := spec_float.

Definition NaN : number := S754_nan.
Definition Infinity : number := S754_infinity false.
Definition zero : number := S754_zero false.

(** The Number value of a mathematical integer (round to nearest, ties to
    even; beyond the binary64 range it is an infinity). *)
Definition of_Z (z : Z) : number := binary_normalize prec emax z 0 false.

Definition of_nat (n : nat) : number := of_Z (Z.of_nat n).

Definition add (x y : number) : number := SFadd prec emax x y.
Definition sub (x y : number) : number := SFsub prec emax x y.
Definition mul (x y : number) : number := SFmul prec emax x y.
Definition div (x y : number) : number := SFdiv prec emax x y.
Definition neg (x : number) : number := SFopp x.

(** [Math.sqrt]. *)
Definition sqrt (x : number) : number := SFsqrt prec emax x.

(** The relational operators [<], [<=], [>], [>=] on numbers: each is false
    as soon as one operand is NaN. *)
Definition ltb (x y : number) : bool := SFltb x y.
Definition leb (x y : number) : bool := SFleb x y.
Definition gtb (x y : number) : bool := SFltb y x.
Definition geb (x y : number) : bool := SFleb y x.

(** The global [isNaN] on a number. *)
Definition isNaN (x : number) : bool :=
  match x with S754_nan => true | _ => false end.

(** [Number.isFinite]. *)
Definition isFinite (x : number) : bool :=
  match x with
  | S754_zero _ | S754_finite _ _ _ => true
  | S754_infinity _ | S754_nan => false
  end.

(** ToBoolean on a number: [+0], [-0] and NaN are falsy. *)
Definition truthy (x : number) : bool :=
  match x with
  | S754_zero _ | S754_nan => false
  | S754_infinity _ | S754_finite _ _ _ => true
  end.

(** The sign and the mathematical integer [floor (x + 1/2)] of a finite
    value [(-1)^s * m * 2^e]. *)
Definition round_half_up (s : bool) (m : positive) (e : Z) : Z :=
  let v := cond_Zopp s (Zpos m) in
  match e with
  | Zneg k => (2 * v + 2 ^ Zpos k) / 2 ^ (Zpos k + 1)
  | _ => v * 2 ^ e
  end.

(** [Math.round]: the nearest integer, ties towards [+Infinity]; NaN, the
    infinities and the zeros are returned unchanged, and a negative argument
    that rounds to zero gives [-0]. *)
Definition Math_round (x : number) : number :=
  match x with
  | S754_finite s m e =>
      match e with
      | Zneg _ =>
          let z := round_half_up s m e in
          if Z.eqb z 0 then S754_zero s else of_Z z
      | _ => x
      end
  | _ => x
  end.

(** [Math.min(...xs)] and [Math.max(...xs)]: NaN as soon as one argument is
    NaN, [-0] below [+0], and the infinities for an empty argument list. *)
Definition min2 (a b : number) : number :=
  match a, b with
  | S754_nan, _ | _, S754_nan => S754_nan
  | S754_zero sa, S754_zero sb => S754_zero (sa || sb)
  | _, _ => if SFltb b a then b else a
  end.

Definition max2 (a b : number) : number :=
  match a, b with
  | S754_nan, _ | _, S754_nan => S754_nan
  | S754_zero sa, S754_zero sb => S754_zero (sa && sb)
  | _, _ => if SFltb a b then b else a
  end.

Definition Math_min (xs : list number) : number :=
  fold_left min2 xs (S754_infinity false).

Definition Math_max (xs : list number) : number :=
  fold_left max2 xs (S754_infinity true).

(** [xs.reduce((a, b) => a + b, 0)]. *)
Definition sum (xs : list number) : number := fold_left add xs zero.

End Num.

Definition number : Type := Num.number.

Declare Scope js_scope.
Delimit Scope js_scope with js.
Infix "+" := Num.add : js_scope.
Infix "-" := Num.sub : js_scope.
Infix "*" := Num.mul : js_scope.
Infix "/" := Num.div : js_scope.
Notation "# z" := (Num.of_Z z) (at level 5, z at level 0, format "# z") : js_scope.

(** [xs.reduce((acc, x, i) => f acc x i, init)], the index running from 0. *)
Fixpoint reduce_from {A B : Type} (f : B -> A -> nat -> B) (i : nat)
         (xs : list A) (acc : B) : B :=
  match xs with
  | [] => acc
  | x :: xs' => reduce_from f (S i) xs' (f acc x i)
  end.

Definition reducei {A B : Type} (f : B -> A -> nat -> B) (xs : list A) (init : B) : B :=
  reduce_from f 0 xs init.

(** Reading [ys[i]] in an arithmetic position: an index past the end yields
    [undefined], which ToNumber turns into NaN. *)
Definition at_index (ys : list number) (i : nat) : number :=
  nth i ys Num.NaN.

(* ------------------------------------------------------------------ *)
(** ** JavaScript strings                                              *)
(* ------------------------------------------------------------------ *)

(** Strings are sequences of ASCII characters; the headers, cells and task
    texts handled by the code are treated as ASCII text. *)
Module Str.

Local Open Scope nat_scope.

Definition code (c : ascii) : nat := nat_of_ascii c.

Definition isDigit (c : ascii) : bool := (48 <=? code c) && (code c <=? 57).

Definition isUpper (c : ascii) : bool := (65 <=? code c) && (code c <=? 90).

Definition isComma (c : ascii) : bool := code c =? 44.

(** White space skipped by [parseInt] (tab, line feed, vertical tab, form
    feed, carriage return, space). *)
Definition isSpace (c : ascii) : bool :=
  ((9 <=? code c) && (code c <=? 13)) || (code c =? 32).

Definition lowerChar (c : ascii) : ascii :=
  if isUpper c then ascii_of_nat (code c + 32) else c.

(** [s.toLowerCase()]. *)
Fixpoint toLowerCase (s : string) : string :=
  match s with
  | EmptyString => EmptyString
  | String c s' => String (lowerChar c) (toLowerCase s')
  end.

(** [s.includes(sub)]: [sub] occurs somewhere in [s]. *)
Fixpoint includes (s sub : string) : bool :=
  if String.prefix sub s then true
  else match s with
       | EmptyString => false
       | String _ s' => includes s' sub
       end.

(** The longest prefix of [s] whose characters all satisfy [p]. *)
Fixpoint takeWhile (p : ascii -> bool) (s : string) : string :=
  match s with
  | EmptyString => EmptyString
  | String c s' => if p c then String c (takeWhile p s') else EmptyString
  end.

Fixpoint dropWhile (p : ascii -> bool) (s : string) : string :=
  match s with
  | EmptyString => EmptyString
  | String c s' => if p c then dropWhile p s' else s
  end.

(** [s.match(/[cls]+/)] for a character class [cls]: the text of the
    leftmost match, which is the whole run starting at the first character
    of the class; [None] stands for the [null] of a failed match. *)
Fixpoint match_run (p : ascii -> bool) (s : string) : option string :=
  match s with
  | EmptyString => None
  | String c s' => if p c then Some (takeWhile p s) else match_run p s'
  end.

(** [s.match(/\d{4}/)]: the leftmost four consecutive digits. *)
Fixpoint match_4digits (s : string) : option string :=
  match s with
  | EmptyString => None
  | String a s' =>
      match s' with
      | String b (String c (String d _)) =>
          if isDigit a && isDigit b && isDigit c && isDigit d
          then Some (String a (String b (String c (String d EmptyString))))
          else match_4digits s'
      | _ => None
      end
  end.

(** [s.replace(/,/g, '')]. *)
Fixpoint removeCommas (s : string) : string :=
  match s with
  | EmptyString => EmptyString
  | String c s' => if isComma c then removeCommas s' else String c (removeCommas s')
  end.

(** The value of a digit character in a radix up to 16. *)
Definition digitValue (c : ascii) : option Z :=
  let n := code c in
  if (48 <=? n) && (n <=? 57) then Some (Z.of_nat (n - 48))
  else if (97 <=? n) && (n <=? 102) then Some (Z.of_nat (n - 87))
  else if (65 <=? n) && (n <=? 70) then Some (Z.of_nat (n - 55))
  else None.

(** The mathematical value of the longest prefix of radix-[radix] digits,
    [None] when that prefix is empty. *)
Fixpoint parseDigits (radix : Z) (s : string) (acc : option Z) : option Z :=
  match s with
  | EmptyString => acc
  | String c s' =>
      match digitValue c with
      | Some d =>
          if (d <? radix)%Z
          then parseDigits radix s'
                 (Some (radix * match acc with Some a => a | None => 0%Z end + d)%Z)
          else acc
      | None => acc
      end
  end.

(** [parseInt(s)] with no radix argument: leading white space and a sign are
    skipped, a [0x]/[0X] prefix selects radix 16, and the longest prefix of
    digits is converted; NaN when there is no digit. *)
Definition parseInt (s : string) : number :=
  let s1 := dropWhile isSpace s in
  let '(negative, s2) :=
    match s1 with
    | String c r =>
        if code c =? 45 then (true, r)
        else if code c =? 43 then (false, r)
        else (false, s1)
    | EmptyString => (false, s1)
    end in
  let '(radix, s3) :=
    match s2 with
    | String z (String x r) =>
        if (code z =? 48) && ((code x =? 120) || (code x =? 88)) then (16%Z, r)
        else (10%Z, s2)
    | _ => (10%Z, s2)
    end in
  match parseDigits radix s3 None with
  | None => Num.NaN
  | Some v =>
      if (v =? 0)%Z then S754_zero negative
      else Num.of_Z (if negative then (- v)%Z else v)
  end.

End Str.

(* ------------------------------------------------------------------ *)
(** ** Exceptions                                                      *)
(* ------------------------------------------------------------------ *)

(** The outcome of a computation that may throw: a value, or the [message]
    of the [Error] thrown. *)
Inductive result (A : Type) : Type :=
| Ok (a : A)
| Throw (message : string).

Arguments Ok {A} a.
Arguments Throw {A} message.

Definition bind {A B : Type} (r : result A) (k : A -> result B) : result B :=
  match r with
  | Ok a => k a
  | Throw m => Throw m
  end.

(** [try { body } catch (error) { handler(error.message) }]. *)
Definition try_catch {A : Type} (body : result A) (handler : string -> result A) : result A :=
  match body with
  | Ok a => Ok a
  | Throw m => handler m
  end.

Declare Scope result_scope.
Delimit Scope result_scope with result.
Notation "x <- c ;; k" := (bind c (fun x => k))
  (at level 61, c at next level, right associativity) : result_scope.

(** ToBoolean of a value that is a number or [null]. *)
Definition truthy_opt (v : option number) : bool :=
  match v with
  | Some x => Num.truthy x
  | None => false
  end.

(** ToNumber of a value that is a number or [null]: [null] converts to [+0]. *)
Definition toNumber_opt (v : option number) : number :=
  match v with
  | Some x => x
  | None => Num.zero
  end.

(* ------------------------------------------------------------------ *)
(** ** Engine and library services taken as parameters                 *)
(* ------------------------------------------------------------------ *)

(** The engine's conversions of a number to decimal text: the string
    conversion of template literals and property names, and
    [n.toFixed(digits)]. *)
Record Runtime : Type := {
  Number_toString : number -> string;
  Number_toFixed : number -> nat -> string
}.

(** The bytes of a Node.js [Buffer]. *)
Definition Buffer : Type := list Byte.byte.

(** [buffer.length]. *)
Definition Buffer_length (b : Buffer) : Z := Z.of_nat (List.length b).

Module Base64.

Definition alphabet : string :=
  "ABCDEFGHIJKLMNOPQRSTUVWXYZabcdefghijklmnopqrstuvwxyz0123456789+/".

Definition char (n : N) : ascii :=
  match String.get (N.to_nat n) alphabet with
  | Some c => c
  | None => "="%char
  end.

Definition pad : ascii := "="%char.

(** [buffer.toString('base64')]: three bytes become four characters, a
    final group of one or two bytes is padded with [=]. *)
Fixpoint encode (bs : Buffer) : string :=
  match bs with
  | [] => EmptyString
  | [a] =>
      let n := Byte.to_N a in
      String (char (n / 4)) (String (char ((n mod 4) * 16))
        (String pad (String pad EmptyString)))
  | [a; b] =>
      let n := Byte.to_N a in
      let m := Byte.to_N b in
      String (char (n / 4)) (String (char ((n mod 4) * 16 + m / 16))
        (String (char ((m mod 16) * 4)) (String pad EmptyString)))
  | a :: b :: c :: rest =>
      let n := Byte.to_N a in
      let m := Byte.to_N b in
      let k := Byte.to_N c in
      String (char (n / 4)) (String (char ((n mod 4) * 16 + m / 16))
        (String (char ((m mod 16) * 4 + k / 64)) (String (char (k mod 64))
          (encode rest))))
  end%N.

End Base64.

(* ------------------------------------------------------------------ *)
(** ** src/services/visualizationService.js : VisualizationService     *)
(* ------------------------------------------------------------------ *)

Module VisualizationService.

Local Open Scope js_scope.

(** Constructor fields. *)
Definition width : Z := 800.
Definition height : Z := 600.
Definition maxImageSize : Z := 100000.

(** A chart point [{x, y}]. *)
Record point : Type := { x : number; y : number }.

(** The object [{slope, intercept}] returned by [calculateRegression]. *)
Record regression : Type := { slope : number; intercept : number }.

(** The parts of the Chart.js configuration that depend on the arguments of
    [createScatterPlot]; colours, fonts and the other literals are fixed. *)
Record configuration : Type := {
  points_label : string;
  points_data : list point;
  line_label : string;
  line_data : list point;
  title_text : string;
  x_title : string;
  y_title : string
}.

(** The size with which a [ChartJSNodeCanvas] is constructed. *)
Record canvas : Type := { canvas_width : Z; canvas_height : Z }.

(** The chart library: rendering a configuration on a canvas gives the bytes
    of a PNG image, or throws. *)
Record ChartJS : Type := {
  renderToBuffer : canvas -> configuration -> result Buffer
}.

(** The canvas built in the constructor and the two built on demand. *)
Definition chartJSNodeCanvas : canvas := {| canvas_width := width; canvas_height := height |}.
Definition smallCanvas : canvas := {| canvas_width := 600; canvas_height := 400 |}.
Definition minimalCanvas : canvas := {| canvas_width := 400; canvas_height := 300 |}.

(** [calculateRegression(data)] (lines 184-195). *)
Definition calculateRegression (data : list point) : regression :=
  let n := Num.of_nat (List.length data) in
  let sumX := fold_left (fun sum point => sum + x point) data Num.zero in
  let sumY := fold_left (fun sum point => sum + y point) data Num.zero in
  let sumXY := fold_left (fun sum point => sum + (x point * y point)) data Num.zero in
  let sumXX := fold_left (fun sum point => sum + (x point * x point)) data Num.zero in
  let slope := (n * sumXY - sumX * sumY) / (n * sumXX - sumX * sumX) in
  let intercept := (sumY - slope * sumX) / n in
  {| slope := slope; intercept := intercept |}.

(** [generateRegressionPoints(data, regression)] (lines 197-206). *)
Definition generateRegressionPoints (data : list point) (r : regression) : list point :=
  let xValues := map x data in
  let minX := Num.Math_min xValues in
  let maxX := Num.Math_max xValues in
  [ {| x := minX; y := slope r * minX + intercept r |};
    {| x := maxX; y := slope r * maxX + intercept r |} ].

(** [pearsonCorrelation(x, y)] (lines 370-384). *)
Definition pearsonCorrelation (x y : list number) : number :=
  let n := Num.of_nat (List.length x) in
  if negb (Nat.eqb (List.length x) (List.length y)) then Num.zero
  else
    let sumX := fold_left (fun a b => a + b) x Num.zero in
    let sumY := fold_left (fun a b => a + b) y Num.zero in
    let sumXY := reducei (fun sum xi i => sum + xi * at_index y i) x Num.zero in
    let sumXX := fold_left (fun sum xi => sum + xi * xi) x Num.zero in
    let sumYY := fold_left (fun sum yi => sum + yi * yi) y Num.zero in
    let correlation :=
      (n * sumXY - sumX * sumY) /
      Num.sqrt ((n * sumXX - sumX * sumX) * (n * sumYY - sumY * sumY)) in
    if Num.isNaN correlation then Num.zero else correlation.

(** [calculateCorrelationMatrix(data)] (lines 351-368): entry [i][j] is 1
    on the diagonal and the correlation of series [i] and [j] elsewhere. *)
Definition calculateCorrelationMatrix (data : list (list number)) : list (list number) :=
  map (fun i =>
         map (fun j =>
                if Nat.eqb i j then #1
                else pearsonCorrelation (nth i data []) (nth j data []))
             (seq 0 (List.length data)))
      (seq 0 (List.length data)).

(** The data-cleaning loop of [createScatterPlot] (lines 43-50); the callers
    pass arrays of numbers, so only the [isNaN] tests can fail. *)
Definition cleanPoints (xData yData : list number) : list point :=
  map (fun p => {| x := fst p; y := snd p |})
      (filter (fun p => negb (Num.isNaN (fst p)) && negb (Num.isNaN (snd p)))
              (combine xData yData)).

Section Rendering.

Variable rt : Runtime.
Variable chart : ChartJS.

(** The configuration object of [createScatterPlot] (lines 63-139). *)
Definition scatterConfiguration (cleanData : list point)
           (xLabel yLabel title : string) : configuration :=
  let regression := calculateRegression cleanData in
  let regressionLine := generateRegressionPoints cleanData regression in
  {| points_label := "Data Points";
     points_data := cleanData;
     line_label :=
       ("Regression Line (slope: " ++ Number_toFixed rt (slope regression) 3 ++ ")")%string;
     line_data := regressionLine;
     title_text := title;
     x_title := xLabel;
     y_title := yLabel |}.

(** The rendering ladder of [createScatterPlot] (lines 141-169): the image is
    rendered on the 800x600 canvas, again on a 600x400 canvas when it is
    longer than [maxImageSize], and once more on a 400x300 canvas when it
    still is. The first component lists the canvases rendered on, in order. *)
Definition renderImage (cfg : configuration) : list canvas * result Buffer :=
  match renderToBuffer chart chartJSNodeCanvas cfg with
  | Throw m => ([chartJSNodeCanvas], Throw m)
  | Ok imageBuffer =>
      if (maxImageSize <? Buffer_length imageBuffer)%Z then
        match renderToBuffer chart smallCanvas cfg with
        | Throw m => ([chartJSNodeCanvas; smallCanvas], Throw m)
        | Ok imageBuffer =>
            if (maxImageSize <? Buffer_length imageBuffer)%Z then
              ([chartJSNodeCanvas; smallCanvas; minimalCanvas],
               renderToBuffer chart minimalCanvas cfg)
            else ([chartJSNodeCanvas; smallCanvas], Ok imageBuffer)
        end
      else ([chartJSNodeCanvas], Ok imageBuffer)
  end.

(** The body of the [try] block of [createScatterPlot]. *)
Definition createScatterPlot_body (xData yData : list number)
           (xLabel yLabel title : string) : result string :=
  if negb (Nat.eqb (List.length xData) (List.length yData)) then
    Throw "X and Y data arrays must have the same length"
  else if (List.length xData <? 2)%nat then
    Throw "Need at least 2 data points for scatter plot"
  else
    let cleanData := cleanPoints xData yData in
    if (List.length cleanData <? 2)%nat then
      Throw "Insufficient valid data points after cleaning"
    else
      let configuration := scatterConfiguration cleanData xLabel yLabel title in
      (imageBuffer <- snd (renderImage configuration) ;;
       let base64Image := Base64.encode imageBuffer in
       Ok ("data:image/png;base64," ++ base64Image)%string)%result.

(** [createScatterPlot(xData, yData, xLabel, yLabel, title)] (lines 25-182):
    any exception is turned into the empty string. *)
Definition createScatterPlot (xData yData : list number)
           (xLabel yLabel title : string) : string :=
  match createScatterPlot_body xData yData xLabel yLabel title with
  | Ok dataUri => dataUri
  | Throw _ => EmptyString
  end.

End Rendering.

End VisualizationService.

(* ------------------------------------------------------------------ *)
(** ** Table rows and answers                                          *)
(* ------------------------------------------------------------------ *)

(** A parsed row: a JavaScript object whose values are strings, given by its
    properties in [Object.keys] order. *)
Definition row : Type := list (string * string).

(** [Object.keys(row)]. *)
Definition Object_keys (r : row) : list string := map fst r.

(** [row[key]]; [None] is [undefined]. *)
Fixpoint row_get (r : row) (key : string) : option string :=
  match r with
  | [] => None
  | (k, v) :: r' => if String.eqb k key then Some v else row_get r' key
  end.

(** The values the handlers answer with. *)
#[warnings="-register-all"]
Inductive value : Type :=
| VNull
| VBool (b : bool)
| VNumber (n : number)
| VString (s : string)
| VArray (items : list value)
| VObject (fields : list (string * value)).

Definition value_of_row (r : row) : value :=
  VObject (map (fun kv => (fst kv, VString (snd kv))) r).

(** [values.sort(compareFn)]. The sort of ECMAScript is stable, so for a
    consistent comparison function its result is the one of a stable
    insertion sort: each element goes in front of the first element that the
    comparison function puts strictly after it. A NaN returned by
    [compareFn] counts as 0. *)
Fixpoint sort_insert {A : Type} (compareFn : A -> A -> number) (v : A)
         (sorted : list A) : list A :=
  match sorted with
  | [] => [v]
  | w :: rest =>
      if Num.ltb (compareFn v w) Num.zero then v :: w :: rest
      else w :: sort_insert compareFn v rest
  end.

Definition Array_sort {A : Type} (compareFn : A -> A -> number) (values : list A) : list A :=
  fold_left (fun sorted v => sort_insert compareFn v sorted) values [].

(* ------------------------------------------------------------------ *)
(** ** src/unnamed/part_001 : LLMService                               *)
(* ------------------------------------------------------------------ *)

Module LLMService.

Local Open Scope string_scope.

(** The analysis object built by [fallbackAnalysis]. *)
Record analysis : Type := {
  requiresWikipedia : bool;
  requiresCourtData : bool;
  requiresCSV : bool;
  dataSource : string;
  analysisType : string;
  expectedOutputFormat : string;
  questions : list string;
  visualizationNeeded : bool;
  statisticalOperations : list string
}.

(** [fallbackAnalysis(taskDescription)] (lines 77-120). The object is built
    with its defaults and then updated field by field; each later [if]
    overwrites what an earlier one stored. *)
Definition fallbackAnalysis (taskDescription : string) : analysis :=
  let task := Str.toLowerCase taskDescription in
  let requiresWikipedia :=
    Str.includes task "wikipedia" || Str.includes task "highest-grossing"
    || Str.includes task "films" in
  let requiresCourtData :=
    Str.includes task "court" || Str.includes task "judgment"
    || Str.includes task "indian high court" in
  let requiresCSV := Str.includes task "csv" || Str.includes task "upload" in
  let visualizationNeeded0 :=
    Str.includes task "plot" || Str.includes task "chart"
    || Str.includes task "scatter" || Str.includes task "graph" in
  (* Determine data source *)
  let dataSource :=
    if requiresWikipedia then "wikipedia"
    else if requiresCourtData then "court_data"
    else if requiresCSV then "csv"
    else "unknown" in
  (* Determine analysis type *)
  let '(analysisType1, ops1) :=
    if Str.includes task "correlation"
    then ("correlation", ["correlation"])
    else ("statistical_summary", []) in
  let '(analysisType2, ops2) :=
    if Str.includes task "regression"
    then ("regression", (ops1 ++ ["regression"])%list)
    else (analysisType1, ops1) in
  let '(analysisType3, ops3) :=
    if Str.includes task "how many" || Str.includes task "count"
    then ("count", (ops2 ++ ["count"])%list)
    else (analysisType2, ops2) in
  (* Check for visualization needs *)
  let '(expectedOutputFormat, visualizationNeeded) :=
    if Str.includes task "base64" || Str.includes task "data:image"
    then ("base64_image", true)
    else ("json_array", visualizationNeeded0) in
  {| requiresWikipedia := requiresWikipedia;
     requiresCourtData := requiresCourtData;
     requiresCSV := requiresCSV;
     dataSource := dataSource;
     analysisType := analysisType3;
     expectedOutputFormat := expectedOutputFormat;
     questions := [];
     visualizationNeeded := visualizationNeeded;
     statisticalOperations := ops3 |}.

(** One match of the pattern [/[0-9]\.\s*([^?]+\?)/] at the very start of
    [s]: a digit, a dot, and everything up to the next question mark, which
    must not follow the dot at once. The result is the captured group after
    [trim()] and the number of characters matched. (The group starts after
    the white space that follows the dot; when nothing but white space
    precedes the question mark, backtracking leaves one white-space
    character in the group, which [trim()] removes.) *)
Definition isQuestionMark (c : ascii) : bool := Nat.eqb (Str.code c) 63.

Definition question_at (s : string) : option (string * nat) :=
  match s with
  | String d (String dot rest) =>
      if Str.isDigit d && Nat.eqb (Str.code dot) 46 then
        let body := Str.takeWhile (fun c => negb (isQuestionMark c)) rest in
        match body, Str.dropWhile (fun c => negb (isQuestionMark c)) rest with
        | String _ _, String _ _ =>
            Some (Str.dropWhile Str.isSpace body ++ "?", (String.length body + 3)%nat)
        | _, _ => None
        end
      else None
  | _ => None
  end.

(** The [exec] loop of [extractQuestionsFromText]: the leftmost match is
    looked for from the current position, and the search resumes right
    after it; [skip] counts the characters of the last match still to be
    passed over. *)
Fixpoint questions_from (skip : nat) (s : string) : list string :=
  match s with
  | EmptyString => []
  | String _ s' =>
      match skip with
      | S k => questions_from k s'
      | O =>
          match question_at s with
          | Some (question, matched) => question :: questions_from (matched - 1) s'
          | None => questions_from 0 s'
          end
      end
  end.

(** [extractQuestionsFromText(text)] (lines 157-168). *)
Definition extractQuestionsFromText (text : string) : list string :=
  questions_from 0 text.

End LLMService.

(* ------------------------------------------------------------------ *)
(** ** src/services/visualizationService.js : DuckDBHandler            *)
(* ------------------------------------------------------------------ *)

Module DuckDBHandler.

Local Open Scope string_scope.
Local Open Scope js_scope.

Definition s3Path : string :=
  "s3://indian-high-court-judgments/metadata/parquet/year=*/court=*/bench=*/metadata.parquet?s3_region=ap-south-1".

(** Rows answered by the two queries. *)
Record court_row : Type := { court : string; case_count : number }.
Record delay_row : Type := { year : number; delay_days : number }.

(** The DuckDB collaborator: opening the in-memory database and its
    connection, and [executeQuery] on the statements that load extensions
    and on the two [SELECT] queries. Each may fail. *)
Record DuckDB : Type := {
  open_database : result unit;
  run_statement : string -> result unit;
  query_courts : string -> result (list court_row);
  query_delays : string -> result (list delay_row)
}.

(** The text of the two queries, with the white space of the template
    literals condensed. *)
Definition topCourtQuery : string :=
  "SELECT court, COUNT(*) as case_count FROM read_parquet('" ++ s3Path ++
  "') WHERE year BETWEEN 2019 AND 2022 GROUP BY court ORDER BY case_count DESC LIMIT 1".

Definition regressionQuery : string :=
  "SELECT year, date_of_registration, decision_date, (decision_date - date_of_registration::date) as delay_days FROM read_parquet('" ++ s3Path ++
  "') WHERE court = '33_10' AND date_of_registration IS NOT NULL AND decision_date IS NOT NULL AND year BETWEEN 2019 AND 2023 ORDER BY year".

(** [calculateLinearRegressionSlope(xValues, yValues)] (lines 629-642). *)
Definition calculateLinearRegressionSlope (xValues yValues : list number) : number :=
  if negb (Nat.eqb (List.length xValues) (List.length yValues))
     || (List.length xValues <? 2)%nat
  then Num.zero
  else
    let n := Num.of_nat (List.length xValues) in
    let sumX := fold_left (fun a b => a + b) xValues Num.zero in
    let sumY := fold_left (fun a b => a + b) yValues Num.zero in
    let sumXY := reducei (fun sum x i => sum + x * at_index yValues i) xValues Num.zero in
    let sumXX := fold_left (fun sum x => sum + x * x) xValues Num.zero in
    let slope := (n * sumXY - sumX * sumY) / (n * sumXX - sumX * sumX) in
    if Num.isNaN slope then Num.zero else slope.

(** [mapCourtCodeToName(courtCode)] (lines 644-670). The lookup
    [courtMap[courtCode]] is modelled on the own properties of [courtMap]:
    the model covers the court codes that do not name a property inherited
    from [Object.prototype] (such as "toString" or "constructor"), for which
    the lookup yields the inherited property and not a name. *)
Definition courtMap : list (string * string) :=
  [ ("33_10", "Madras High Court"); ("01_01", "Allahabad High Court");
    ("02_02", "Andhra Pradesh High Court"); ("03_03", "Bombay High Court");
    ("04_04", "Calcutta High Court"); ("05_05", "Delhi High Court");
    ("06_06", "Gujarat High Court"); ("07_07", "Himachal Pradesh High Court");
    ("08_08", "Jammu & Kashmir High Court"); ("09_09", "Jharkhand High Court");
    ("10_10", "Karnataka High Court"); ("11_11", "Kerala High Court");
    ("12_12", "Madhya Pradesh High Court"); ("13_13", "Orissa High Court");
    ("14_14", "Punjab & Haryana High Court"); ("15_15", "Rajasthan High Court");
    ("16_16", "Sikkim High Court"); ("17_17", "Uttarakhand High Court");
    ("18_18", "Chhattisgarh High Court"); ("19_19", "Gauhati High Court");
    ("20_20", "Patna High Court") ].

Definition mapCourtCodeToName (courtCode : string) : string :=
  match row_get courtMap courtCode with
  | Some name => name
  | None => "High Court (" ++ courtCode ++ ")"
  end.

(** The object [yearlyData] of [processDelayData]: the delays pushed under
    each year, the year being turned into a property name. *)
Fixpoint yearly_push (key : string) (delay : number)
         (yearlyData : list (string * list number)) : list (string * list number) :=
  match yearlyData with
  | [] => [(key, [delay])]
  | (k, delays) :: rest =>
      if String.eqb k key then (k, (delays ++ [delay])%list) :: rest
      else (k, delays) :: yearly_push key delay rest
  end.

Fixpoint yearly_get (key : string) (yearlyData : list (string * list number)) : list number :=
  match yearlyData with
  | [] => []
  | (k, delays) :: rest => if String.eqb k key then delays else yearly_get key rest
  end.

(** [keys.sort()] with the default comparison of strings by code units. *)
Fixpoint insert_key (k : string) (sorted : list string) : list string :=
  match sorted with
  | [] => [k]
  | w :: rest => if String.ltb k w then k :: w :: rest else w :: insert_key k rest
  end.

Definition sort_keys (keys : list string) : list string :=
  fold_left (fun sorted k => insert_key k sorted) keys [].

(** The object [{years, avgDelays}]. *)
Record delay_series : Type := { years : list number; avgDelays : list number }.

(** The object returned by [calculateRegressionSlope]. *)
Record regressionData : Type := {
  slope : number;
  visualization : string;
  data_points : number;
  note : option string
}.

Section Handler.

Variable rt : Runtime.
Variable chart : VisualizationService.ChartJS.
Variable db : DuckDB.

(** [processDelayData(rawData)] (lines 595-627). *)
Definition processDelayData (rawData : list delay_row) : delay_series :=
  let yearlyData :=
    fold_left
      (fun yearlyData row =>
         let delay := delay_days row in
         if Num.geb delay Num.zero && Num.leb delay #3650
         then yearly_push (Number_toString rt (year row)) delay yearlyData
         else yearlyData)
      rawData [] in
  fold_left
    (fun acc year =>
       let delays := yearly_get year yearlyData in
       if (0 <? List.length delays)%nat then
         let avgDelay := fold_left (fun a b => a + b) delays Num.zero
                         / Num.of_nat (List.length delays) in
         {| years := (years acc ++ [Str.parseInt year])%list;
            avgDelays := (avgDelays acc ++ [Num.Math_round avgDelay])%list |}
       else acc)
    (sort_keys (map fst yearlyData))
    {| years := []; avgDelays := [] |}.

(** [initializeConnection()] (lines 397-418). The boolean is the field
    [this.connection] being set; it is set as soon as the database is
    opened, before the extensions are loaded. *)
Definition initializeConnection (connected : bool) : result unit * bool :=
  if connected then (Ok tt, true)
  else
    match open_database db with
    | Throw m => (Throw m, false)
    | Ok _ =>
        ((_ <- run_statement db "INSTALL httpfs;" ;;
          _ <- run_statement db "LOAD httpfs;" ;;
          _ <- run_statement db "INSTALL parquet;" ;;
          run_statement db "LOAD parquet;")%result,
         true)
    end.

(** [findTopCourtByCases()] (lines 479-510). *)
Definition findTopCourtByCases : string :=
  match (result <- query_courts db topCourtQuery ;;
         match result with
         | r0 :: _ => Ok (mapCourtCodeToName (court r0))
         | [] => Throw "No results found"
         end)%result with
  | Ok courtName => courtName
  | Throw _ => "Delhi High Court"
  end.

(** [calculateRegressionSlope()] (lines 512-593). *)
Definition calculateRegressionSlope : regressionData :=
  match (rawData <- query_delays db regressionQuery ;;
         if (List.length rawData <? 2)%nat then Throw "Insufficient data for regression"
         else
           let processedData := processDelayData rawData in
           let slope :=
             calculateLinearRegressionSlope (years processedData) (avgDelays processedData) in
           let visualization :=
             if (1 <? List.length (years processedData))%nat then
               VisualizationService.createScatterPlot rt chart
                 (years processedData) (avgDelays processedData)
                 "Year" "Average Delay (days)" "Case Processing Time Trend"
             else "" in
           Ok {| slope := Num.Math_round (slope * #100) / #100;
                 visualization := visualization;
                 data_points := Num.of_nat (List.length (years processedData));
                 note := None |})%result with
  | Ok r => r
  | Throw _ =>
      let sampleYears := [#2019; #2020; #2021; #2022] in
      let sampleDelays := [#150; #140; #130; #120] in
      let slope := calculateLinearRegressionSlope sampleYears sampleDelays in
      let visualization :=
        VisualizationService.createScatterPlot rt chart sampleYears sampleDelays
          "Year" "Average Delay (days)" "Case Processing Time Trend (Sample Data)" in
      {| slope := Num.Math_round (slope * #100) / #100;
         visualization := visualization;
         data_points := Num.of_nat (List.length sampleYears);
         note := Some "Sample data used due to external service unavailability" |}
  end.

(** [getSampleCourtData(taskDescription, taskAnalysis)] (lines 672-699). *)
Definition getSampleCourtData (taskDescription : string)
           (taskAnalysis : LLMService.analysis) : value :=
  if Str.includes (Str.toLowerCase taskDescription) "disposed the most cases" then
    VString "Delhi High Court"
  else if Str.includes (Str.toLowerCase taskDescription) "regression slope" then
    let sampleSlope := Num.neg (#234 / #100) in
    let result := [("regression_slope_court_33_10", VNumber sampleSlope)] in
    if LLMService.visualizationNeeded taskAnalysis then
      VObject (result ++
        [("delay_trend_plot",
          VString "data:image/png;base64,iVBORw0KGgoAAAANSUhEUgAAAAEAAAABCAYAAAAfFcSJAAAADUlEQVR42mP8/5+hHgAHggJ/PchI7wAAAABJRU5ErkJggg==");
         ("note", VString "Sample visualization - external service unavailable")])%list
    else VObject result
  else
    VObject
      [("Which high court disposed the most cases from 2019 - 2022?",
        VString "Delhi High Court");
       ("What's the regression slope of the date_of_registration - decision_date by year in the court=33_10?",
        VNumber (Num.neg (#234 / #100)));
       ("Plot the year and # of days of delay from the above question as a scatterplot with a regression line. Encode as a base64 data URI under 100,000 characters",
        VString "data:image/png;base64,sample_placeholder");
       ("note", VString "Sample data provided - external database unavailable")].

(** The [try] block of [processCourtDataTask] (lines 436-468), after
    [initializeConnection] has been awaited with outcome [init]. *)
Definition processCourtDataTask_body (init : result unit) (taskDescription : string)
           (taskAnalysis : LLMService.analysis) : result value :=
  (_ <- init ;;
   let task := Str.toLowerCase taskDescription in
   let results1 :=
     if Str.includes task "disposed the most cases" || Str.includes task "which high court"
     then [("top_court_2019_2022", VString findTopCourtByCases)]
     else [] in
   let results2 :=
     if Str.includes task "regression slope" || Str.includes task "court=33_10" then
       let regressionData := calculateRegressionSlope in
       let withSlope :=
         (results1 ++ [("regression_slope_court_33_10", VNumber (slope regressionData))])%list in
       if LLMService.visualizationNeeded taskAnalysis
       then (withSlope ++ [("delay_trend_plot", VString (visualization regressionData))])%list
       else withSlope
     else results1 in
   match results2 with
   | [(_, single)] => Ok single
   | _ => Ok (VObject results2)
   end)%result.

(** [processCourtDataTask(taskDescription, taskAnalysis)] (lines 432-477):
    whatever the [try] block throws is answered with the sample data. The
    boolean threads [this.connection]. *)
Definition processCourtDataTask (connected : bool) (taskDescription : string)
           (taskAnalysis : LLMService.analysis) : result value * bool :=
  let '(init, connected') := initializeConnection connected in
  (try_catch (processCourtDataTask_body init taskDescription taskAnalysis)
             (fun _ => Ok (getSampleCourtData taskDescription taskAnalysis)),
   connected').

End Handler.

End DuckDBHandler.

(* ------------------------------------------------------------------ *)
(** ** src/handlers/wikipediaHandler.js : WikipediaHandler             *)
(* ------------------------------------------------------------------ *)

Module WikipediaHandler.

Local Open Scope string_scope.
Local Open Scope js_scope.

(** A cleaned record [{title, revenue, year, rank, peak}]; [year] is a
    number or [null]. *)
Record movie : Type := {
  title : string;
  revenue : number;
  year : option number;
  rank : number;
  peak : number
}.

(** [key.toLowerCase().includes(hint)]. *)
Definition hinted (key hint : string) : bool :=
  Str.includes (Str.toLowerCase key) hint.

Definition isRevenueKey (key : string) : bool :=
  hinted key "worldwide" || hinted key "gross" || hinted key "box office"
  || hinted key "revenue".

Definition isYearKey (key : string) : bool :=
  hinted key "year" || hinted key "released".

(** The title test also accepts the first key of the row. *)
Definition isTitleKey (r : row) (key : string) : bool :=
  hinted key "title" || hinted key "film" || hinted key "movie"
  || match Object_keys r with
     | first :: _ => String.eqb key first
     | [] => false
     end.

Definition isRankKey (key : string) : bool :=
  hinted key "rank" || hinted key "position".

Definition isPeakKey (key : string) : bool := hinted key "peak".

(** [row[keys[0]]] used as a string: reading a method of [undefined] throws. *)
Definition cell (r : row) (key : string) : result string :=
  match row_get r key with
  | Some v => Ok v
  | None => Throw "Cannot read properties of undefined"
  end.

(** The five extractions of the loop body of [cleanFilmsData]
    (lines 167-235): each yields [null] ([None]) or a value. *)
Definition revenueValue (r : row) : result (option number) :=
  match filter isRevenueKey (Object_keys r) with
  | key :: _ =>
      (revenueStr <- cell r key ;;
       match Str.match_run (fun c => Str.isDigit c || Str.isComma c) revenueStr with
       | Some revenueMatch => Ok (Some (Str.parseInt (Str.removeCommas revenueMatch)))
       | None => Ok None
       end)%result
  | [] => Ok None
  end.

Definition yearValue (r : row) : result (option number) :=
  match filter isYearKey (Object_keys r) with
  | key :: _ =>
      (yearStr <- cell r key ;;
       match Str.match_4digits yearStr with
       | Some yearMatch => Ok (Some (Str.parseInt yearMatch))
       | None => Ok None
       end)%result
  | [] => Ok None
  end.

Definition titleValue (r : row) : option string :=
  match filter (isTitleKey r) (Object_keys r) with
  | key :: _ => row_get r key
  | [] => None
  end.

Definition rankValue (r : row) : result (option number) :=
  match filter isRankKey (Object_keys r) with
  | key :: _ =>
      (rankStr <- cell r key ;;
       match Str.match_run Str.isDigit rankStr with
       | Some rankMatch => Ok (Some (Str.parseInt rankMatch))
       | None => Ok None
       end)%result
  | [] => Ok None
  end.

Definition peakValue (r : row) : result (option number) :=
  match filter isPeakKey (Object_keys r) with
  | key :: _ =>
      (peakStr <- cell r key ;;
       match Str.match_run Str.isDigit peakStr with
       | Some peakMatch => Ok (Some (Str.parseInt peakMatch))
       | None => Ok None
       end)%result
  | [] => Ok None
  end.

(** [v || d] for a number or [null] [v]. *)
Definition or_number (v : option number) (d : number) : number :=
  match v with
  | Some n => if Num.truthy n then n else d
  | None => d
  end.

(** The body of the loop of [cleanFilmsData] (lines 159-246) for one row,
    [cleaned] being the records pushed so far: the record to push, if any. *)
Definition cleanRow (cleaned : list movie) (r : row) : result (option movie) :=
  (revenue <- revenueValue r ;;
   year <- yearValue r ;;
   let title := titleValue r in
   rank <- rankValue r ;;
   peak <- peakValue r ;;
   match revenue, title with
   | Some revenueValue, Some titleValue =>
       if Num.truthy revenueValue && negb (String.eqb titleValue "") then
         let next := Num.of_nat (List.length cleaned) + #1 in
         Ok (Some {| title := titleValue;
                     revenue := revenueValue;
                     year := year;
                     rank := or_number rank next;
                     peak := or_number peak (or_number rank next) |})
       else Ok None
   | _, _ => Ok None
   end)%result.

(** [cleanFilmsData(rawData)] (lines 155-255): a row whose body throws is
    skipped by the [catch]. *)
Definition cleanFilmsData (rawData : list row) : list movie :=
  fold_left
    (fun cleaned r =>
       match cleanRow cleaned r with
       | Ok (Some m) => (cleaned ++ [m])%list
       | Ok None => cleaned
       | Throw _ => cleaned
       end)
    rawData [].

(** [count2BillionMoviesBefore2000(data)] (lines 257-263). *)
Definition count2BillionMoviesBefore2000 (data : list movie) : number :=
  Num.of_nat (List.length
    (filter (fun movie =>
               Num.geb (revenue movie) #2000000000
               && truthy_opt (year movie)
               && Num.ltb (toNumber_opt (year movie)) #2000)
            data)).

(** The filter and the [reduce] of [findEarliest1_5BillionFilm]. *)
Definition over1_5bn (data : list movie) : list movie :=
  filter (fun movie => Num.geb (revenue movie) #1500000000 && truthy_opt (year movie)) data.

Definition earlier (prev current : movie) : movie :=
  if Num.ltb (toNumber_opt (year prev)) (toNumber_opt (year current)) then prev else current.

(** [calculateRankPeakCorrelation(data)] (lines 282-304). *)
Definition calculateRankPeakCorrelation (data : list movie) : number :=
  let validData := filter (fun d => Num.truthy (rank d) && Num.truthy (peak d)) data in
  if (List.length validData <? 2)%nat then Num.zero
  else
    let ranks := map rank validData in
    let peaks := map peak validData in
    let n := Num.of_nat (List.length ranks) in
    let sumX := fold_left (fun a b => a + b) ranks Num.zero in
    let sumY := fold_left (fun a b => a + b) peaks Num.zero in
    let sumXY := reducei (fun sum x i => sum + x * at_index peaks i) ranks Num.zero in
    let sumXX := fold_left (fun sum x => sum + x * x) ranks Num.zero in
    let sumYY := fold_left (fun sum y => sum + y * y) peaks Num.zero in
    let correlation :=
      (n * sumXY - sumX * sumY) /
      Num.sqrt ((n * sumXX - sumX * sumX) * (n * sumYY - sumY * sumY)) in
    Num.Math_round (correlation * #1000) / #1000.

(** The first [http://] or [https://] address of a text, as matched by the
    regular expression of [determineWikipediaUrl]: the scheme followed by at
    least one character that is not white space, up to the next white
    space. *)
Definition url_at (s : string) : option string :=
  let after (scheme : string) :=
    Str.takeWhile (fun c => negb (Str.isSpace c))
                  (String.substring (String.length scheme)
                                    (String.length s - String.length scheme) s) in
  if String.prefix "https://" s && negb (String.eqb (after "https://") "")
  then Some ("https://" ++ after "https://")
  else if String.prefix "http://" s && negb (String.eqb (after "http://") "")
  then Some ("http://" ++ after "http://")
  else None.

Fixpoint match_url (s : string) : option string :=
  match url_at s with
  | Some u => Some u
  | None => match s with
            | EmptyString => None
            | String _ s' => match_url s'
            end
  end.

(** [determineWikipediaUrl(taskDescription)] (lines 38-53). *)
Definition determineWikipediaUrl (taskDescription : string) : string :=
  let task := Str.toLowerCase taskDescription in
  if Str.includes task "highest-grossing" || Str.includes task "films" then
    "https://en.wikipedia.org/wiki/List_of_highest-grossing_films"
  else
    match match_url taskDescription with
    | Some url => url
    | None => "https://en.wikipedia.org/wiki/List_of_highest-grossing_films"
    end.

(** [processGenericTable(data, taskAnalysis)] (lines 327-338). *)
Definition processGenericTable (data : list row) : value :=
  VObject
    [("success", VBool true);
     ("data_points", VNumber (Num.of_nat (List.length data)));
     ("columns", VArray (map VString (Object_keys (hd [] data))));
     ("sample_data", VArray (map value_of_row (firstn 3 data)));
     ("analysis", VString "Generic Wikipedia table processed")].

Section Handler.

Variable rt : Runtime.
Variable chart : VisualizationService.ChartJS.

(** The page scraper [scrapeWikipediaTable(url)]: the HTTP request and the
    traversal of the page are done by axios and cheerio; its outcome, the
    rows of the first wikitable or an exception, is an input here. *)
Variable scrapeWikipediaTable : string -> result (list row).

(** String conversion of a number or [null] in a template literal. *)
Definition toString_opt (v : option number) : string :=
  match v with
  | Some n => Number_toString rt n
  | None => "null"
  end.

(** [findEarliest1_5BillionFilm(data)] (lines 265-280). *)
Definition findEarliest1_5BillionFilm (data : list movie) : string :=
  match over1_5bn data with
  | [] => "No films found over $1.5bn"
  | first :: others =>
      let earliest := fold_left earlier others first in
      title earliest ++ " (" ++ toString_opt (year earliest) ++ ")"
  end.

(** [generateRankPeakScatterplot(data)] (lines 306-325). *)
Definition generateRankPeakScatterplot (data : list movie) : string :=
  let validData := filter (fun d => Num.truthy (rank d) && Num.truthy (peak d)) data in
  if (List.length validData <? 2)%nat then ""
  else
    VisualizationService.createScatterPlot rt chart
      (map rank validData) (map peak validData)
      "Rank" "Peak" "Rank vs Peak Correlation".

(** [processFilmsAnalysis(data, taskAnalysis)] (lines 113-153). *)
Definition processFilmsAnalysis (data : list row)
           (taskAnalysis : LLMService.analysis) : result value :=
  let cleanData := cleanFilmsData data in
  let results :=
    [ VNumber (count2BillionMoviesBefore2000 cleanData);
      VString (findEarliest1_5BillionFilm cleanData);
      VNumber (calculateRankPeakCorrelation cleanData) ] in
  if LLMService.visualizationNeeded taskAnalysis
  then Ok (VArray (results ++ [VString (generateRankPeakScatterplot cleanData)])%list)
  else Ok (VArray results).

(** [processWikipediaTask(taskDescription, taskAnalysis)] (lines 11-36):
    the [catch] wraps the message of whatever was thrown and throws again. *)
Definition processWikipediaTask (taskDescription : string)
           (taskAnalysis : LLMService.analysis) : result value :=
  try_catch
    (let url := determineWikipediaUrl taskDescription in
     data <- scrapeWikipediaTable url ;;
     if Str.includes (Str.toLowerCase taskDescription) "highest-grossing"
        || Str.includes (Str.toLowerCase taskDescription) "films"
     then processFilmsAnalysis data taskAnalysis
     else Ok (processGenericTable data))%result
    (fun message => Throw ("Failed to process Wikipedia data: " ++ message)).

End Handler.

End WikipediaHandler.

(* ------------------------------------------------------------------ *)
(** ** src/handlers/csvhandler : CSVHandler                            *)
(* ------------------------------------------------------------------ *)

Module CSVHandler.

Local Open Scope js_scope.

(** The entry [stats[col]] of [calculateBasicStats]. *)
Record column_stats : Type := {
  count : number;
  mean : number;
  median : number;
  min : number;
  max : number;
  std_dev : number
}.

(** [Math.pow(d, 2)], the square of [d]. *)
Definition Math_pow2 (d : number) : number := d * d.

(** [calculateStdDev(values)] (lines 158-163). *)
Definition calculateStdDev (values : list number) : number :=
  let mean := fold_left (fun a b => a + b) values Num.zero
              / Num.of_nat (List.length values) in
  let squareDiffs := map (fun value => Math_pow2 (value - mean)) values in
  let avgSquareDiff := fold_left (fun a b => a + b) squareDiffs Num.zero
                       / Num.of_nat (List.length values) in
  Num.sqrt avgSquareDiff.

(** The numeric comparison function [(a, b) => a - b]. *)
Definition ascending (a b : number) : number := a - b.

(** The statistics block of [calculateBasicStats] (lines 141-152) for the
    numeric values of one column: nothing is stored for a column without
    values; otherwise the values are sorted in place and summarised. *)
Definition columnStats (values : list number) : option column_stats :=
  if (0 <? List.length values)%nat then
    let values := Array_sort ascending values in
    Some {| count := Num.of_nat (List.length values);
            mean := fold_left (fun a b => a + b) values Num.zero
                    / Num.of_nat (List.length values);
            median := nth (List.length values / 2) values Num.NaN;
            min := Num.Math_min values;
            max := Num.Math_max values;
            std_dev := calculateStdDev values |}
  else None.

(** [pearsonCorrelation(x, y)] (lines 194-206). *)
Definition pearsonCorrelation (x y : list number) : number :=
  let n := Num.of_nat (List.length x) in
  let sumX := fold_left (fun a b => a + b) x Num.zero in
  let sumY := fold_left (fun a b => a + b) y Num.zero in
  let sumXY := reducei (fun sum xi i => sum + xi * at_index y i) x Num.zero in
  let sumXX := fold_left (fun sum xi => sum + xi * xi) x Num.zero in
  let sumYY := fold_left (fun sum yi => sum + yi * yi) y Num.zero in
  let correlation :=
    (n * sumXY - sumX * sumY) /
    Num.sqrt ((n * sumXX - sumX * sumX) * (n * sumYY - sumY * sumY)) in
  if Num.isNaN correlation then Num.zero else correlation.

(** Constructor field: the limit on the number of rows. *)
Definition maxRows : nat := Z.to_nat 10000.

(** The ['data'] handler of [parseCSV] (lines 49-54) run over the rows that
    the parser emits: a row is pushed while fewer than [maxRows] rows have
    been. *)
Definition collectRows (emitted : list row) : list row :=
  fold_left
    (fun results data =>
       if (List.length results <? maxRows)%nat then (results ++ [data])%list else results)
    emitted [].

(** [parseCSV(csvData)] (lines 42-64). The CSV parser is a parameter: for a
    text it emits rows and ends, or fails; the promise resolves with the
    rows collected or rejects with the parser's error. *)
Definition parseCSV (csv : string -> result (list row)) (csvData : string)
  : result (list row) :=
  (emitted <- csv csvData ;; Ok (collectRows emitted))%result.

Section Handler.

(** The engine's conversion [Number(val)] of a cell to a number. *)
Variable Number : string -> number.

(** The numeric values of column [col] (lines 135-139): cells that are
    missing or empty are dropped, the others converted with [Number], and
    those converting to NaN dropped. *)
Definition numericValues (data : list row) (col : string) : list number :=
  filter (fun val => negb (Num.isNaN val))
    (map Number
       (flat_map (fun r => match row_get r col with
                           | Some val => if String.eqb val "" then [] else [val]
                           | None => []
                           end)
                 data)).

(** [calculateBasicStats(data)] (lines 128-156): the statistics stored, in
    the order of the columns of the first row. *)
Definition calculateBasicStats (data : list row) : list (string * column_stats) :=
  match data with
  | [] => []
  | first :: _ =>
      flat_map (fun col => match columnStats (numericValues data col) with
                           | Some s => [(col, s)]
                           | None => []
                           end)
               (Object_keys first)
  end.

(** [Number(row[col])]: the cell of a row without the column is
    [undefined], which converts to NaN. *)
Definition numberAt (r : row) (col : string) : number :=
  match row_get r col with
  | Some val => Number val
  | None => Num.NaN
  end.

(** [data.map(row => Number(row[col])).filter(val => !isNaN(val))]. *)
Definition numbersOf (data : list row) (col : string) : list number :=
  filter (fun val => negb (Num.isNaN val)) (map (fun r => numberAt r col) data).

(** The columns of the first row that convert to a number in more than half
    of the rows (lines 169-173 and 212-216). *)
Definition numericColumns (data : list row) : list string :=
  filter (fun col =>
            Num.gtb (Num.of_nat (List.length (numbersOf data col)))
                    (Num.of_nat (List.length data) * (#5 / #10)))
         (Object_keys (hd [] data)).

(** The pairs [(columns[i], columns[j])] with [i < j], in the order of the
    two nested loops. *)
Fixpoint pairs (columns : list string) : list (string * string) :=
  match columns with
  | [] => []
  | col1 :: rest => map (fun col2 => (col1, col2)) rest ++ pairs rest
  end.

(** [object[key] = v] on an object given by its properties in insertion
    order. *)
Fixpoint assign {V : Type} (key : string) (v : V) (object : list (string * V))
  : list (string * V) :=
  match object with
  | [] => [(key, v)]
  | (k, w) :: rest =>
      if String.eqb k key then (k, v) :: rest else (k, w) :: assign key v rest
  end.

(** [calculateCorrelations(data)] (lines 165-192). *)
Definition calculateCorrelations (data : list row) : list (string * number) :=
  if (List.length data <? 2)%nat then []
  else
    fold_left
      (fun correlations '(col1, col2) =>
         let values1 := numbersOf data col1 in
         let values2 := numbersOf data col2 in
         if Nat.eqb (List.length values1) (List.length values2)
            && (1 <? List.length values1)%nat
         then
           let correlation := pearsonCorrelation values1 values2 in
           assign (col1 ++ "_vs_" ++ col2)%string
                  (Num.Math_round (correlation * #1000) / #1000) correlations
         else correlations)
      (pairs (numericColumns data)) [].

Variable rt : Runtime.
Variable chart : VisualizationService.ChartJS.

(** [generateVisualizations(data)] (lines 208-243): reading the keys of the
    first row of an empty table throws, which the [catch] answers with the
    empty object. *)
Definition generateVisualizations (data : list row) : list (string * string) :=
  match data with
  | [] => []
  | _ :: _ =>
      match numericColumns data with
      | col1 :: col2 :: _ =>
          let values1 := numbersOf data col1 in
          let values2 := numbersOf data col2 in
          if (1 <? List.length values1)%nat && (1 <? List.length values2)%nat then
            let scatterPlot :=
              VisualizationService.createScatterPlot rt chart values1 values2 col1 col2
                (col1 ++ " vs " ++ col2)%string in
            if negb (String.eqb scatterPlot "") then [("scatter_plot"%string, scatterPlot)]
            else []
          else []
      | _ => []
      end
  end.

End Handler.

End CSVHandler.

(* ------------------------------------------------------------------ *)
(** ** Vocabulary of the statements                                    *)
(* ------------------------------------------------------------------ *)

(** An image longer than the byte budget [maxImageSize]; a failed rendering
    is not one. *)
Definition overBudget (r : result Buffer) : bool :=
  match r with
  | Ok imageBuffer => (VisualizationService.maxImageSize <? Buffer_length imageBuffer)%Z
  | Throw _ => false
  end.

(** ToBoolean of a string or [null]: only a non-empty string is truthy. *)
Definition truthy_string (t : option string) : bool :=
  match t with
  | Some s => negb (String.eqb s "")
  | None => false
  end.

(** The year of a record as a number. *)
Definition yearOf (m : WikipediaHandler.movie) : number :=
  toNumber_opt (WikipediaHandler.year m).

(** A binary64 value: its mantissa and exponent are in canonical form, as
    those of every value produced by the engine are. *)
Definition binary64 (v : number) : Prop := valid_binary Num.prec Num.emax v = true.

(** Numeric order [a <= b]. *)
Definition ascending_order (a b : number) : Prop := Num.leb a b = true.

(** The population standard deviation: the square root of the mean of the
    squared deviations from the mean, the divisor being the number [n] of
    values (not [n - 1]). *)
Definition population_std_dev (values : list number) : number :=
  let n := Num.of_nat (List.length values) in
  let mu := Num.div (Num.sum values) n in
  Num.sqrt (Num.div (Num.sum (map (fun v => Num.mul (Num.sub v mu) (Num.sub v mu)) values)) n).

(** The values that reach the statistics block: binary64 values other than
    NaN. *)
Definition numeric (v : number) : Prop := binary64 v /\ Num.isNaN v = false.


(** The record of a shift that has lost no bit. *)
Definition no_loss (x : Z) : shr_record := {| shr_m := x; shr_r := false; shr_s := false |}.

(** The two essential fields of a row when both are truthy: a revenue other
    than 0 and NaN, and a non-empty title. *)
Definition essentials (r : row) : option (number * string) :=
  match WikipediaHandler.revenueValue r, WikipediaHandler.titleValue r with
  | Ok (Some revenue), Some title =>
      if Num.truthy revenue && negb (String.eqb title "") then Some (revenue, title)
      else None
  | _, _ => None
  end.

(** The number of question marks of a text. *)
Fixpoint questionMarks (s : string) : nat :=
  match s with
  | EmptyString => 0
  | String c s' => (if LLMService.isQuestionMark c then 1 else 0) + questionMarks s'
  end.

(** A question as extracted from a numbered list: some text without
    question mark that does not start with white space, followed by one
    question mark. *)
Definition wellFormedQuestion (q : string) : Prop :=
  exists body : string,
    q = (body ++ "?")%string
    /\ questionMarks body = 0%nat
    /\ match body with
       | String c _ => Str.isSpace c = false
       | EmptyString => True
       end.

(** A delay that [processDelayData] keeps: between 0 and 3650 days. *)
Definition reasonableDelay (row : DuckDBHandler.delay_row) : bool :=
  Num.geb (DuckDBHandler.delay_days row) Num.zero
  && Num.leb (DuckDBHandler.delay_days row) (Num.of_Z 3650).

(** Whether a text has a white-space character. *)
Fixpoint hasWhiteSpace (s : string) : bool :=
  match s with
  | EmptyString => false
  | String c s' => Str.isSpace c || hasWhiteSpace s'
  end.

(* ------------------------------------------------------------------ *)
(** ** Inputs used in the examples                                     *)
(* ------------------------------------------------------------------ *)

Module Examples.

Local Open Scope string_scope.
Local Open Scope js_scope.

(** The decimal digits of a natural number. *)
Definition digits (n : Z) : string := NilEmpty.string_of_uint (N.to_uint (Z.to_N n)).

Fixpoint zeros (k : nat) : string :=
  match k with
  | O => ""
  | S k' => "0" ++ zeros k'
  end.

(** [n] written with at least [k] digits. *)
Definition padded (k : nat) (n : Z) : string :=
  let d := digits n in zeros (k - String.length d) ++ d.

(** A number written by its exact decimal expansion. On the integers of
    magnitude below 2^53, on NaN and on the infinities this is the text the
    engine produces. *)
Definition exactDecimal (v : number) : string :=
  match v with
  | S754_nan => "NaN"
  | S754_infinity s => if s then "-Infinity" else "Infinity"
  | S754_zero _ => "0"
  | S754_finite s m e =>
      (if s then "-" else "") ++
      match e with
      | Zneg k =>
          let whole := (Zpos m / 2 ^ Zpos k)%Z in
          let fraction := ((Zpos m mod 2 ^ Zpos k) * 5 ^ Zpos k)%Z in
          if (fraction =? 0)%Z then digits whole
          else digits whole ++ "." ++ padded (Pos.to_nat k) fraction
      | _ => digits (Zpos m * 2 ^ e)
      end
  end.

(** [v.toFixed(f)] for a finite [v] of magnitude below 10^21: the integer
    [n] for which [n / 10^f] is nearest to [v], the larger one on a tie,
    written with [f] decimals. *)
Definition fixedDecimal (v : number) (f : nat) : string :=
  match v with
  | S754_finite s m e =>
      let scale := (10 ^ Z.of_nat f)%Z in
      let n := match e with
               | Zneg k => ((2 * Zpos m * scale + 2 ^ Zpos k) / 2 ^ (Zpos k + 1))%Z
               | _ => (Zpos m * 2 ^ e * scale)%Z
               end in
      (if s then "-" else "") ++ digits (n / scale) ++
      (if (0 <? f)%nat then "." ++ padded f (n mod scale) else "")
  | S754_zero _ => "0" ++ (if (0 <? f)%nat then "." ++ zeros f else "")
  | _ => exactDecimal v
  end.

Definition runtime : Runtime :=
  {| Number_toString := exactDecimal; Number_toFixed := fixedDecimal |}.

(** Two films that both peaked at number one. *)
Definition constantPeakTable : list row :=
  [ [("Title", "A"); ("Worldwide gross", "$2,500,000,000"); ("Year", "1995");
     ("Rank", "1"); ("Peak", "1")];
    [("Title", "B"); ("Worldwide gross", "$1,600,000,000"); ("Year", "2001");
     ("Rank", "2"); ("Peak", "1")] ].

Definition constantPeakFilms : list WikipediaHandler.movie :=
  [ {| WikipediaHandler.title := "A"; WikipediaHandler.revenue := #2500000000;
       WikipediaHandler.year := Some #1995;
       WikipediaHandler.rank := #1; WikipediaHandler.peak := #1 |};
    {| WikipediaHandler.title := "B"; WikipediaHandler.revenue := #1600000000;
       WikipediaHandler.year := Some #2001;
       WikipediaHandler.rank := #2; WikipediaHandler.peak := #1 |} ].

(** The value 2^-300. *)
Definition tiny : number := S754_finite false 4503599627370496 (-352).

(** The points (5,1), (5,2), (5,3). *)
Definition constantX : list VisualizationService.point :=
  [ {| VisualizationService.x := #5; VisualizationService.y := #1 |};
    {| VisualizationService.x := #5; VisualizationService.y := #2 |};
    {| VisualizationService.x := #5; VisualizationService.y := #3 |} ].

(** A chart library whose images are 100,001 bytes long on every canvas. *)
Definition oversizedImage : Buffer := repeat Byte.x00 (Z.to_nat 100001).

Definition oversizedChart : VisualizationService.ChartJS :=
  {| VisualizationService.renderToBuffer := fun _ _ => Ok oversizedImage |}.

Definition emptyConfiguration : VisualizationService.configuration :=
  {| VisualizationService.points_label := "";
     VisualizationService.points_data := [];
     VisualizationService.line_label := "";
     VisualizationService.line_data := [];
     VisualizationService.title_text := "";
     VisualizationService.x_title := "";
     VisualizationService.y_title := "" |}.

(** A task text with the three keywords of the films task and the word
    "regression". *)
Definition regressionTask : string :=
  "Scrape the highest-grossing films; give the correlation of Rank and Peak and a scatterplot with a regression line".

Definition filmsTask : string :=
  "Highest-Grossing Films: what is the correlation between Rank and Peak? Draw a scatterplot.".

(** A scraper that finds no table on any page. *)
Definition failingScraper (url : string) : result (list row) :=
  Throw "No wikitable found on the page".

(** A database that cannot be opened. *)
Definition unreachableDatabase : DuckDBHandler.DuckDB :=
  {| DuckDBHandler.open_database := Throw "IO Error";
     DuckDBHandler.run_statement := fun _ => Throw "IO Error";
     DuckDBHandler.query_courts := fun _ => Throw "IO Error";
     DuckDBHandler.query_delays := fun _ => Throw "IO Error" |}.

Definition courtTask : string :=
  "Which high court disposed the most cases from 2019 - 2022?".


(** A film whose revenue cell reads "$0". *)
Definition zeroRevenueRow : row :=
  [("Title", "A"); ("Worldwide gross", "$0"); ("Year", "1995")].

(** A table without a rank or position column; its second row has no
    revenue figure. *)
Definition unrankedTable : list row :=
  [ [("Title", "A"); ("Worldwide gross", "$2,500,000,000"); ("Year", "1995")];
    [("Title", "B"); ("Worldwide gross", "n/a"); ("Year", "1999")];
    [("Title", "C"); ("Worldwide gross", "$1,600,000,000"); ("Year", "2001")] ].

(** A row with a rank, and a peak column whose cell holds no digit. *)
Definition unreadablePeakRow : row :=
  [("Title", "D"); ("Worldwide gross", "$1,600,000,000"); ("Year", "2001");
   ("Rank", "7"); ("Peak", "n/a")].

(** Two films over $1.5bn released the same year, and a later one. *)
Definition film (title : string) (revenue year : Z) : WikipediaHandler.movie :=
  {| WikipediaHandler.title := title; WikipediaHandler.revenue := #revenue;
     WikipediaHandler.year := Some #year;
     WikipediaHandler.rank := #1; WikipediaHandler.peak := #1 |}.

Definition sameYearFilms : list WikipediaHandler.movie :=
  [ film "A" 2000000000 1997; film "B" 1800000000 1997; film "C" 2500000000 2009 ].


(** The conversion [Number] on cells made of decimal digits (the empty cell
    converts to 0, any other cell is taken as NaN). *)
Definition decimalNumber (cell : string) : number :=
  match cell with
  | EmptyString => Num.zero
  | _ => if String.eqb (Str.takeWhile Str.isDigit cell) cell then Str.parseInt cell
         else Num.NaN
  end.

Definition staff : list row :=
  [ [("Name", "John"); ("Age", "25")];
    [("Name", "Jane"); ("Age", "30")];
    [("Name", "Bob"); ("Age", "")];
    [("Name", "Eva"); ("Age", "27")] ].


(** A database that opens but cannot load its extensions nor answer a
    query. *)
Definition offlineDatabase : DuckDBHandler.DuckDB :=
  {| DuckDBHandler.open_database := Ok tt;
     DuckDBHandler.run_statement := fun _ => Throw "HTTP Error";
     DuckDBHandler.query_courts := fun _ => Throw "Catalog Error";
     DuckDBHandler.query_delays := fun _ => Throw "Catalog Error" |}.

Definition slopeTask : string :=
  "What's the regression slope of the date_of_registration - decision_date by year in the court=33_10?".


(** The first rows of the sample table of the API tests. *)
Definition employees : list row :=
  [ [("Name", "John Smith"); ("Age", "25"); ("Salary", "50000");
     ("Department", "Engineering"); ("Experience", "2")];
    [("Name", "Jane Doe"); ("Age", "30"); ("Salary", "60000");
     ("Department", "Marketing"); ("Experience", "5")];
    [("Name", "Bob Johnson"); ("Age", "35"); ("Salary", "75000");
     ("Department", "Engineering"); ("Experience", "8")];
    [("Name", "Alice Brown"); ("Age", "28"); ("Salary", "55000");
     ("Department", "Sales"); ("Experience", "3")] ].


(** A row with the columns of the films page, the rank coming first. *)
Definition rankedRow : row :=
  [("Rank", "1"); ("Peak", "1"); ("Title", "Avatar");
   ("Worldwide gross", "$2,923,706,026"); ("Year", "2009")].

(** A table with the single column "Value" holding 1, 2, 3, 4. *)
Definition fourValues : list row :=
  [ [("Value", "1")]; [("Value", "2")]; [("Value", "3")]; [("Value", "4")] ].

End Examples.

(* ================================================================== *)
(** * Properties                                                       *)
(* ================================================================== *)

Local Open Scope js_scope.

(** ** Correlation (C1) *)

(** The two [pearsonCorrelation] methods never return NaN: their last line
    replaces it by 0. *)
Lemma VisualizationService_pearsonCorrelation_not_NaN (x y : list number) :
  Num.isNaN (VisualizationService.pearsonCorrelation x y) = false.
Proof.
  unfold VisualizationService.pearsonCorrelation.
  destruct (negb _); [reflexivity|].
  match goal with |- context [if Num.isNaN ?c then _ else _] =>
    destruct (Num.isNaN c) eqn:E end; [reflexivity | exact E].
Qed.

Lemma CSVHandler_pearsonCorrelation_not_NaN (x y : list number) :
  Num.isNaN (CSVHandler.pearsonCorrelation x y) = false.
Proof.
  unfold CSVHandler.pearsonCorrelation.
  match goal with |- context [if Num.isNaN ?c then _ else _] =>
    destruct (Num.isNaN c) eqn:E end; [reflexivity | exact E].
Qed.

(** They return an infinity, not 0, when the product of the two variance
    terms underflows to zero under a non-zero numerator: [isNaN] lets the
    infinities through. Here both sequences are [0, 2^-300]. *)
Lemma pearsonCorrelation_infinite :
  VisualizationService.pearsonCorrelation [Num.zero; Examples.tiny] [Num.zero; Examples.tiny]
    = Num.Infinity
  /\ CSVHandler.pearsonCorrelation [Num.zero; Examples.tiny] [Num.zero; Examples.tiny]
    = Num.Infinity.
Proof. split; vm_compute; reflexivity. Qed.

(** C1. The Rank-vs-Peak correlation of the films analysis has no NaN guard:
    for two films that both peaked at number one (ranks 1 and 2, peaks 1 and
    1) the variance of the peaks is zero and [calculateRankPeakCorrelation]
    returns NaN, while both [pearsonCorrelation] methods return 0 on the
    same ranks and peaks. The two films are what [cleanFilmsData] extracts
    from the table [constantPeakTable]. *)
Theorem C1_calculateRankPeakCorrelation_returns_NaN :
  WikipediaHandler.cleanFilmsData Examples.constantPeakTable = Examples.constantPeakFilms
  /\ WikipediaHandler.calculateRankPeakCorrelation Examples.constantPeakFilms = Num.NaN
  /\ VisualizationService.pearsonCorrelation [#1; #2] [#1; #1] = Num.zero
  /\ CSVHandler.pearsonCorrelation [#1; #2] [#1; #1] = Num.zero.
Proof. repeat split; vm_compute; reflexivity. Qed.

(** ** Regression (C2) *)

(** The slope of the court-data path is never NaN. *)
Lemma calculateLinearRegressionSlope_not_NaN (xValues yValues : list number) :
  Num.isNaN (DuckDBHandler.calculateLinearRegressionSlope xValues yValues) = false.
Proof.
  unfold DuckDBHandler.calculateLinearRegressionSlope.
  destruct (_ || _); [reflexivity|].
  match goal with |- context [if Num.isNaN ?c then _ else _] =>
    destruct (Num.isNaN c) eqn:E end; [reflexivity | exact E].
Qed.

(** Its guard lets the infinities through: on four points of constant
    x = 0.7 (the binary64 value of 7/10) and y = 1, 2, 3, 4 the rounding
    errors of the sums leave a non-zero numerator over a zero denominator,
    and the slope returned is -Infinity. *)
Lemma calculateLinearRegressionSlope_infinite :
  DuckDBHandler.calculateLinearRegressionSlope
    [#7 / #10; #7 / #10; #7 / #10; #7 / #10] [#1; #2; #3; #4]
  = Num.neg Num.Infinity.
Proof. vm_compute. reflexivity. Qed.

(** C2. On the constant-x points (5,1), (5,2), (5,3) the chart-overlay
    regression [calculateRegression] divides 0 by 0 and returns NaN for both
    the slope and the intercept, where the court-data regression
    [calculateLinearRegressionSlope] returns the slope 0 on the same data. *)
Theorem C2_calculateRegression_constant_x_is_NaN :
  VisualizationService.calculateRegression Examples.constantX
    = {| VisualizationService.slope := Num.NaN; VisualizationService.intercept := Num.NaN |}
  /\ DuckDBHandler.calculateLinearRegressionSlope [#5; #5; #5] [#1; #2; #3] = Num.zero.
Proof. split; vm_compute; reflexivity. Qed.

(** ** Chart rendering (C3) *)

Lemma oversizedImage_length : Buffer_length Examples.oversizedImage = 100001%Z.
Proof.
  unfold Buffer_length, Examples.oversizedImage.
  rewrite repeat_length. apply Z2Nat.id. discriminate.
Qed.

(** A library whose image has the same over-long size on every canvas. *)
Lemma renderImage_all_over_budget (big : Buffer) cfg :
  Buffer_length big = 100001%Z ->
  VisualizationService.renderImage
    {| VisualizationService.renderToBuffer := fun _ _ => Ok big |} cfg
  = ([VisualizationService.chartJSNodeCanvas; VisualizationService.smallCanvas;
      VisualizationService.minimalCanvas], Ok big).
Proof.
  intros L. unfold VisualizationService.renderImage.
  cbn [VisualizationService.renderToBuffer]. rewrite L. reflexivity.
Qed.

Lemma createScatterPlot_all_over_budget (big : Buffer) rt :
  Buffer_length big = 100001%Z ->
  VisualizationService.createScatterPlot rt
    {| VisualizationService.renderToBuffer := fun _ _ => Ok big |}
    [#1; #2] [#1; #2] "Rank" "Peak" "Rank vs Peak Correlation"
  = ("data:image/png;base64," ++ Base64.encode big)%string.
Proof.
  intros L.
  unfold VisualizationService.createScatterPlot, VisualizationService.createScatterPlot_body.
  change (negb (Nat.eqb (List.length [#1; #2]) (List.length [#1; #2]))) with false.
  change (List.length [#1; #2] <? 2)%nat with false.
  change (List.length (VisualizationService.cleanPoints [#1; #2] [#1; #2]) <? 2)%nat with false.
  cbv iota. rewrite renderImage_all_over_budget by exact L.
  reflexivity.
Qed.

Lemma list_ind3 {A : Type} (P : list A -> Prop) :
  P [] -> (forall a, P [a]) -> (forall a b, P [a; b]) ->
  (forall a b c l, P l -> P (a :: b :: c :: l)) ->
  forall l, P l.
Proof.
  intros H0 H1 H2 H3. fix F 1.
  intros [|a [|b [|c l]]]; [exact H0 | apply H1 | apply H2 | apply H3; apply F].
Qed.

(** An image of [n] bytes is encoded on [4 * ceil (n / 3)] characters. *)
Lemma Base64_encode_length (b : Buffer) :
  String.length (Base64.encode b) = (4 * ((List.length b + 2) / 3))%nat.
Proof.
  induction b as [| a | a b | a b c l IH] using list_ind3; try reflexivity.
  cbn [Base64.encode String.length List.length]. rewrite IH.
  replace (S (S (S (List.length l))) + 2)%nat with (List.length l + 2 + 1 * 3)%nat by lia.
  rewrite Nat.div_add by lia. lia.
Qed.

(** C3, counterexample. With a chart library whose image is 100,001 bytes
    long on every canvas, the three canvases are tried and the image of the
    last one is returned although it is over the budget of 100,000 bytes;
    [createScatterPlot] returns its data URI. *)
Lemma C3_counterexample_oversized_third_tier :
  VisualizationService.renderImage Examples.oversizedChart Examples.emptyConfiguration
    = ([VisualizationService.chartJSNodeCanvas; VisualizationService.smallCanvas;
        VisualizationService.minimalCanvas], Ok Examples.oversizedImage)
  /\ (VisualizationService.maxImageSize < Buffer_length Examples.oversizedImage)%Z
  /\ VisualizationService.createScatterPlot Examples.runtime Examples.oversizedChart
       [#1; #2] [#1; #2] "Rank" "Peak" "Rank vs Peak Correlation"
     = ("data:image/png;base64," ++ Base64.encode Examples.oversizedImage)%string.
Proof.
  pose proof oversizedImage_length as L.
  split; [|split].
  - exact (renderImage_all_over_budget _ _ L).
  - rewrite L. reflexivity.
  - exact (createScatterPlot_all_over_budget _ _ L).
Qed.

(** C3, as amended. The renderer has three fixed canvases, tried in the
    order 800x600, 600x400, 400x300; a canvas is rendered on only when every
    earlier image was over the budget, and the image returned is the one of
    the last canvas tried. So the image is within the budget whenever the
    800x600 or the 600x400 image is the one returned, and the 400x300 image
    is returned whatever its size. The string returned by
    [createScatterPlot] is empty or the data URI of that image; the budget
    bounds the bytes of the image, the data URI of an image of [n] bytes
    being [22 + 4 * ceil (n / 3)] characters long. *)
Theorem C3_renderImage_three_tiers (chart : VisualizationService.ChartJS) :
  (forall cfg : VisualizationService.configuration,
     let tier c := VisualizationService.renderToBuffer chart c cfg in
     let c1 := VisualizationService.chartJSNodeCanvas in
     let c2 := VisualizationService.smallCanvas in
     let c3 := VisualizationService.minimalCanvas in
     c1 = {| VisualizationService.canvas_width := 800; VisualizationService.canvas_height := 600 |}
     /\ c2 = {| VisualizationService.canvas_width := 600; VisualizationService.canvas_height := 400 |}
     /\ c3 = {| VisualizationService.canvas_width := 400; VisualizationService.canvas_height := 300 |}
     /\ (VisualizationService.renderImage chart cfg = ([c1], tier c1)
           /\ overBudget (tier c1) = false
         \/ VisualizationService.renderImage chart cfg = ([c1; c2], tier c2)
           /\ overBudget (tier c1) = true /\ overBudget (tier c2) = false
         \/ VisualizationService.renderImage chart cfg = ([c1; c2; c3], tier c3)
           /\ overBudget (tier c1) = true /\ overBudget (tier c2) = true))
  /\ (forall rt xData yData xLabel yLabel title,
        VisualizationService.createScatterPlot rt chart xData yData xLabel yLabel title
          = EmptyString
        \/ exists cfg imageBuffer,
             snd (VisualizationService.renderImage chart cfg) = Ok imageBuffer
             /\ VisualizationService.createScatterPlot rt chart xData yData xLabel yLabel title
                = ("data:image/png;base64," ++ Base64.encode imageBuffer)%string)
  /\ (forall imageBuffer : Buffer,
        String.length ("data:image/png;base64," ++ Base64.encode imageBuffer)
        = (22 + 4 * ((List.length imageBuffer + 2) / 3))%nat).
Proof.
  split; [|split].
  - intros cfg tier c1 c2 c3.
    repeat (split; [reflexivity|]).
    unfold VisualizationService.renderImage. fold c1 c2 c3.
    change (VisualizationService.renderToBuffer chart c1 cfg) with (tier c1).
    change (VisualizationService.renderToBuffer chart c2 cfg) with (tier c2).
    change (VisualizationService.renderToBuffer chart c3 cfg) with (tier c3).
    destruct (tier c1) as [b1|m1] eqn:E1; simpl.
    + destruct (VisualizationService.maxImageSize <? Buffer_length b1)%Z eqn:L1.
      * destruct (tier c2) as [b2|m2] eqn:E2; simpl.
        -- destruct (VisualizationService.maxImageSize <? Buffer_length b2)%Z eqn:L2.
           ++ right; right. auto.
           ++ right; left. auto.
        -- right; left. auto.
      * left. auto.
    + left. auto.
  - intros rt xData yData xLabel yLabel title.
    unfold VisualizationService.createScatterPlot, VisualizationService.createScatterPlot_body.
    destruct (negb _); [left; reflexivity|].
    destruct (_ <? 2)%nat; [left; reflexivity|].
    destruct (_ <? 2)%nat; [left; reflexivity|].
    match goal with |- context [VisualizationService.renderImage chart ?c] =>
      destruct (snd (VisualizationService.renderImage chart c)) as [b|m] eqn:E;
      simpl; [right; exists c, b; split; [exact E | reflexivity] | left; reflexivity]
    end.
  - intros imageBuffer. cbn [append String.length].
    rewrite Base64_encode_length. reflexivity.
Qed.

(** ** Errors of the domain-specific paths (C4) *)

(** C4, counterexample. When the scraper throws, [processWikipediaTask]
    throws as well, with the message prefixed; no sample value is
    returned. *)
Lemma C4_counterexample_wikipedia_rethrows :
  WikipediaHandler.processWikipediaTask Examples.runtime Examples.oversizedChart
    Examples.failingScraper Examples.filmsTask
    (LLMService.fallbackAnalysis Examples.filmsTask)
  = Throw "Failed to process Wikipedia data: No wikitable found on the page".
Proof. reflexivity. Qed.

(** C4, as amended. The court-data path always returns a value: whatever is
    thrown in its [try] block (here, by [initializeConnection]) is replaced
    by [getSampleCourtData], which depends on the task text and on
    [visualizationNeeded] only; a failed query inside [findTopCourtByCases]
    is answered by "Delhi High Court". The Wikipedia path instead throws
    again: when the scraper throws with message [m], [processWikipediaTask]
    throws "Failed to process Wikipedia data: m". *)
Theorem C4_court_falls_back_wikipedia_rethrows :
  (forall rt chart db connected taskDescription taskAnalysis,
     (exists v,
        fst (DuckDBHandler.processCourtDataTask rt chart db connected
               taskDescription taskAnalysis) = Ok v)
     /\ (forall m,
           fst (DuckDBHandler.initializeConnection db connected) = Throw m ->
           fst (DuckDBHandler.processCourtDataTask rt chart db connected
                  taskDescription taskAnalysis)
           = Ok (DuckDBHandler.getSampleCourtData taskDescription taskAnalysis)))
  /\ (forall db m,
        DuckDBHandler.query_courts db DuckDBHandler.topCourtQuery = Throw m ->
        DuckDBHandler.findTopCourtByCases db = "Delhi High Court"%string)
  /\ (forall rt chart scrape taskDescription taskAnalysis m,
        scrape (WikipediaHandler.determineWikipediaUrl taskDescription) = Throw m ->
        WikipediaHandler.processWikipediaTask rt chart scrape taskDescription taskAnalysis
        = Throw ("Failed to process Wikipedia data: " ++ m)%string).
Proof.
  split; [|split].
  - intros rt chart db connected taskDescription taskAnalysis.
    unfold DuckDBHandler.processCourtDataTask.
    destruct (DuckDBHandler.initializeConnection db connected) as [init connected'].
    cbn [fst]. split.
    + unfold try_catch.
      destruct (DuckDBHandler.processCourtDataTask_body _ _ _ _ _ _) as [v|m];
        eexists; reflexivity.
    + intros m H. cbn [fst] in H. subst init. reflexivity.
  - intros db m H. unfold DuckDBHandler.findTopCourtByCases. rewrite H. reflexivity.
  - intros rt chart scrape taskDescription taskAnalysis m H.
    unfold WikipediaHandler.processWikipediaTask. rewrite H. reflexivity.
Qed.

(** The amended statement at concrete inputs: an unreachable database and a
    scraper that finds no table. *)
Lemma C4_witness :
  fst (DuckDBHandler.processCourtDataTask Examples.runtime Examples.oversizedChart
         Examples.unreachableDatabase false Examples.courtTask
         (LLMService.fallbackAnalysis Examples.courtTask))
  = Ok (VString "Delhi High Court")
  /\ DuckDBHandler.findTopCourtByCases Examples.unreachableDatabase = "Delhi High Court"%string
  /\ WikipediaHandler.processWikipediaTask Examples.runtime Examples.oversizedChart
       Examples.failingScraper Examples.filmsTask
       (LLMService.fallbackAnalysis Examples.filmsTask)
     = Throw "Failed to process Wikipedia data: No wikitable found on the page".
Proof.
  split; [|split].
  - exact (proj2 (proj1 C4_court_falls_back_wikipedia_rethrows
             Examples.runtime Examples.oversizedChart Examples.unreachableDatabase false
             Examples.courtTask (LLMService.fallbackAnalysis Examples.courtTask))
           "IO Error"%string eq_refl).
  - exact (proj1 (proj2 C4_court_falls_back_wikipedia_rethrows)
             Examples.unreachableDatabase "IO Error"%string eq_refl).
  - exact (proj2 (proj2 C4_court_falls_back_wikipedia_rethrows)
             Examples.runtime Examples.oversizedChart Examples.failingScraper
             Examples.filmsTask (LLMService.fallbackAnalysis Examples.filmsTask)
             "No wikitable found on the page"%string eq_refl).
Defined.

(** ** Deterministic classification (C8) *)

Lemma prefix_app_l (a b s : string) :
  String.prefix (a ++ b) s = true -> String.prefix a s = true.
Proof.
  revert s. induction a as [|c a IH]; intros s H.
  - destruct s; reflexivity.
  - destruct s as [|d s]; simpl in *; [discriminate|].
    destruct (ascii_dec c d); [apply IH; exact H | discriminate].
Qed.

Lemma includes_nil (sub : string) :
  Str.includes "" sub = String.prefix sub "".
Proof. destruct sub; reflexivity. Qed.

Lemma includes_cons (c : ascii) (s sub : string) :
  Str.includes (String c s) sub
  = if String.prefix sub (String c s) then true else Str.includes s sub.
Proof. reflexivity. Qed.

(** A text that contains [a ++ b] contains [a]. *)
Lemma includes_app_l (s a b : string) :
  Str.includes s (a ++ b) = true -> Str.includes s a = true.
Proof.
  induction s as [|c s IH].
  - rewrite !includes_nil. apply prefix_app_l.
  - rewrite !includes_cons.
    destruct (String.prefix (a ++ b) (String c s)) eqn:P.
    + intros _. rewrite (prefix_app_l _ _ _ P). reflexivity.
    + intros H. rewrite (IH H). destruct (String.prefix a (String c s)); reflexivity.
Qed.

(** C8, counterexample. A task text with the three keywords and the word
    "regression" is classified as a regression task. *)
Lemma C8_counterexample_regression_overrides :
  let task := Str.toLowerCase Examples.regressionTask in
  Str.includes task "highest-grossing films" = true
  /\ Str.includes task "correlation" = true
  /\ Str.includes task "scatterplot" = true
  /\ LLMService.analysisType (LLMService.fallbackAnalysis Examples.regressionTask)
     = "regression"%string
  /\ LLMService.analysisType (LLMService.fallbackAnalysis Examples.regressionTask)
     <> "correlation"%string.
Proof. repeat split; try reflexivity. vm_compute. discriminate. Qed.

(** C8, as amended. For a task text that contains, in any letter case,
    "highest-grossing films", "correlation" and "scatterplot", the
    deterministic strategy yields dataSource "wikipedia" and
    visualizationNeeded true; analysisType is "count" when the text also
    contains "how many" or "count", else "regression" when it contains
    "regression", and "correlation" otherwise. *)
Theorem C8_fallbackAnalysis_films_task (taskDescription : string) :
  let task := Str.toLowerCase taskDescription in
  Str.includes task "highest-grossing films" = true ->
  Str.includes task "correlation" = true ->
  Str.includes task "scatterplot" = true ->
  let a := LLMService.fallbackAnalysis taskDescription in
  LLMService.dataSource a = "wikipedia"%string
  /\ LLMService.visualizationNeeded a = true
  /\ LLMService.analysisType a =
       (if Str.includes task "how many" || Str.includes task "count" then "count"
        else if Str.includes task "regression" then "regression"
        else "correlation")%string.
Proof.
  intros task Hfilms Hcorr Hscatter a.
  assert (Hhg : Str.includes task "highest-grossing" = true)
    by exact (includes_app_l task "highest-grossing" " films" Hfilms).
  assert (Hsc : Str.includes task "scatter" = true)
    by exact (includes_app_l task "scatter" "plot" Hscatter).
  subst a. unfold LLMService.fallbackAnalysis. fold task.
  rewrite Hhg, Hcorr, Hsc.
  rewrite !orb_true_r. cbn [orb].
  destruct (Str.includes task "regression");
    destruct (Str.includes task "how many" || Str.includes task "count");
    destruct (Str.includes task "base64" || Str.includes task "data:image");
    cbn; repeat split; try reflexivity;
    destruct (Str.includes task "plot" || Str.includes task "chart"); reflexivity.
Qed.

Lemma C8_witness :
  LLMService.dataSource (LLMService.fallbackAnalysis Examples.filmsTask) = "wikipedia"%string
  /\ LLMService.visualizationNeeded (LLMService.fallbackAnalysis Examples.filmsTask) = true
  /\ LLMService.analysisType (LLMService.fallbackAnalysis Examples.filmsTask)
     = "correlation"%string.
Proof.
  exact (C8_fallbackAnalysis_films_task Examples.filmsTask eq_refl eq_refl eq_refl).
Defined.

(** ** The order of numbers *)

Ltac order_cases :=
  repeat match goal with
  | s : bool |- _ => destruct s
  end;
  simpl in *; try discriminate; try reflexivity;
  repeat match goal with
  | H : context [Z.compare ?a ?b] |- _ => destruct (Z.compare_spec a b)
  | |- context [Z.compare ?a ?b] => destruct (Z.compare_spec a b)
  | H : context [Pos.compare_cont Eq ?a ?b] |- _ =>
      change (Pos.compare_cont Eq a b) with (Pos.compare a b) in H;
      destruct (Pos.compare_spec a b)
  | |- context [Pos.compare_cont Eq ?a ?b] =>
      change (Pos.compare_cont Eq a b) with (Pos.compare a b);
      destruct (Pos.compare_spec a b)
  end; simpl in *; try discriminate; try reflexivity; try lia.

(** [<] is transitive, and on numbers other than NaN so is its negation. *)
Lemma ltb_trans (a b c : number) :
  Num.ltb a b = true -> Num.ltb b c = true -> Num.ltb a c = true.
Proof.
  unfold Num.ltb, SFltb.
  destruct a as [sa|sa| |sa ma ea], b as [sb|sb| |sb mb eb], c as [sc|sc| |sc mc ec];
    simpl; try discriminate; try reflexivity; intros H1 H2; order_cases.
Qed.

Lemma ltb_neg_trans (a b c : number) :
  Num.isNaN a = false -> Num.isNaN b = false -> Num.isNaN c = false ->
  Num.ltb a b = false -> Num.ltb b c = false -> Num.ltb a c = false.
Proof.
  unfold Num.ltb, SFltb.
  destruct a as [sa|sa| |sa ma ea], b as [sb|sb| |sb mb eb], c as [sc|sc| |sc mc ec];
    simpl; try discriminate; try reflexivity; intros _ _ _ H1 H2; order_cases.
Qed.

Lemma truthy_not_NaN (v : number) : Num.truthy v = true -> Num.isNaN v = false.
Proof. destruct v; simpl; congruence. Qed.

(** ** The sign of a difference *)

Local Open Scope Z_scope.

(** The number of binary digits of a mantissa. *)
Lemma digits2_size (m : positive) : digits2_pos m = Pos.size m.
Proof. induction m; simpl; congruence. Qed.

Lemma digits2_lower (m : positive) : 2 ^ (Zpos (digits2_pos m) - 1) <= Zpos m.
Proof.
  rewrite digits2_size.
  pose proof (Pos.size_le m) as H.
  assert (E : Zpos (2 ^ Pos.size m) = 2 ^ Zpos (Pos.size m)) by apply Pos2Z.inj_pow.
  assert (2 ^ Zpos (Pos.size m) <= 2 * Zpos m) by (rewrite <- E; exact H).
  replace (Zpos (Pos.size m)) with (Zpos (Pos.size m) - 1 + 1) in H0 by lia.
  rewrite Z.pow_add_r in H0 by lia. lia.
Qed.

Lemma digits2_upper (m : positive) : Zpos m < 2 ^ Zpos (digits2_pos m).
Proof.
  rewrite digits2_size. pose proof (Pos.size_gt m) as H.
  rewrite <- Pos2Z.inj_pow. exact H.
Qed.

Lemma shr_1_m (mrs : shr_record) :
  0 <= shr_m mrs -> shr_m (shr_1 mrs) = shr_m mrs / 2.
Proof.
  destruct mrs as [m r s]. simpl. intros H.
  destruct m as [|[p|p|]|p]; simpl; try reflexivity; try lia.
  - rewrite Pos2Z.inj_xI. apply Z.div_unique with 1; lia.
  - rewrite Pos2Z.inj_xO. apply Z.div_unique with 0; lia.
Qed.

Lemma shr_iter_m (p : positive) : forall mrs,
  0 <= shr_m mrs ->
  shr_m (iter_pos shr_1 p mrs) = shr_m mrs / 2 ^ Zpos p.
Proof.
  assert (P2 : forall q, 0 < 2 ^ Zpos q) by (intros; apply Z.pow_pos_nonneg; lia).
  induction p as [p IH|p IH|]; intros mrs H; simpl iter_pos.
  - assert (H1 : 0 <= shr_m (shr_1 mrs)) by (rewrite shr_1_m by exact H; apply Z.div_pos; lia).
    assert (H2 : 0 <= shr_m (iter_pos shr_1 p (shr_1 mrs)))
      by (rewrite IH by exact H1; apply Z.div_pos; [exact H1 | apply P2]).
    rewrite IH by exact H2. rewrite IH by exact H1. rewrite shr_1_m by exact H.
    rewrite !Z.div_div by (try apply P2; lia).
    f_equal. replace (Zpos p~1) with (1 + Zpos p + Zpos p) by lia.
    rewrite !Z.pow_add_r by lia. rewrite Z.pow_1_r. lia.
  - assert (H2 : 0 <= shr_m (iter_pos shr_1 p mrs))
      by (rewrite IH by exact H; apply Z.div_pos; [exact H | apply P2]).
    rewrite IH by exact H2. rewrite IH by exact H.
    rewrite !Z.div_div by (try apply P2; lia).
    f_equal. replace (Zpos p~0) with (Zpos p + Zpos p) by lia.
    rewrite !Z.pow_add_r by lia. lia.
  - rewrite shr_1_m by exact H. reflexivity.
Qed.

Lemma shr_record_of_loc_m (m : Z) (l : location) : shr_m (shr_record_of_loc m l) = m.
Proof. destruct l as [|[]]; reflexivity. Qed.

(** Shifting a positive mantissa to its canonical exponent leaves it
    positive when the exponent is not below the least one. *)
Lemma shr_fexp_positive (m e : Z) (l : location) :
  0 < m -> emin Num.prec Num.emax <= e ->
  0 < shr_m (fst (shr_fexp Num.prec Num.emax m e l))
  /\ emin Num.prec Num.emax <= snd (shr_fexp Num.prec Num.emax m e l).
Proof.
  intros Hm He. unfold shr_fexp, shr.
  destruct m as [|m|m]; try lia. simpl Zdigits2.
  destruct (fexp Num.prec Num.emax (Zpos (digits2_pos m) + e) - e) as [|p|p] eqn:N;
    simpl fst; simpl snd; rewrite ?shr_record_of_loc_m; try (split; lia).
  rewrite shr_iter_m by (rewrite shr_record_of_loc_m; lia).
  rewrite shr_record_of_loc_m.
  unfold fexp, emin, Num.prec, Num.emax in *.
  split; [|lia].
  apply Z.div_str_pos. split; [apply Z.pow_pos_nonneg; lia|].
  apply Z.le_trans with (2 ^ (Zpos (digits2_pos m) - 1)); [|apply digits2_lower].
  apply Z.pow_le_mono_r; lia.
Qed.

Lemma round_nearest_even_ge (m : Z) (l : location) : m <= round_nearest_even m l.
Proof. destruct l as [|[]]; simpl; try lia. destruct (Z.even m); lia. Qed.

Lemma binary_round_aux_sign (s : bool) (m e : Z) (l : location) :
  0 < m -> emin Num.prec Num.emax <= e ->
  (exists m' e', binary_round_aux Num.prec Num.emax s m e l = S754_finite s m' e')
  \/ binary_round_aux Num.prec Num.emax s m e l = S754_infinity s.
Proof.
  intros Hm He. unfold binary_round_aux.
  destruct (shr_fexp_positive m e l Hm He) as [H1 H2].
  destruct (shr_fexp Num.prec Num.emax m e l) as [mrs' e']. simpl in H1, H2.
  pose proof (round_nearest_even_ge (shr_m mrs') (loc_of_shr_record mrs')) as R.
  destruct (shr_fexp_positive (round_nearest_even (shr_m mrs') (loc_of_shr_record mrs'))
              e' loc_Exact ltac:(lia) H2) as [H3 H4].
  destruct (shr_fexp Num.prec Num.emax _ e' loc_Exact) as [mrs'' e'']. simpl in H3, H4.
  destruct (shr_m mrs'') as [|m''|m'']; try lia.
  destruct (e'' <=? Num.emax - Num.prec); [left; eauto | right; reflexivity].
Qed.

Lemma pos_iter_xO (m d : positive) : Zpos (Pos.iter xO m d) = Zpos m * 2 ^ Zpos d.
Proof.
  induction d as [|d IH] using Pos.peano_ind.
  - simpl. lia.
  - rewrite Pos.iter_succ, Pos2Z.inj_xO, IH, Pos2Z.inj_succ, Z.pow_succ_r by lia. lia.
Qed.

Lemma shl_align_value (m : positive) (e e' : Z) :
  e' <= e -> Zpos (fst (shl_align m e e')) = Zpos m * 2 ^ (e - e').
Proof.
  intros H. unfold shl_align.
  destruct (e' - e) as [|d|d] eqn:D; try lia; simpl fst.
  - replace (e - e') with 0 by lia. lia.
  - rewrite pos_iter_xO. f_equal. f_equal. lia.
Qed.

Lemma binary_round_sign (s : bool) (m : positive) (e : Z) :
  emin Num.prec Num.emax <= e ->
  (exists m' e', binary_round Num.prec Num.emax s m e = S754_finite s m' e')
  \/ binary_round Num.prec Num.emax s m e = S754_infinity s.
Proof.
  intros He. unfold binary_round.
  destruct (shl_align m e (fexp Num.prec Num.emax (Zpos (digits2_pos m) + e))) as [mz ez] eqn:A.
  apply binary_round_aux_sign; [lia|].
  unfold shl_align in A.
  destruct (fexp Num.prec Num.emax (Zpos (digits2_pos m) + e) - e) as [|d|d] eqn:D;
    injection A as <- <-; try exact He.
  unfold fexp. lia.
Qed.

Lemma bounded_canonical (m : positive) (e : Z) :
  bounded Num.prec Num.emax m e = true ->
  emin Num.prec Num.emax <= e
  /\ Zpos (digits2_pos m) <= Num.prec
  /\ (emin Num.prec Num.emax < e -> Zpos (digits2_pos m) = Num.prec).
Proof.
  unfold bounded, canonical_mantissa, fexp, emin, Num.prec, Num.emax.
  intros H. apply andb_true_iff in H. destruct H as [H _].
  apply Z.eqb_eq in H. lia.
Qed.

(** Of two canonical magnitudes the one with the larger exponent is the
    larger. *)
Lemma magnitude_lt (ma mb : positive) (ea eb : Z) :
  bounded Num.prec Num.emax ma ea = true ->
  bounded Num.prec Num.emax mb eb = true ->
  ea < eb ->
  Zpos ma < Zpos mb * 2 ^ (eb - ea).
Proof.
  intros Ha Hb L.
  destruct (bounded_canonical ma ea Ha) as (Ea & Da & _).
  destruct (bounded_canonical mb eb Hb) as (_ & _ & Db).
  specialize (Db ltac:(lia)).
  pose proof (digits2_upper ma) as Ua. pose proof (digits2_lower mb) as Lb.
  rewrite Db in Lb.
  assert (Zpos ma < 2 ^ Num.prec).
  { eapply Z.lt_le_trans; [exact Ua|]. apply Z.pow_le_mono_r; lia. }
  assert (2 ^ 1 <= 2 ^ (eb - ea)) by (apply Z.pow_le_mono_r; lia).
  assert (2 ^ Num.prec = 2 ^ (Num.prec - 1) * 2 ^ 1)
    by (rewrite <- Z.pow_add_r by (unfold Num.prec; lia); f_equal; lia).
  assert (0 < 2 ^ (Num.prec - 1)) by (apply Z.pow_pos_nonneg; unfold Num.prec; lia).
  nia.
Qed.

Lemma ltb_zero_finite (s : bool) (m : positive) (e : Z) :
  Num.ltb (S754_finite s m e) Num.zero = s.
Proof. destruct s; reflexivity. Qed.

Lemma binary_normalize_ltb_zero (M e : Z) :
  emin Num.prec Num.emax <= e ->
  Num.ltb (binary_normalize Num.prec Num.emax M e false) Num.zero = (M <? 0).
Proof.
  intros He. destruct M as [|m|m]; simpl binary_normalize.
  - reflexivity.
  - destruct (binary_round_sign false m e He) as [(m' & e' & ->)| ->]; reflexivity.
  - destruct (binary_round_sign true m e He) as [(m' & e' & ->)| ->]; reflexivity.
Qed.

Ltac ltb_zero :=
  cbv beta iota delta [cond_Zopp CompOpp];
  match goal with
  | |- (_ <? 0) = true => apply Z.ltb_lt; lia
  | |- (_ <? 0) = false => apply Z.ltb_ge; lia
  end.

(** The sign of the difference of two binary64 values, neither of them NaN,
    tells which is the smaller: [a - b < 0] exactly when [a < b]. *)
Lemma sub_negative_iff_ltb (a b : number) :
  binary64 a -> binary64 b -> Num.isNaN a = false -> Num.isNaN b = false ->
  Num.ltb (Num.sub a b) Num.zero = Num.ltb a b.
Proof.
  unfold binary64.
  destruct a as [sa|sa| |sa ma ea], b as [sb|sb| |sb mb eb]; simpl valid_binary;
    intros Va Vb Na Nb; try discriminate;
    try (destruct sa; destruct sb; reflexivity);
    try (destruct sa; reflexivity); try (destruct sb; reflexivity).
  unfold Num.sub, SFsub.
  destruct (bounded_canonical ma ea Va) as (Ea & _).
  destruct (bounded_canonical mb eb Vb) as (Eb & _).
  rewrite binary_normalize_ltb_zero by lia.
  rewrite !shl_align_value by lia.
  unfold Num.ltb, SFltb, SFcompare.
  assert (Pa : 0 < Zpos ma * 2 ^ (ea - Z.min ea eb)) by (apply Z.mul_pos_pos; [lia | apply Z.pow_pos_nonneg; lia]).
  assert (Pb : 0 < Zpos mb * 2 ^ (eb - Z.min ea eb)) by (apply Z.mul_pos_pos; [lia | apply Z.pow_pos_nonneg; lia]).
  change (Pos.compare_cont Eq ma mb) with (Pos.compare ma mb).
  destruct (Z.compare_spec ea eb) as [E|L|G].
  - subst eb. rewrite Z.min_id, Z.sub_diag, Z.pow_0_r, !Z.mul_1_r in *.
    destruct sa, sb; destruct (Pos.compare_spec ma mb); ltb_zero.
  - pose proof (magnitude_lt ma mb ea eb Va Vb L) as M.
    rewrite Z.min_l in * by lia. rewrite Z.sub_diag, Z.pow_0_r, Z.mul_1_r in *.
    destruct sa, sb; ltb_zero.
  - pose proof (magnitude_lt mb ma eb ea Vb Va ltac:(lia)) as M.
    rewrite Z.min_r in * by lia. rewrite Z.sub_diag, Z.pow_0_r, Z.mul_1_r in *.
    destruct sa, sb; ltb_zero.
Qed.

(** ** Integers that are exact in binary64 *)

(** The number of digits is determined by the two powers of 2 around the
    mantissa. *)
Lemma digits2_unique (m : positive) (d : Z) :
  2 ^ (d - 1) <= Zpos m < 2 ^ d -> Zpos (digits2_pos m) = d.
Proof.
  intros [L U].
  pose proof (digits2_lower m) as L0. pose proof (digits2_upper m) as U0.
  destruct (Z.lt_trichotomy (Zpos (digits2_pos m)) d) as [H|[H|H]]; [|exact H|].
  - assert (2 ^ Zpos (digits2_pos m) <= 2 ^ (d - 1)) by (apply Z.pow_le_mono_r; lia). lia.
  - assert (2 ^ d <= 2 ^ (Zpos (digits2_pos m) - 1)) by (apply Z.pow_le_mono_r; lia). lia.
Qed.

Lemma digits2_scaled (N m : positive) (a : Z) :
  0 <= a -> Zpos m = Zpos N * 2 ^ a ->
  Zpos (digits2_pos m) = Zpos (digits2_pos N) + a.
Proof.
  intros Ha E. apply digits2_unique. rewrite E.
  pose proof (digits2_lower N) as L0. pose proof (digits2_upper N) as U0.
  assert (P : 0 < 2 ^ a) by (apply Z.pow_pos_nonneg; lia).
  replace (Zpos (digits2_pos N) + a - 1) with (Zpos (digits2_pos N) - 1 + a) by lia.
  rewrite !Z.pow_add_r by lia. split; nia.
Qed.

Lemma shr_1_exact (x : Z) : 0 <= x -> shr_1 (no_loss (2 * x)) = no_loss x.
Proof. destruct x as [|p|p]; try lia; reflexivity. Qed.

(** Shifting out [p] zero bits loses nothing. *)
Lemma shr_iter_exact (p : positive) : forall x,
  0 <= x -> iter_pos shr_1 p (no_loss (x * 2 ^ Zpos p)) = no_loss x.
Proof.
  assert (P2 : forall q, 0 < 2 ^ Zpos q) by (intros; apply Z.pow_pos_nonneg; lia).
  induction p as [p IH|p IH|]; intros x Hx; cbn [iter_pos].
  - replace (x * 2 ^ Zpos p~1) with (2 * ((x * 2 ^ Zpos p) * 2 ^ Zpos p)).
    + rewrite shr_1_exact by (pose proof (P2 p); nia).
      rewrite IH by (pose proof (P2 p); nia). apply IH. exact Hx.
    + replace (Zpos p~1) with (1 + Zpos p + Zpos p) by lia.
      rewrite !Z.pow_add_r by lia. rewrite Z.pow_1_r. lia.
  - replace (x * 2 ^ Zpos p~0) with ((x * 2 ^ Zpos p) * 2 ^ Zpos p).
    + rewrite IH by (pose proof (P2 p); nia). apply IH. exact Hx.
    + replace (Zpos p~0) with (Zpos p + Zpos p) by lia.
      rewrite !Z.pow_add_r by lia. lia.
  - rewrite Z.pow_1_r, Z.mul_comm. apply shr_1_exact. exact Hx.
Qed.

(** A full-width mantissa in the normal range is not shifted. *)
Lemma shr_fexp_full (m : positive) (t : Z) :
  Zpos (digits2_pos m) = Num.prec ->
  emin Num.prec Num.emax <= t ->
  shr_fexp Num.prec Num.emax (Zpos m) t loc_Exact = (no_loss (Zpos m), t).
Proof.
  intros D T. unfold shr_fexp, shr. simpl Zdigits2. rewrite D.
  replace (fexp Num.prec Num.emax (Num.prec + t) - t) with 0
    by (unfold fexp, emin, Num.prec, Num.emax in *; lia).
  reflexivity.
Qed.

(** Rounding a full-width mantissa in the normal range changes nothing. *)
Lemma binary_round_aux_full (m : positive) (t : Z) :
  Zpos (digits2_pos m) = Num.prec ->
  emin Num.prec Num.emax <= t <= Num.emax - Num.prec ->
  binary_round_aux Num.prec Num.emax false (Zpos m) t loc_Exact = S754_finite false m t.
Proof.
  intros D [T1 T2]. unfold binary_round_aux.
  rewrite (shr_fexp_full m t D T1).
  cbn [no_loss shr_m loc_of_shr_record round_nearest_even shr_r shr_s].
  rewrite (shr_fexp_full m t D T1).
  cbn [no_loss shr_m]. apply Z.leb_le in T2. rewrite T2. reflexivity.
Qed.

(** The rounding of a value [N * 2^(a + e0)] whose mantissa [N] fits in 53
    bits, in the normal range: the mantissa is only realigned. *)
Lemma binary_round_scaled (N m mz : positive) (a e0 : Z) :
  let d := Zpos (digits2_pos N) in
  0 <= a -> d <= Num.prec ->
  Zpos m = Zpos N * 2 ^ a ->
  Zpos mz = Zpos N * 2 ^ (Num.prec - d) ->
  emin Num.prec Num.emax <= a + e0 + d - Num.prec <= Num.emax - Num.prec ->
  binary_round Num.prec Num.emax false m e0
  = S754_finite false mz (a + e0 + d - Num.prec).
Proof.
  intros d Ha Hd Em Emz Ht.
  pose proof (digits2_scaled N m a Ha Em) as Dm. fold d in Dm.
  assert (Dmz : Zpos (digits2_pos mz) = Num.prec).
  { rewrite (digits2_scaled N mz (Num.prec - d)) by (try exact Emz; lia). fold d. lia. }
  unfold binary_round. rewrite Dm.
  replace (fexp Num.prec Num.emax (d + a + e0)) with (a + e0 + d - Num.prec)
    by (unfold fexp, emin, Num.prec, Num.emax in *; lia).
  unfold shl_align.
  destruct (a + e0 + d - Num.prec - e0) as [|n|n] eqn:Hn.
  - assert (mz = m) by (apply Pos2Z.inj; rewrite Em, Emz; f_equal; f_equal; lia).
    subst mz. replace e0 with (a + e0 + d - Num.prec) at 1 by lia.
    apply binary_round_aux_full; assumption.
  - (* the mantissa has more than 53 bits, all the extra ones zero *)
    unfold binary_round_aux.
    assert (S : shr_fexp Num.prec Num.emax (Zpos m) e0 loc_Exact
                = (no_loss (Zpos mz), a + e0 + d - Num.prec)).
    { unfold shr_fexp, shr. simpl Zdigits2. rewrite Dm.
      replace (fexp Num.prec Num.emax (d + a + e0) - e0) with (Zpos n)
        by (unfold fexp, emin, Num.prec, Num.emax in *; lia).
      f_equal; [|lia].
      change (shr_record_of_loc (Zpos m) loc_Exact) with (no_loss (Zpos m)).
      replace (Zpos m) with (Zpos mz * 2 ^ Zpos n).
      - apply shr_iter_exact. lia.
      - rewrite Em, Emz, <- Z.mul_assoc, <- Z.pow_add_r by lia. f_equal. f_equal. lia. }
    rewrite S. cbn [no_loss shr_m loc_of_shr_record round_nearest_even shr_r shr_s].
    rewrite (shr_fexp_full mz _ Dmz (proj1 Ht)).
    cbn [no_loss shr_m]. destruct Ht as [_ T2]. apply Z.leb_le in T2. rewrite T2.
    reflexivity.
  - assert (Zpos (Pos.iter xO m n) = Zpos mz).
    { rewrite pos_iter_xO, Em, Emz, <- Z.mul_assoc, <- Z.pow_add_r by lia.
      f_equal. f_equal. lia. }
    apply Pos2Z.inj in H. rewrite H.
    apply binary_round_aux_full; assumption.
Qed.

Lemma digits2_le_prec (z : positive) : Zpos z < 2 ^ Num.prec -> Zpos (digits2_pos z) <= Num.prec.
Proof.
  intros H. pose proof (digits2_lower z) as L.
  destruct (Z.le_gt_cases (Zpos (digits2_pos z)) Num.prec) as [G|G]; [exact G|].
  assert (2 ^ Num.prec <= 2 ^ (Zpos (digits2_pos z) - 1)) by (apply Z.pow_le_mono_r; lia).
  lia.
Qed.

(** The Number value of a positive integer below 2^53 is that integer, with
    its mantissa aligned on 53 bits. *)
Lemma of_Z_small (z mz : positive) :
  Zpos z < 2 ^ Num.prec ->
  Zpos mz = Zpos z * 2 ^ (Num.prec - Zpos (digits2_pos z)) ->
  Num.of_Z (Zpos z) = S754_finite false mz (Zpos (digits2_pos z) - Num.prec).
Proof.
  intros H E. pose proof (digits2_le_prec z H) as D.
  unfold Num.of_Z. cbn [binary_normalize].
  rewrite (binary_round_scaled z z mz 0 0); try assumption; try lia.
  - f_equal; lia.
  - unfold emin, Num.prec, Num.emax in *. lia.
Qed.

Lemma aligned_mantissa (z : positive) :
  Zpos (digits2_pos z) <= Num.prec ->
  exists mz, Zpos mz = Zpos z * 2 ^ (Num.prec - Zpos (digits2_pos z)).
Proof.
  intros D. exists (Z.to_pos (Zpos z * 2 ^ (Num.prec - Zpos (digits2_pos z)))).
  rewrite Z2Pos.id; [reflexivity|].
  apply Z.mul_pos_pos; [lia | apply Z.pow_pos_nonneg; lia].
Qed.

(** Adding 1 to an integer is exact as long as the sum is below 2^53. *)
Lemma of_Z_add_one (z : Z) :
  0 <= z -> z + 1 < 2 ^ Num.prec ->
  Num.add (Num.of_Z z) (Num.of_Z 1) = Num.of_Z (z + 1).
Proof.
  intros Hz Hlt. destruct z as [|p|p]; [reflexivity| |lia].
  replace (Zpos p + 1) with (Zpos (p + 1)) in * by lia.
  assert (Hp : Zpos p < 2 ^ Num.prec) by lia.
  pose proof (digits2_le_prec p Hp) as Dp.
  pose proof (digits2_le_prec (p + 1) Hlt) as Dq.
  destruct (aligned_mantissa p Dp) as [mp Emp].
  destruct (aligned_mantissa (p + 1) Dq) as [mq Emq].
  rewrite (of_Z_small p mp Hp Emp), (of_Z_small (p + 1) mq Hlt Emq).
  change (Num.of_Z 1) with (S754_finite false 4503599627370496 (-52)).
  unfold Num.add, SFadd.
  assert (D1 : 1 <= Zpos (digits2_pos p)) by lia.
  replace (Z.min (Zpos (digits2_pos p) - Num.prec) (-52)) with (-52)
    by (unfold Num.prec in *; lia).
  rewrite !shl_align_value by (unfold Num.prec in *; lia).
  cbv [cond_Zopp].
  assert (E : Zpos mp * 2 ^ (Zpos (digits2_pos p) - Num.prec - -52)
              + 4503599627370496 * 2 ^ (-52 - -52)
              = Zpos (p + 1) * 2 ^ 52).
  { rewrite Emp, <- Z.mul_assoc, <- Z.pow_add_r by (unfold Num.prec in *; lia).
    replace (Num.prec - Zpos (digits2_pos p) + (Zpos (digits2_pos p) - Num.prec - -52))
      with 52 by (unfold Num.prec; lia).
    change (-52 - -52) with 0. change (2 ^ 0) with 1.
    change 4503599627370496 with (2 ^ 52). lia. }
  rewrite E.
  destruct (Zpos (p + 1) * 2 ^ 52) as [|M|M] eqn:EM;
    try (assert (0 < Zpos (p + 1) * 2 ^ 52) by (apply Z.mul_pos_pos; lia); lia).
  cbn [binary_normalize].
  rewrite (binary_round_scaled (p + 1) M mq 52 (-52)); try assumption; try lia.
  - f_equal; lia.
  - unfold emin, Num.prec, Num.emax in *. lia.
Qed.

Lemma of_nat_add_one (n : nat) :
  Z.of_nat n + 1 < 2 ^ Num.prec ->
  Num.add (Num.of_nat n) (Num.of_Z 1) = Num.of_nat (S n).
Proof.
  intros H. unfold Num.of_nat. rewrite Nat2Z.inj_succ. unfold Z.succ.
  apply of_Z_add_one; lia.
Qed.

Local Open Scope js_scope.

(** ** Cleaning of the films table (C5, C7, C9) *)

Lemma row_get_key (r : row) (key : string) :
  In key (Object_keys r) -> exists v, row_get r key = Some v.
Proof.
  induction r as [|[k v] r IH]; simpl; [tauto|].
  intros [H|H].
  - subst k. rewrite String.eqb_refl. eauto.
  - destruct (String.eqb k key); eauto.
Qed.

Lemma filter_head_In {A : Type} (p : A -> bool) (l : list A) (a : A) (rest : list A) :
  filter p l = a :: rest -> In a l.
Proof.
  intros H. assert (I : In a (filter p l)) by (rewrite H; left; reflexivity).
  apply filter_In in I. tauto.
Qed.

(** Reading the cell of one of the row's own keys never throws. *)
Lemma cell_own_key (r : row) (p : string -> bool) (key : string) (rest : list string) :
  filter p (Object_keys r) = key :: rest ->
  exists v, WikipediaHandler.cell r key = Ok v.
Proof.
  intros H. apply filter_head_In in H. apply row_get_key in H.
  destruct H as [v H]. exists v. unfold WikipediaHandler.cell. rewrite H. reflexivity.
Qed.

Ltac extraction_total :=
  match goal with
  | |- context [filter ?p (Object_keys ?r)] =>
      destruct (filter p (Object_keys r)) as [|key rest] eqn:F;
      [eexists; reflexivity|];
      destruct (cell_own_key r p key rest F) as [v Hv]; rewrite Hv; simpl;
      match goal with
      | |- context [match ?m with Some _ => _ | None => _ end] =>
          destruct m; eexists; reflexivity
      end
  end.

Lemma revenueValue_total (r : row) : exists v, WikipediaHandler.revenueValue r = Ok v.
Proof. unfold WikipediaHandler.revenueValue. extraction_total. Qed.

Lemma yearValue_total (r : row) : exists v, WikipediaHandler.yearValue r = Ok v.
Proof. unfold WikipediaHandler.yearValue. extraction_total. Qed.

Lemma rankValue_total (r : row) : exists v, WikipediaHandler.rankValue r = Ok v.
Proof. unfold WikipediaHandler.rankValue. extraction_total. Qed.

Lemma peakValue_total (r : row) : exists v, WikipediaHandler.peakValue r = Ok v.
Proof. unfold WikipediaHandler.peakValue. extraction_total. Qed.

(** What the loop body does with a row, in terms of its five extractions. *)
Lemma cleanRow_spec (cleaned : list WikipediaHandler.movie) (r : row) :
  exists revenue year rank peak,
    WikipediaHandler.revenueValue r = Ok revenue
    /\ WikipediaHandler.yearValue r = Ok year
    /\ WikipediaHandler.rankValue r = Ok rank
    /\ WikipediaHandler.peakValue r = Ok peak
    /\ WikipediaHandler.cleanRow cleaned r =
       Ok (if truthy_opt revenue && truthy_string (WikipediaHandler.titleValue r)
           then
             let next := Num.of_nat (List.length cleaned) + #1 in
             Some {| WikipediaHandler.title :=
                       match WikipediaHandler.titleValue r with Some t => t | None => ""%string end;
                     WikipediaHandler.revenue := toNumber_opt revenue;
                     WikipediaHandler.year := year;
                     WikipediaHandler.rank := WikipediaHandler.or_number rank next;
                     WikipediaHandler.peak :=
                       WikipediaHandler.or_number peak
                         (WikipediaHandler.or_number rank next) |}
           else None).
Proof.
  destruct (revenueValue_total r) as [revenue Hrev], (yearValue_total r) as [year Hy],
    (rankValue_total r) as [rank Hr], (peakValue_total r) as [peak Hp].
  exists revenue, year, rank, peak. repeat (split; [assumption|]).
  unfold WikipediaHandler.cleanRow. rewrite Hrev, Hy, Hr, Hp. simpl.
  destruct revenue as [rev|], (WikipediaHandler.titleValue r) as [t|]; simpl;
    try reflexivity.
  - destruct (Num.truthy rev), (String.eqb t ""); reflexivity.
  - destruct (Num.truthy rev); reflexivity.
Qed.

Lemma cleanFilmsData_snoc (rawData : list row) (r : row) :
  WikipediaHandler.cleanFilmsData (rawData ++ [r]) =
  match WikipediaHandler.cleanRow (WikipediaHandler.cleanFilmsData rawData) r with
  | Ok (Some m) => WikipediaHandler.cleanFilmsData rawData ++ [m]
  | _ => WikipediaHandler.cleanFilmsData rawData
  end.
Proof.
  unfold WikipediaHandler.cleanFilmsData. rewrite fold_left_app. simpl.
  destruct (WikipediaHandler.cleanRow _ r) as [[m|]|]; reflexivity.
Qed.

(** C5, counterexample. The row has a title and a revenue cell "$0": both
    essential fields are extracted and non-null (the revenue is the number
    0), yet no record is emitted. *)
Lemma C5_counterexample_zero_revenue_dropped :
  WikipediaHandler.revenueValue Examples.zeroRevenueRow = Ok (Some Num.zero)
  /\ WikipediaHandler.titleValue Examples.zeroRevenueRow = Some "A"%string
  /\ WikipediaHandler.cleanFilmsData [Examples.zeroRevenueRow] = [].
Proof. repeat split; reflexivity. Qed.

(** The fate of the last row of a table. *)
Lemma cleanFilmsData_last_row (rawData : list row) (r : row) :
  exists revenue : option number,
    WikipediaHandler.revenueValue r = Ok revenue
    /\ (exists emitted,
          WikipediaHandler.cleanRow (WikipediaHandler.cleanFilmsData rawData) r = Ok emitted)
    /\ (truthy_opt revenue && truthy_string (WikipediaHandler.titleValue r) = true
        /\ (exists m,
              WikipediaHandler.cleanFilmsData (rawData ++ [r])
                = WikipediaHandler.cleanFilmsData rawData ++ [m]
              /\ Some (WikipediaHandler.revenue m) = revenue
              /\ Some (WikipediaHandler.title m) = WikipediaHandler.titleValue r)
        \/ truthy_opt revenue && truthy_string (WikipediaHandler.titleValue r) = false
           /\ WikipediaHandler.cleanFilmsData (rawData ++ [r])
              = WikipediaHandler.cleanFilmsData rawData).
Proof.
  destruct (cleanRow_spec (WikipediaHandler.cleanFilmsData rawData) r)
    as (revenue & year & rank & peak & Hrev & _ & _ & _ & Hrow).
  exists revenue. split; [exact Hrev|]. split; [eexists; exact Hrow|].
  rewrite cleanFilmsData_snoc, Hrow.
  destruct (truthy_opt revenue && truthy_string (WikipediaHandler.titleValue r)) eqn:T.
  - left. split; [reflexivity|]. eexists. split; [reflexivity|].
    apply andb_true_iff in T. destruct T as [T1 T2].
    destruct revenue as [rev|]; [|discriminate].
    destruct (WikipediaHandler.titleValue r) as [t|]; [|discriminate].
    split; reflexivity.
  - right. split; reflexivity.
Qed.

(** C5, as amended. A row is turned into a record exactly when its extracted
    revenue and title are both truthy: the revenue is a number other than 0
    and NaN, and the title is a non-empty string. The record then carries
    these two values and is appended to the records retained so far; any
    other row leaves the result unchanged, and the loop body does not throw
    for it. Over a whole table, the records are, in row order, those of the
    rows whose two essential fields are truthy. *)
Theorem C5_record_emitted_iff_essentials_truthy :
  (forall (rawData : list row) (r : row),
     exists revenue : option number,
       WikipediaHandler.revenueValue r = Ok revenue
       /\ (exists emitted,
             WikipediaHandler.cleanRow (WikipediaHandler.cleanFilmsData rawData) r
             = Ok emitted)
       /\ (truthy_opt revenue && truthy_string (WikipediaHandler.titleValue r) = true
           /\ (exists m,
                 WikipediaHandler.cleanFilmsData (rawData ++ [r])
                   = WikipediaHandler.cleanFilmsData rawData ++ [m]
                 /\ Some (WikipediaHandler.revenue m) = revenue
                 /\ Some (WikipediaHandler.title m) = WikipediaHandler.titleValue r)
           \/ truthy_opt revenue && truthy_string (WikipediaHandler.titleValue r) = false
              /\ WikipediaHandler.cleanFilmsData (rawData ++ [r])
                 = WikipediaHandler.cleanFilmsData rawData))
  /\ (forall rawData : list row,
        map (fun m => (WikipediaHandler.revenue m, WikipediaHandler.title m))
            (WikipediaHandler.cleanFilmsData rawData)
        = flat_map (fun r => match essentials r with
                             | Some e => [e]
                             | None => []
                             end) rawData).
Proof.
  split; [exact cleanFilmsData_last_row|].
  intros rawData. induction rawData as [|r rawData IH] using rev_ind; [reflexivity|].
  rewrite flat_map_app. cbn [flat_map]. rewrite app_nil_r, <- IH.
  destruct (cleanFilmsData_last_row rawData r)
    as (revenue & Hrev & _ & [(T & m & E & Hr & Ht) | (T & E)]);
    rewrite E; unfold essentials; rewrite Hrev.
  - rewrite map_app. f_equal. cbn [map].
    apply andb_true_iff in T. destruct T as [T1 T2].
    destruct revenue as [rev|]; [|discriminate].
    destruct (WikipediaHandler.titleValue r) as [t|]; [|discriminate].
    simpl in T1, T2. rewrite T1, T2. injection Hr as ->. injection Ht as ->. reflexivity.
  - destruct revenue as [rev|]; [|cbv beta iota; rewrite app_nil_r; reflexivity].
    destruct (WikipediaHandler.titleValue r) as [t|];
      [|cbv beta iota; rewrite app_nil_r; reflexivity].
    simpl in T. rewrite T. cbv beta iota. rewrite app_nil_r. reflexivity.
Qed.

(** A row without a rank-hinted key has no extracted rank. *)
Lemma rankValue_without_rank_key (r : row) :
  (forall key, In key (Object_keys r) -> WikipediaHandler.isRankKey key = false) ->
  WikipediaHandler.rankValue r = Ok None.
Proof.
  intros H. unfold WikipediaHandler.rankValue.
  destruct (filter WikipediaHandler.isRankKey (Object_keys r)) as [|key rest] eqn:F;
    [reflexivity|].
  assert (I : In key (filter WikipediaHandler.isRankKey (Object_keys r)))
    by (rewrite F; left; reflexivity).
  apply filter_In in I. destruct I as [I1 I2]. rewrite (H key I1) in I2. discriminate.
Qed.

Lemma ranks_by_insertion_order (rows : list row) :
  (forall r key, In r rows -> In key (Object_keys r) ->
                 WikipediaHandler.isRankKey key = false) ->
  forall cleaned,
    (forall i m, nth_error cleaned i = Some m ->
                 WikipediaHandler.rank m = Num.of_nat i + #1) ->
    forall i m,
      nth_error
        (fold_left
           (fun cleaned r =>
              match WikipediaHandler.cleanRow cleaned r with
              | Ok (Some m) => cleaned ++ [m]
              | Ok None => cleaned
              | Throw _ => cleaned
              end) rows cleaned) i = Some m ->
      WikipediaHandler.rank m = Num.of_nat i + #1.
Proof.
  induction rows as [|r rows IH]; intros Hkeys cleaned Hinv; simpl; [exact Hinv|].
  apply IH; [intros r' key Hr'; apply Hkeys; right; exact Hr'|].
  destruct (cleanRow_spec cleaned r)
    as (revenue & year & rank & peak & _ & _ & Hrank & _ & Hrow).
  rewrite rankValue_without_rank_key in Hrank
    by (intros key Hk; apply (Hkeys r key); [left; reflexivity | exact Hk]).
  injection Hrank as <-. rewrite Hrow.
  destruct (truthy_opt revenue && truthy_string (WikipediaHandler.titleValue r));
    [|exact Hinv].
  intros i m Hi. cbv beta iota zeta in Hi.
  destruct (Nat.lt_ge_cases i (List.length cleaned)) as [L|L].
  - rewrite nth_error_app1 in Hi by exact L. apply Hinv. exact Hi.
  - rewrite nth_error_app2 in Hi by exact L.
    destruct (i - List.length cleaned)%nat as [|k] eqn:D.
    + assert (i = List.length cleaned) by lia. subst i.
      simpl in Hi. injection Hi as <-. reflexivity.
    + simpl in Hi. destruct k; discriminate.
Qed.

(** C7. When no key of any row contains "rank" or "position" (in any letter
    case), the record at 0-based position [i] of the result of
    [cleanFilmsData] has the rank computed as [i + 1], which is the number
    [i + 1] itself (exactly, for every position below 2^53): records are
    numbered 1, 2, 3, ... in the order in which they are retained, rows
    that are dropped taking no number. *)
Theorem C7_rank_is_insertion_order (rawData : list row) :
  (forall r key, In r rawData -> In key (Object_keys r) ->
                 WikipediaHandler.isRankKey key = false) ->
  forall i m,
    nth_error (WikipediaHandler.cleanFilmsData rawData) i = Some m ->
    WikipediaHandler.rank m = Num.of_nat i + #1
    /\ ((Z.of_nat i + 1 < 2 ^ 53)%Z -> WikipediaHandler.rank m = Num.of_nat (S i)).
Proof.
  intros Hkeys i m Hi.
  assert (R : WikipediaHandler.rank m = Num.of_nat i + #1).
  { revert i m Hi. unfold WikipediaHandler.cleanFilmsData.
    apply ranks_by_insertion_order; [exact Hkeys|].
    intros i m Hi. destruct i; discriminate. }
  split; [exact R|].
  intros B. rewrite R. apply of_nat_add_one. exact B.
Qed.

Lemma unrankedTable_has_no_rank_key :
  forall r key, In r Examples.unrankedTable -> In key (Object_keys r) ->
                WikipediaHandler.isRankKey key = false.
Proof.
  intros r key Hr Hk. simpl in Hr.
  repeat (destruct Hr as [<-|Hr];
          [simpl in Hk; repeat (destruct Hk as [<-|Hk]; [reflexivity|]); contradiction|]).
  contradiction.
Qed.

(** The third row of [unrankedTable] is the second record retained, and gets
    rank 2. *)
Lemma C7_witness :
  exists m,
    nth_error (WikipediaHandler.cleanFilmsData Examples.unrankedTable) 1 = Some m
    /\ WikipediaHandler.title m = "C"%string
    /\ WikipediaHandler.rank m = #2.
Proof.
  eexists. split; [reflexivity|]. split; [reflexivity|].
  exact (proj2 (C7_rank_is_insertion_order Examples.unrankedTable
                  unrankedTable_has_no_rank_key 1 _ eq_refl) eq_refl).
Defined.

(** The records retained from the first rows of a table stay where they
    are when further rows are read. *)
Lemma cleanFilmsData_app (before after : list row) :
  exists more,
    WikipediaHandler.cleanFilmsData (before ++ after)
    = WikipediaHandler.cleanFilmsData before ++ more.
Proof.
  induction after as [|r after IH] using rev_ind.
  - exists []. rewrite !app_nil_r. reflexivity.
  - destruct IH as [more IH]. rewrite app_assoc, cleanFilmsData_snoc, IH.
    destruct (WikipediaHandler.cleanRow _ r) as [[m|]|].
    + exists (more ++ [m]). rewrite app_assoc. reflexivity.
    + exists more. reflexivity.
    + exists more. reflexivity.
Qed.

(** C9. Take any row of any table that is retained (its revenue and title are
    truthy) and whose extracted peak is not usable ([null], or a falsy
    number), and let [retained] be the number of records that
    [cleanFilmsData] retains from the rows before it. The record of this row
    is the one at 0-based position [retained] of the result. Its peak is the
    extracted rank when that is usable, so that peak and rank coincide;
    otherwise it is [retained + 1], the record's 1-based insertion order
    among the retained records. *)
Theorem C9_peak_falls_back_to_rank (before after : list row) (r : row)
        (revenue : number) (title : string) (peakValue rankValue : option number) :
  let retained := List.length (WikipediaHandler.cleanFilmsData before) in
  essentials r = Some (revenue, title) ->
  WikipediaHandler.peakValue r = Ok peakValue ->
  WikipediaHandler.rankValue r = Ok rankValue ->
  truthy_opt peakValue = false ->
  exists m,
    nth_error (WikipediaHandler.cleanFilmsData (before ++ r :: after)) retained = Some m
    /\ WikipediaHandler.title m = title
    /\ WikipediaHandler.revenue m = revenue
    /\ (truthy_opt rankValue = true ->
        Some (WikipediaHandler.peak m) = rankValue
        /\ WikipediaHandler.peak m = WikipediaHandler.rank m)
    /\ (truthy_opt rankValue = false ->
        WikipediaHandler.peak m = Num.of_nat retained + #1
        /\ WikipediaHandler.rank m = Num.of_nat retained + #1
        /\ ((Z.of_nat retained + 1 < 2 ^ 53)%Z ->
            WikipediaHandler.peak m = Num.of_nat (S retained))).
Proof.
  intros retained Hess Hpeak Hrank Tpeak.
  set (cleaned := WikipediaHandler.cleanFilmsData before) in *.
  destruct (cleanRow_spec cleaned r)
    as (revenue' & year & rank & peak & Hrev & _ & Hrank' & Hpeak' & Hrow).
  rewrite Hrank in Hrank'. injection Hrank' as <-.
  rewrite Hpeak in Hpeak'. injection Hpeak' as <-.
  (* the row is retained *)
  unfold essentials in Hess. rewrite Hrev in Hess.
  destruct revenue' as [rev|]; [|discriminate].
  destruct (WikipediaHandler.titleValue r) as [t|] eqn:Ht; [|discriminate].
  cbn [truthy_opt truthy_string toNumber_opt] in Hrow.
  destruct (Num.truthy rev && negb (String.eqb t "")) eqn:T; [|discriminate].
  injection Hess as <- <-.
  (* its record is appended to those of the rows before it *)
  assert (E : WikipediaHandler.cleanFilmsData (before ++ [r]) = cleaned ++
              [ {| WikipediaHandler.title := t;
                   WikipediaHandler.revenue := rev;
                   WikipediaHandler.year := year;
                   WikipediaHandler.rank :=
                     WikipediaHandler.or_number rankValue (Num.of_nat retained + #1);
                   WikipediaHandler.peak :=
                     WikipediaHandler.or_number peakValue
                       (WikipediaHandler.or_number rankValue (Num.of_nat retained + #1)) |} ]).
  { rewrite cleanFilmsData_snoc. fold cleaned. rewrite Hrow. reflexivity. }
  destruct (cleanFilmsData_app (before ++ [r]) after) as [more A].
  rewrite <- app_assoc in A. cbn [app] in A. rewrite E, <- app_assoc in A.
  eexists. split.
  { rewrite A. rewrite nth_error_app2 by (unfold retained; lia).
    unfold retained. rewrite Nat.sub_diag. reflexivity. }
  cbn [WikipediaHandler.title WikipediaHandler.revenue WikipediaHandler.rank
       WikipediaHandler.peak].
  assert (P : forall d, WikipediaHandler.or_number peakValue d = d).
  { intros d. destruct peakValue as [p|]; simpl in *; [rewrite Tpeak|]; reflexivity. }
  rewrite P. split; [reflexivity|]. split; [reflexivity|]. split; intros R.
  - destruct rankValue as [k|]; simpl in *; [|discriminate]. rewrite R. split; reflexivity.
  - unfold retained in *.
    assert (F : WikipediaHandler.or_number rankValue (Num.of_nat (List.length cleaned) + #1)
                = Num.of_nat (List.length cleaned) + #1)
      by (destruct rankValue as [k|]; simpl in *; [rewrite R|]; reflexivity).
    rewrite F. split; [reflexivity|]. split; [reflexivity|].
    intros B. apply of_nat_add_one. exact B.
Qed.

(** In the table made of [unrankedTable] followed by [unreadablePeakRow], the
    third row "C" has neither a rank nor a peak column and is the second row
    retained: its record is at position 1 and has peak 2. The last row has
    rank 7 and a peak cell without a digit: its record is at position 2 and
    its peak duplicates the rank 7. *)
Lemma C9_witness :
  (exists m,
     nth_error (WikipediaHandler.cleanFilmsData
                  (Examples.unrankedTable ++ [Examples.unreadablePeakRow])) 1 = Some m
     /\ WikipediaHandler.title m = "C"%string
     /\ WikipediaHandler.peak m = #2)
  /\ (exists m,
        nth_error (WikipediaHandler.cleanFilmsData
                     (Examples.unrankedTable ++ [Examples.unreadablePeakRow])) 2 = Some m
        /\ WikipediaHandler.title m = "D"%string
        /\ WikipediaHandler.peak m = #7
        /\ WikipediaHandler.peak m = WikipediaHandler.rank m).
Proof.
  split.
  - assert (H1 : essentials [("Title", "C"); ("Worldwide gross", "$1,600,000,000");
                             ("Year", "2001")]%string
                 = Some (#1600000000, "C"%string)) by (vm_compute; reflexivity).
    destruct (C9_peak_falls_back_to_rank
                [ [("Title", "A"); ("Worldwide gross", "$2,500,000,000"); ("Year", "1995")];
                  [("Title", "B"); ("Worldwide gross", "n/a"); ("Year", "1999")] ]%string
                [Examples.unreadablePeakRow]
                [("Title", "C"); ("Worldwide gross", "$1,600,000,000"); ("Year", "2001")]%string
                #1600000000 "C"%string None None H1 eq_refl eq_refl eq_refl)
      as (m & Hn & Ht & _ & _ & Hp).
    exists m. split; [exact Hn|]. split; [exact Ht|].
    destruct (Hp eq_refl) as (_ & _ & Hs). apply Hs. reflexivity.
  - assert (H1 : essentials Examples.unreadablePeakRow = Some (#1600000000, "D"%string))
      by (vm_compute; reflexivity).
    destruct (C9_peak_falls_back_to_rank Examples.unrankedTable [] Examples.unreadablePeakRow
                #1600000000 "D"%string None (Some #7) H1 eq_refl eq_refl eq_refl)
      as (m & Hn & Ht & _ & Hr & _).
    exists m. split; [exact Hn|]. split; [exact Ht|].
    destruct (Hr eq_refl) as [H2 H3]. split; [|exact H3].
    exact (f_equal (fun o => match o with Some v => v | None => Num.NaN end) H2).
Defined.

(** ** The earliest film over $1.5bn (C10) *)

(** C10, counterexample. Films A and B, both over $1.5bn, share the earliest
    year 1997 and A comes first; the answer names B. *)
Lemma C10_counterexample_tie_takes_later_film :
  WikipediaHandler.over1_5bn Examples.sameYearFilms = Examples.sameYearFilms
  /\ WikipediaHandler.findEarliest1_5BillionFilm Examples.runtime Examples.sameYearFilms
     = "B (1997)"%string
  /\ WikipediaHandler.findEarliest1_5BillionFilm Examples.runtime Examples.sameYearFilms
     <> "A (1997)"%string.
Proof. repeat split; try reflexivity. vm_compute. discriminate. Qed.

(** Every film kept by the filter has a year that is a number other than
    NaN. *)
Lemma over1_5bn_year (data : list WikipediaHandler.movie) (m : WikipediaHandler.movie) :
  In m (WikipediaHandler.over1_5bn data) -> Num.isNaN (yearOf m) = false.
Proof.
  unfold WikipediaHandler.over1_5bn. intros H. apply filter_In in H.
  destruct H as [_ H]. apply andb_true_iff in H. destruct H as [_ H].
  unfold yearOf. destruct (WikipediaHandler.year m) as [y|]; simpl in *;
    [apply truthy_not_NaN; exact H | discriminate].
Qed.

(** The [reduce]: the film selected is the last one of least year. *)
Lemma reduce_earlier (others before after : list WikipediaHandler.movie)
      (e : WikipediaHandler.movie) :
  (forall m, In m (before ++ e :: after ++ others) -> Num.isNaN (yearOf m) = false) ->
  (forall m, In m before -> Num.ltb (yearOf m) (yearOf e) = false) ->
  (forall m, In m after -> Num.ltb (yearOf e) (yearOf m) = true) ->
  exists before' after',
    before ++ e :: after ++ others
      = before' ++ fold_left WikipediaHandler.earlier others e :: after'
    /\ (forall m, In m before' ->
          Num.ltb (yearOf m) (yearOf (fold_left WikipediaHandler.earlier others e)) = false)
    /\ (forall m, In m after' ->
          Num.ltb (yearOf (fold_left WikipediaHandler.earlier others e)) (yearOf m) = true).
Proof.
  revert before after e.
  induction others as [|c others IH]; intros before after e Hnan Hb Ha.
  - exists before, after. rewrite app_nil_r. auto.
  - simpl fold_left. unfold WikipediaHandler.earlier at 2 4 6. fold (yearOf e) (yearOf c).
    destruct (Num.ltb (yearOf e) (yearOf c)) eqn:L.
    + destruct (IH before (after ++ [c]) e) as (b' & a' & E & Hb' & Ha').
      * intros m Hm. apply Hnan. rewrite <- app_assoc in Hm. exact Hm.
      * exact Hb.
      * intros m Hm. apply in_app_or in Hm. destruct Hm as [Hm|[<-|[]]]; auto.
      * exists b', a'. rewrite <- app_assoc in E. auto.
    + destruct (IH (before ++ e :: after) [] c) as (b' & a' & E & Hb' & Ha').
      * intros m Hm. apply Hnan. rewrite <- app_assoc in Hm. exact Hm.
      * assert (Ne : Num.isNaN (yearOf e) = false)
          by (apply Hnan; apply in_or_app; right; left; reflexivity).
        assert (Nc : Num.isNaN (yearOf c) = false)
          by (apply Hnan; apply in_or_app; right; right; apply in_or_app; right;
              left; reflexivity).
        intros m Hm. apply in_app_or in Hm. destruct Hm as [Hm|[<-|Hm]].
        -- apply (ltb_neg_trans _ (yearOf e)); auto.
           apply Hnan. apply in_or_app. left. exact Hm.
        -- exact L.
        -- destruct (Num.ltb (yearOf m) (yearOf c)) eqn:L'; [|reflexivity].
           rewrite (ltb_trans _ _ _ (Ha m Hm) L') in L. discriminate.
      * intros m [].
      * exists b', a'. rewrite <- app_assoc in E. auto.
Qed.

(** C10, as amended. When some film grossed at least $1.5bn and has a year,
    the answer is "<title> (<year>)" for the film [e] that is the last, in
    row order, of the films of least year among them: no film listed before
    [e] has a smaller year, and every film listed after [e] has a greater
    year. On a tie the later row replaces the incumbent. *)
Theorem C10_earliest_is_last_of_least_year (rt : Runtime)
        (data : list WikipediaHandler.movie) :
  WikipediaHandler.over1_5bn data <> [] ->
  exists before e after,
    WikipediaHandler.over1_5bn data = before ++ e :: after
    /\ WikipediaHandler.findEarliest1_5BillionFilm rt data
       = (WikipediaHandler.title e ++ " (" ++
          WikipediaHandler.toString_opt rt (WikipediaHandler.year e) ++ ")")%string
    /\ (forall m, In m before -> Num.ltb (yearOf m) (yearOf e) = false)
    /\ (forall m, In m after -> Num.ltb (yearOf e) (yearOf m) = true).
Proof.
  intros Hne. unfold WikipediaHandler.findEarliest1_5BillionFilm.
  pose proof (over1_5bn_year data) as Hnan.
  destruct (WikipediaHandler.over1_5bn data) as [|first others]; [congruence|].
  destruct (reduce_earlier others [] [] first) as (b & a & E & Hb & Ha).
  - exact Hnan.
  - intros m [].
  - intros m [].
  - exists b, (fold_left WikipediaHandler.earlier others first), a.
    split; [exact E|]. split; [reflexivity|]. split; assumption.
Qed.

(** On the films A (1997), B (1997), C (2009) the film selected is B, with A
    before it and C after it. *)
Lemma C10_witness :
  exists before e after,
    Examples.sameYearFilms = before ++ e :: after
    /\ WikipediaHandler.findEarliest1_5BillionFilm Examples.runtime Examples.sameYearFilms
       = (WikipediaHandler.title e ++ " (" ++
          WikipediaHandler.toString_opt Examples.runtime (WikipediaHandler.year e) ++ ")")%string
    /\ (forall m, In m before -> Num.ltb (yearOf m) (yearOf e) = false)
    /\ (forall m, In m after -> Num.ltb (yearOf e) (yearOf m) = true).
Proof.
  assert (H : WikipediaHandler.over1_5bn Examples.sameYearFilms <> []) by discriminate.
  exact (C10_earliest_is_last_of_least_year Examples.runtime Examples.sameYearFilms H).
Defined.

(** ** Descriptive statistics (C6) *)

Lemma sort_insert_Permutation {A : Type} (compareFn : A -> A -> number) (v : A)
      (sorted : list A) :
  Permutation (v :: sorted) (sort_insert compareFn v sorted).
Proof.
  induction sorted as [|w rest IH]; simpl; [apply Permutation_refl|].
  destruct (Num.ltb (compareFn v w) Num.zero); [apply Permutation_refl|].
  eapply Permutation_trans; [apply perm_swap|]. apply perm_skip. exact IH.
Qed.

Lemma fold_sort_insert_Permutation {A : Type} (compareFn : A -> A -> number)
      (values : list A) :
  forall sorted,
    Permutation (values ++ sorted)
      (fold_left (fun sorted v => sort_insert compareFn v sorted) values sorted).
Proof.
  induction values as [|v values IH]; intros sorted; simpl; [apply Permutation_refl|].
  eapply Permutation_trans; [|apply IH].
  eapply Permutation_trans; [apply Permutation_middle|].
  apply Permutation_app_head. apply sort_insert_Permutation.
Qed.

(** Sorting rearranges the values. *)
Lemma Array_sort_Permutation {A : Type} (compareFn : A -> A -> number) (values : list A) :
  Permutation values (Array_sort compareFn values).
Proof.
  unfold Array_sort.
  pose proof (fold_sort_insert_Permutation compareFn values []) as H.
  rewrite app_nil_r in H. exact H.
Qed.

Lemma ltb_leb (a b : number) : Num.ltb a b = true -> Num.leb a b = true.
Proof.
  unfold Num.ltb, Num.leb, SFltb, SFleb.
  destruct (SFcompare a b) as [[]|]; congruence.
Qed.

Lemma not_ltb_leb (a b : number) :
  Num.isNaN a = false -> Num.isNaN b = false ->
  Num.ltb a b = false -> Num.leb b a = true.
Proof.
  unfold Num.ltb, Num.leb, SFltb, SFleb.
  destruct a as [sa|sa| |sa ma ea], b as [sb|sb| |sb mb eb];
    simpl; try discriminate; try reflexivity; intros _ _ H; order_cases.
Qed.

Lemma leb_trans (a b c : number) :
  Num.leb a b = true -> Num.leb b c = true -> Num.leb a c = true.
Proof.
  unfold Num.leb, SFleb.
  destruct a as [sa|sa| |sa ma ea], b as [sb|sb| |sb mb eb], c as [sc|sc| |sc mc ec];
    simpl; try discriminate; try reflexivity; intros H1 H2; order_cases.
Qed.

Lemma sort_insert_Sorted (v : number) (sorted : list number) :
  numeric v -> Forall numeric sorted ->
  Sorted ascending_order sorted ->
  Sorted ascending_order (sort_insert CSVHandler.ascending v sorted).
Proof.
  intros [Bv Nv] Hall Hs.
  induction Hs as [|w rest Hrest IH Hhd]; simpl; [repeat constructor|].
  inversion Hall as [|w' rest' [Bw Nw] Hall']; subst.
  unfold CSVHandler.ascending at 1.
  rewrite (sub_negative_iff_ltb v w Bv Bw Nv Nw).
  destruct (Num.ltb v w) eqn:L.
  - constructor; [constructor; assumption|]. constructor. apply ltb_leb. exact L.
  - constructor; [apply IH; exact Hall'|].
    destruct rest as [|u rest]; simpl.
    + constructor. apply not_ltb_leb; assumption.
    + inversion Hall' as [|u' rest'' [Bu Nu] _]; subst.
      unfold CSVHandler.ascending at 1.
      rewrite (sub_negative_iff_ltb v u Bv Bu Nv Nu).
      destruct (Num.ltb v u).
      * constructor. apply not_ltb_leb; assumption.
      * constructor. inversion Hhd; assumption.
Qed.

Lemma fold_sort_insert_Sorted (values : list number) :
  Forall numeric values ->
  forall sorted,
    Forall numeric sorted -> Sorted ascending_order sorted ->
    Sorted ascending_order
      (fold_left (fun sorted v => sort_insert CSVHandler.ascending v sorted) values sorted).
Proof.
  induction 1 as [|v values Hv Hvalues IH]; intros sorted Hall Hs; simpl; [exact Hs|].
  apply IH.
  - eapply Permutation_Forall; [apply sort_insert_Permutation|].
    constructor; assumption.
  - apply sort_insert_Sorted; assumption.
Qed.

(** Sorting with [(a, b) => a - b] puts numeric values in ascending order. *)
Lemma Array_sort_ascending (values : list number) :
  Forall numeric values ->
  StronglySorted ascending_order (Array_sort CSVHandler.ascending values).
Proof.
  intros H. apply Sorted_StronglySorted.
  - intros a b c. apply leb_trans.
  - apply fold_sort_insert_Sorted; [exact H | constructor | constructor].
Qed.

Lemma calculateStdDev_population (values : list number) :
  CSVHandler.calculateStdDev values = population_std_dev values.
Proof. reflexivity. Qed.

(** The statistics block on a non-empty sequence of numeric values: the
    values are sorted in ascending order and the median is the element of
    0-based index [floor (n / 2)] of the sorted values. *)
Lemma columnStats_sorted_median (values : list number) :
  values <> [] ->
  (forall v, In v values -> binary64 v /\ Num.isNaN v = false) ->
  exists (sorted : list number) (s : CSVHandler.column_stats),
    CSVHandler.columnStats values = Some s
    /\ Permutation values sorted
    /\ StronglySorted ascending_order sorted
    /\ CSVHandler.count s = Num.of_nat (List.length values)
    /\ (List.length values / 2 < List.length sorted)%nat
    /\ CSVHandler.median s = nth (List.length values / 2) sorted Num.NaN
    /\ (forall k, List.length values = (2 * k)%nat ->
          CSVHandler.median s = nth k sorted Num.NaN
          /\ ascending_order (nth (k - 1) sorted Num.NaN) (nth k sorted Num.NaN))
    /\ CSVHandler.std_dev s = population_std_dev sorted.
Proof.
  intros Hne Hnum.
  assert (Hall : Forall numeric values) by (apply Forall_forall; exact Hnum).
  pose proof (Array_sort_Permutation CSVHandler.ascending values) as Hperm.
  pose proof (Array_sort_ascending values Hall) as Hsorted.
  pose proof (Permutation_length Hperm) as Hlen.
  set (sorted := Array_sort CSVHandler.ascending values) in *.
  assert (Hpos : (0 < List.length values)%nat)
    by (destruct values; [congruence | simpl; lia]).
  exists sorted. eexists.
  split.
  { unfold CSVHandler.columnStats. fold sorted.
    destruct (0 <? List.length values)%nat eqn:P; [reflexivity|].
    apply Nat.ltb_ge in P. lia. }
  cbn [CSVHandler.count CSVHandler.median CSVHandler.std_dev].
  rewrite <- Hlen.
  assert (Hhalf : (List.length values / 2 < List.length values)%nat)
    by (apply Nat.div_lt; lia).
  repeat split; try assumption; try reflexivity.
  - assert (E : (k = List.length values / 2)%nat)
      by (rewrite H; rewrite Nat.mul_comm; symmetry; apply Nat.div_mul; lia).
    rewrite E. reflexivity.
  - destruct k as [|k]; [lia|].
    replace (S k - 1)%nat with k by lia.
    assert (Hk : (S k < List.length sorted)%nat) by lia.
    clear - Hsorted Hk. revert k Hk.
    induction Hsorted as [|a l Hl IH Ha]; intros k Hk; simpl in Hk; [lia|].
    destruct k as [|k].
    + simpl. destruct l as [|b l]; simpl in *; [lia|].
      inversion Ha; assumption.
    + apply (IH k). lia.
Qed.

(** C6. [calculateBasicStats] stores an entry for every column of the first
    row that has at least one numeric value, and only one. In this entry the
    median is taken from the numeric values of the column sorted in
    ascending order: it is the element of 0-based index [floor (n / 2)]; for
    an even count [n = 2k] this is the element of index [k], the upper of
    the two middle elements (of indices [k - 1] and [k]), not their average.
    The count is [n] and the standard deviation is the population standard
    deviation of the sorted values. In particular a column with the cells
    1, 2, 3, 4 gives median 3, mean 2.5, min 1 and max 4. *)
Theorem C6_median_is_upper_middle_of_sorted :
  (forall (Number : string -> number) (data : list row) (col : string),
     let values := CSVHandler.numericValues Number data col in
     In col (Object_keys (hd [] data)) ->
     values <> [] ->
     (forall v, In v values -> binary64 v) ->
     exists (sorted : list number) (s : CSVHandler.column_stats),
       In (col, s) (CSVHandler.calculateBasicStats Number data)
       /\ (forall s', In (col, s') (CSVHandler.calculateBasicStats Number data) -> s' = s)
       /\ CSVHandler.columnStats values = Some s
       /\ Permutation values sorted
       /\ StronglySorted ascending_order sorted
       /\ CSVHandler.count s = Num.of_nat (List.length values)
       /\ (List.length values / 2 < List.length sorted)%nat
       /\ CSVHandler.median s = nth (List.length values / 2) sorted Num.NaN
       /\ (forall k, List.length values = (2 * k)%nat ->
             CSVHandler.median s = nth k sorted Num.NaN
             /\ ascending_order (nth (k - 1) sorted Num.NaN) (nth k sorted Num.NaN))
       /\ CSVHandler.std_dev s = population_std_dev sorted)
  /\ CSVHandler.calculateBasicStats Examples.decimalNumber Examples.fourValues
     = [("Value"%string,
         {| CSVHandler.count := #4;
            CSVHandler.mean := #5 / #2;
            CSVHandler.median := #3;
            CSVHandler.min := #1;
            CSVHandler.max := #4;
            CSVHandler.std_dev := Num.sqrt (#5 / #4) |})]
  /\ CSVHandler.columnStats [#1; #2; #3; #4]
     = Some {| CSVHandler.count := #4;
               CSVHandler.mean := #5 / #2;
               CSVHandler.median := #3;
               CSVHandler.min := #1;
               CSVHandler.max := #4;
               CSVHandler.std_dev := Num.sqrt (#5 / #4) |}.
Proof.
  split; [|split; vm_compute; reflexivity].
  intros Number data col values Hcol Hne Hb64.
  assert (Hnum : forall v, In v values -> binary64 v /\ Num.isNaN v = false).
  { intros v Hv. split; [apply Hb64; exact Hv|].
    unfold values, CSVHandler.numericValues in Hv. apply filter_In in Hv.
    destruct Hv as [_ Hv]. apply negb_true_iff in Hv. exact Hv. }
  destruct (columnStats_sorted_median values Hne Hnum)
    as (sorted & s & Hs & Hrest).
  exists sorted, s.
  destruct data as [|first rest]; [contradiction|]. cbn [hd] in Hcol.
  split; [|split; [|split; [exact Hs | exact Hrest]]].
  - unfold CSVHandler.calculateBasicStats. apply in_flat_map.
    exists col. split; [exact Hcol|]. fold values. rewrite Hs. left. reflexivity.
  - intros s' H'. unfold CSVHandler.calculateBasicStats in H'.
    apply in_flat_map in H'. destruct H' as (col' & _ & H').
    destruct (CSVHandler.columnStats (CSVHandler.numericValues Number (first :: rest) col'))
      as [s0|] eqn:E; [|contradiction].
    destruct H' as [H'|[]]. injection H' as -> ->.
    fold values in E. rewrite Hs in E. injection E as ->. reflexivity.
Qed.

(** The column "Age" of the table [employees] holds 25, 30, 35 and 28: the
    entry stored for it has as median the element of index 2 of the sorted
    values, which is 30, the upper of the two middle values 28 and 30. *)
Lemma C6_witness :
  exists (sorted : list number) (s : CSVHandler.column_stats),
    In ("Age"%string, s)
       (CSVHandler.calculateBasicStats Examples.decimalNumber Examples.employees)
    /\ Permutation [#25; #30; #35; #28] sorted
    /\ StronglySorted ascending_order sorted
    /\ CSVHandler.median s = nth 2 sorted Num.NaN
    /\ CSVHandler.median s = #30.
Proof.
  assert (V : CSVHandler.numericValues Examples.decimalNumber Examples.employees "Age"
              = [#25; #30; #35; #28]) by (vm_compute; reflexivity).
  assert (H0 : In "Age"%string (Object_keys (hd [] Examples.employees)))
    by (right; left; reflexivity).
  assert (H1 : CSVHandler.numericValues Examples.decimalNumber Examples.employees "Age" <> [])
    by (rewrite V; discriminate).
  assert (H2 : forall v,
             In v (CSVHandler.numericValues Examples.decimalNumber Examples.employees "Age") ->
             binary64 v).
  { rewrite V. intros v H. simpl in H.
    repeat (destruct H as [<-|H]; [reflexivity|]). contradiction. }
  destruct (proj1 C6_median_is_upper_middle_of_sorted Examples.decimalNumber
              Examples.employees "Age"%string H0 H1 H2)
    as (sorted & s & Hin & _ & Hs & Hp & Hsorted & _ & _ & Hm & _).
  rewrite V in Hs, Hp, Hm.
  exists sorted, s. repeat split; try assumption.
  assert (E : CSVHandler.columnStats [#25; #30; #35; #28]
              = Some {| CSVHandler.count := #4;
                        CSVHandler.mean := #118 / #4;
                        CSVHandler.median := #30;
                        CSVHandler.min := #25;
                        CSVHandler.max := #35;
                        CSVHandler.std_dev :=
                          CSVHandler.calculateStdDev [#25; #28; #30; #35] |})
    by (vm_compute; reflexivity).
  rewrite E in Hs. injection Hs as <-. reflexivity.
Defined.

(* ================================================================== *)
(** * Further properties of the handlers                               *)
(* ================================================================== *)

(** ** Symmetry of the correlation *)

Lemma mul_comm (a b : number) : a * b = b * a.
Proof.
  unfold Num.mul.
  destruct a as [sa|sa| |sa ma ea], b as [sb|sb| |sb mb eb]; simpl;
    rewrite ?(xorb_comm sa sb); try reflexivity.
  rewrite (Pos.mul_comm ma mb), (Z.add_comm ea eb). reflexivity.
Qed.

(** The sum of the products [xs[i] * ys[i]] over two arrays of one length,
    written as a sum over the pairs. *)
Lemma reduce_products (xs : list number) :
  forall (ys pre : list number) (acc : number),
    List.length xs = List.length ys ->
    reduce_from (fun sum xi i => sum + xi * at_index (pre ++ ys) i)
                (List.length pre) xs acc
    = fold_left (fun sum p => sum + fst p * snd p) (combine xs ys) acc.
Proof.
  induction xs as [|x xs IH]; intros [|y ys] pre acc L; try discriminate; [reflexivity|].
  simpl in L. injection L as L. cbn [reduce_from combine fold_left fst snd].
  unfold at_index at 2. rewrite app_nth2, Nat.sub_diag by lia. cbn [nth].
  specialize (IH ys (pre ++ [y]) (acc + x * y) L).
  rewrite <- app_assoc, length_app, Nat.add_1_r in IH. exact IH.
Qed.

Lemma products_swap (xs : list number) :
  forall (ys : list number) (acc : number),
    fold_left (fun sum p => sum + fst p * snd p) (combine xs ys) acc
    = fold_left (fun sum p => sum + fst p * snd p) (combine ys xs) acc.
Proof.
  induction xs as [|x xs IH]; intros [|y ys] acc; try reflexivity.
  cbn [combine fold_left fst snd]. rewrite (mul_comm x y). apply IH.
Qed.

Lemma sumXY_symmetric (x y : list number) :
  List.length x = List.length y ->
  reducei (fun sum xi i => sum + xi * at_index y i) x Num.zero
  = reducei (fun sum yi i => sum + yi * at_index x i) y Num.zero.
Proof.
  intros L. unfold reducei.
  pose proof (reduce_products x y [] Num.zero L) as Hx.
  pose proof (reduce_products y x [] Num.zero (eq_sym L)) as Hy.
  cbn [app List.length] in Hx, Hy. rewrite Hx, Hy.
  apply products_swap.
Qed.

Lemma pearsonCorrelation_swap (x y : list number) :
  VisualizationService.pearsonCorrelation x y = VisualizationService.pearsonCorrelation y x.
Proof.
  unfold VisualizationService.pearsonCorrelation.
  destruct (Nat.eqb (List.length x) (List.length y)) eqn:E.
  - apply Nat.eqb_eq in E. rewrite <- E, Nat.eqb_refl. cbn [negb].
    rewrite (sumXY_symmetric x y E).
    set (n := Num.of_nat (List.length x)).
    set (sumX := fold_left (fun a b => a + b) x Num.zero).
    set (sumY := fold_left (fun a b => a + b) y Num.zero).
    set (sumXX := fold_left (fun sum xi => sum + xi * xi) x Num.zero).
    set (sumYY := fold_left (fun sum yi => sum + yi * yi) y Num.zero).
    rewrite (mul_comm sumX sumY).
    rewrite (mul_comm (n * sumXX - sumX * sumX) (n * sumYY - sumY * sumY)).
    reflexivity.
  - rewrite Nat.eqb_sym, E. reflexivity.
Qed.

(** X1. The correlation of the chart service is symmetric in its two
    arguments, for arrays of any lengths: [pearsonCorrelation(x, y)] and
    [pearsonCorrelation(y, x)] are the same number (0 for both when the
    lengths differ). *)
Theorem X1_VisualizationService_pearsonCorrelation_symmetric (x y : list number) :
  VisualizationService.pearsonCorrelation x y = VisualizationService.pearsonCorrelation y x.
Proof.
  unfold VisualizationService.pearsonCorrelation.
  destruct (Nat.eqb (List.length x) (List.length y)) eqn:E.
  - (* equal lengths: the five sums are exchanged pairwise *)
    apply Nat.eqb_eq in E. rewrite <- E, Nat.eqb_refl. cbn [negb].
    rewrite (sumXY_symmetric x y E).
    rewrite (mul_comm (fold_left (fun a b => a + b) x Num.zero)
                      (fold_left (fun a b => a + b) y Num.zero)).
    match goal with |- context [Num.sqrt (?a * ?b)] => rewrite (mul_comm a b) end.
    reflexivity.
  - (* different lengths: both calls return 0 *)
    rewrite Nat.eqb_sym, E. reflexivity.
Qed.

(** X2. The correlation of the CSV handler is symmetric on two arrays of the
    same length. *)
Theorem X2_CSVHandler_pearsonCorrelation_symmetric (x y : list number) :
  List.length x = List.length y ->
  CSVHandler.pearsonCorrelation x y = CSVHandler.pearsonCorrelation y x.
Proof.
  intros E. unfold CSVHandler.pearsonCorrelation.
  rewrite <- E. rewrite (sumXY_symmetric x y E).
  set (n := Num.of_nat (List.length x)).
  set (sumX := fold_left (fun a b => a + b) x Num.zero).
  set (sumY := fold_left (fun a b => a + b) y Num.zero).
  set (sumXX := fold_left (fun sum xi => sum + xi * xi) x Num.zero).
  set (sumYY := fold_left (fun sum yi => sum + yi * yi) y Num.zero).
  rewrite (mul_comm sumX sumY).
  rewrite (mul_comm (n * sumXX - sumX * sumX) (n * sumYY - sumY * sumY)).
  reflexivity.
Qed.

Lemma X2_witness :
  CSVHandler.pearsonCorrelation [#1; #2; #4] [#3; #1; #2]
  = CSVHandler.pearsonCorrelation [#3; #1; #2] [#1; #2; #4].
Proof.
  exact (X2_CSVHandler_pearsonCorrelation_symmetric [#1; #2; #4] [#3; #1; #2] eq_refl).
Defined.

(** ** The correlation matrix *)

Lemma nth_map_seq {A : Type} (f : nat -> A) (n i : nat) (d : A) :
  (i < n)%nat -> nth i (map f (seq 0 n)) d = f i.
Proof.
  intros H. rewrite (nth_indep _ d (f 0%nat)) by (rewrite length_map, length_seq; exact H).
  rewrite map_nth, seq_nth by exact H. reflexivity.
Qed.

(** X3. The correlation matrix of [n] series is square of size [n], has the
    number 1 on its diagonal, is symmetric, and none of its entries is
    NaN. *)
Theorem X3_calculateCorrelationMatrix_square_symmetric (data : list (list number)) :
  let n := List.length data in
  let matrix := VisualizationService.calculateCorrelationMatrix data in
  let entry i j := nth j (nth i matrix []) Num.NaN in
  List.length matrix = n
  /\ forall i j, (i < n)%nat -> (j < n)%nat ->
       List.length (nth i matrix []) = n
       /\ entry i i = #1
       /\ entry i j = entry j i
       /\ Num.isNaN (entry i j) = false.
Proof.
  intros n matrix entry. subst matrix entry.
  unfold VisualizationService.calculateCorrelationMatrix. fold n.
  split; [rewrite length_map, length_seq; reflexivity|].
  intros i j Hi Hj. cbv beta.
  rewrite (nth_map_seq _ n i [] Hi).
  split; [rewrite length_map, length_seq; reflexivity|].
  rewrite !nth_map_seq by assumption.
  rewrite Nat.eqb_refl. split; [reflexivity|].
  rewrite (Nat.eqb_sym j i).
  destruct (Nat.eqb i j).
  - split; reflexivity.
  - split; [apply pearsonCorrelation_swap|].
    apply VisualizationService_pearsonCorrelation_not_NaN.
Qed.

Lemma X3_witness :
  let matrix :=
    VisualizationService.calculateCorrelationMatrix [[#1; #2; #3]; [#2; #4; #7]] in
  nth 0 (nth 0 matrix []) Num.NaN = #1
  /\ nth 1 (nth 0 matrix []) Num.NaN = nth 0 (nth 1 matrix []) Num.NaN
  /\ Num.isNaN (nth 1 (nth 0 matrix []) Num.NaN) = false.
Proof.
  intros matrix.
  destruct (X3_calculateCorrelationMatrix_square_symmetric [[#1; #2; #3]; [#2; #4; #7]])
    as [_ H].
  destruct (H 0%nat 1%nat ltac:(simpl; lia) ltac:(simpl; lia)) as (_ & D & S & N).
  split; [exact D|]. split; [exact S | exact N].
Defined.

(** ** The least and the greatest of a list *)

Lemma leb_refl (a : number) : Num.isNaN a = false -> Num.leb a a = true.
Proof.
  unfold Num.leb, SFleb.
  destruct a as [sa|sa| |sa ma ea]; simpl; try discriminate; intros _;
    try (destruct sa; reflexivity).
  change (Pos.compare_cont Eq ma ma) with (Pos.compare ma ma).
  destruct sa; rewrite Z.compare_refl, Pos.compare_refl; reflexivity.
Qed.

Lemma min2_left (b : number) : Num.isNaN b = false -> Num.min2 Num.Infinity b = b.
Proof.
  destruct b as [sb|[]| |[] mb eb]; simpl; try discriminate; reflexivity.
Qed.

Lemma max2_left (b : number) :
  Num.isNaN b = false -> Num.max2 (S754_infinity true) b = b.
Proof.
  destruct b as [sb|[]| |[] mb eb]; simpl; try discriminate; reflexivity.
Qed.

(** The smaller and the greater of two numbers other than NaN. *)
Lemma min2_spec (a b : number) :
  Num.isNaN a = false -> Num.isNaN b = false ->
  (Num.min2 a b = a \/ Num.min2 a b = b)
  /\ Num.leb (Num.min2 a b) a = true /\ Num.leb (Num.min2 a b) b = true.
Proof.
  intros Na Nb.
  assert (Z : forall sa sb, a = S754_zero sa -> b = S754_zero sb ->
              (Num.min2 a b = a \/ Num.min2 a b = b)
              /\ Num.leb (Num.min2 a b) a = true /\ Num.leb (Num.min2 a b) b = true)
    by (intros [] [] -> ->; simpl; auto).
  assert (G : Num.min2 a b = (if Num.ltb b a then b else a) ->
              (Num.min2 a b = a \/ Num.min2 a b = b)
              /\ Num.leb (Num.min2 a b) a = true /\ Num.leb (Num.min2 a b) b = true).
  { intros ->. destruct (Num.ltb b a) eqn:L.
    - split; [right; reflexivity|]. split; [apply ltb_leb; exact L | apply leb_refl; exact Nb].
    - split; [left; reflexivity|]. split; [apply leb_refl; exact Na|].
      apply not_ltb_leb; assumption. }
  destruct a as [sa|sa| |sa ma ea], b as [sb|sb| |sb mb eb]; try discriminate;
    try (apply G; reflexivity).
  apply (Z sa sb); reflexivity.
Qed.

Lemma max2_spec (a b : number) :
  Num.isNaN a = false -> Num.isNaN b = false ->
  (Num.max2 a b = a \/ Num.max2 a b = b)
  /\ Num.leb a (Num.max2 a b) = true /\ Num.leb b (Num.max2 a b) = true.
Proof.
  intros Na Nb.
  assert (Z : forall sa sb, a = S754_zero sa -> b = S754_zero sb ->
              (Num.max2 a b = a \/ Num.max2 a b = b)
              /\ Num.leb a (Num.max2 a b) = true /\ Num.leb b (Num.max2 a b) = true)
    by (intros [] [] -> ->; simpl; auto).
  assert (G : Num.max2 a b = (if Num.ltb a b then b else a) ->
              (Num.max2 a b = a \/ Num.max2 a b = b)
              /\ Num.leb a (Num.max2 a b) = true /\ Num.leb b (Num.max2 a b) = true).
  { intros ->. destruct (Num.ltb a b) eqn:L.
    - split; [right; reflexivity|]. split; [apply ltb_leb; exact L | apply leb_refl; exact Nb].
    - split; [left; reflexivity|]. split; [apply leb_refl; exact Na|].
      apply not_ltb_leb; assumption. }
  destruct a as [sa|sa| |sa ma ea], b as [sb|sb| |sb mb eb]; try discriminate;
    try (apply G; reflexivity).
  apply (Z sa sb); reflexivity.
Qed.

(** [Math.min] and [Math.max] of a non-empty list of numbers other than NaN:
    an element of the list that bounds all of them. *)
Lemma fold_min2 (xs : list number) :
  Forall (fun v => Num.isNaN v = false) xs ->
  forall a, Num.isNaN a = false ->
    (fold_left Num.min2 xs a = a \/ In (fold_left Num.min2 xs a) xs)
    /\ Num.leb (fold_left Num.min2 xs a) a = true
    /\ forall v, In v xs -> Num.leb (fold_left Num.min2 xs a) v = true.
Proof.
  induction 1 as [|x xs Nx Hxs IH]; intros a Na; simpl.
  - split; [left; reflexivity|]. split; [apply leb_refl; exact Na | intros v []].
  - destruct (min2_spec a x Na Nx) as (Hm & La & Lx).
    assert (Nm : Num.isNaN (Num.min2 a x) = false) by (destruct Hm as [-> | ->]; assumption).
    destruct (IH _ Nm) as (Hi & Lm & Lall).
    split; [|split].
    + destruct Hi as [E|I]; [|right; right; exact I].
      rewrite E. destruct Hm as [-> | ->]; [left; reflexivity | right; left; reflexivity].
    + apply (leb_trans _ _ _ Lm La).
    + intros v [<-|Hv]; [apply (leb_trans _ _ _ Lm Lx) | apply Lall; exact Hv].
Qed.

Lemma fold_max2 (xs : list number) :
  Forall (fun v => Num.isNaN v = false) xs ->
  forall a, Num.isNaN a = false ->
    (fold_left Num.max2 xs a = a \/ In (fold_left Num.max2 xs a) xs)
    /\ Num.leb a (fold_left Num.max2 xs a) = true
    /\ forall v, In v xs -> Num.leb v (fold_left Num.max2 xs a) = true.
Proof.
  induction 1 as [|x xs Nx Hxs IH]; intros a Na; simpl.
  - split; [left; reflexivity|]. split; [apply leb_refl; exact Na | intros v []].
  - destruct (max2_spec a x Na Nx) as (Hm & La & Lx).
    assert (Nm : Num.isNaN (Num.max2 a x) = false) by (destruct Hm as [-> | ->]; assumption).
    destruct (IH _ Nm) as (Hi & Lm & Lall).
    split; [|split].
    + destruct Hi as [E|I]; [|right; right; exact I].
      rewrite E. destruct Hm as [-> | ->]; [left; reflexivity | right; left; reflexivity].
    + apply (leb_trans _ _ _ La Lm).
    + intros v [<-|Hv]; [apply (leb_trans _ _ _ Lx Lm) | apply Lall; exact Hv].
Qed.

Lemma Math_min_spec (xs : list number) :
  xs <> [] -> Forall (fun v => Num.isNaN v = false) xs ->
  In (Num.Math_min xs) xs /\ forall v, In v xs -> Num.leb (Num.Math_min xs) v = true.
Proof.
  intros Hne Hall. destruct xs as [|x xs]; [congruence|].
  inversion Hall as [|x' xs' Nx Hxs]; subst.
  unfold Num.Math_min. cbn [fold_left].
  change (S754_infinity false) with Num.Infinity. rewrite (min2_left x Nx).
  destruct (fold_min2 xs Hxs x Nx) as (Hi & Lx & Lall).
  split.
  - destruct Hi as [-> | I]; [left; reflexivity | right; exact I].
  - intros v [<-|Hv]; [exact Lx | apply Lall; exact Hv].
Qed.

Lemma Math_max_spec (xs : list number) :
  xs <> [] -> Forall (fun v => Num.isNaN v = false) xs ->
  In (Num.Math_max xs) xs /\ forall v, In v xs -> Num.leb v (Num.Math_max xs) = true.
Proof.
  intros Hne Hall. destruct xs as [|x xs]; [congruence|].
  inversion Hall as [|x' xs' Nx Hxs]; subst.
  unfold Num.Math_max. cbn [fold_left]. rewrite (max2_left x Nx).
  destruct (fold_max2 xs Hxs x Nx) as (Hi & Lx & Lall).
  split.
  - destruct Hi as [-> | I]; [left; reflexivity | right; exact I].
  - intros v [<-|Hv]; [exact Lx | apply Lall; exact Hv].
Qed.

(** ** The regression line of a chart *)

Lemma cleanPoints_not_NaN (xData yData : list number) (p : VisualizationService.point) :
  In p (VisualizationService.cleanPoints xData yData) ->
  Num.isNaN (VisualizationService.x p) = false
  /\ Num.isNaN (VisualizationService.y p) = false
  /\ In (VisualizationService.x p, VisualizationService.y p) (combine xData yData).
Proof.
  unfold VisualizationService.cleanPoints. intros H.
  apply in_map_iff in H. destruct H as ([a b] & <- & H).
  apply filter_In in H. destruct H as [I H]. simpl in *.
  apply andb_true_iff in H. destruct H as [H1 H2].
  apply negb_true_iff in H1, H2. auto.
Qed.

(** X4. The regression line drawn by [createScatterPlot] has two points. Their
    abscissas are the least and the greatest abscissa of the cleaned data
    points (the pairs with no NaN coordinate): both occur among the data,
    and every data point lies between them. Their ordinates are those of
    the fitted line [slope * x + intercept]. *)
Theorem X4_regression_line_spans_clean_points
        (xData yData : list number) (r : VisualizationService.regression) :
  let cleanData := VisualizationService.cleanPoints xData yData in
  cleanData <> [] ->
  exists first last,
    VisualizationService.generateRegressionPoints cleanData r = [first; last]
    /\ In (VisualizationService.x first) (map VisualizationService.x cleanData)
    /\ In (VisualizationService.x last) (map VisualizationService.x cleanData)
    /\ (forall p, In p cleanData ->
          Num.leb (VisualizationService.x first) (VisualizationService.x p) = true
          /\ Num.leb (VisualizationService.x p) (VisualizationService.x last) = true)
    /\ VisualizationService.y first
       = VisualizationService.slope r * VisualizationService.x first
         + VisualizationService.intercept r
    /\ VisualizationService.y last
       = VisualizationService.slope r * VisualizationService.x last
         + VisualizationService.intercept r.
Proof.
  intros cleanData Hne.
  assert (Hx : map VisualizationService.x cleanData <> [])
    by (destruct cleanData; [congruence | discriminate]).
  assert (Hall : Forall (fun v => Num.isNaN v = false) (map VisualizationService.x cleanData)).
  { apply Forall_forall. intros v Hv. apply in_map_iff in Hv.
    destruct Hv as (p & <- & Hp). apply (cleanPoints_not_NaN xData yData p Hp). }
  destruct (Math_min_spec _ Hx Hall) as [Imin Lmin].
  destruct (Math_max_spec _ Hx Hall) as [Imax Lmax].
  eexists. eexists. split; [reflexivity|]. cbn [VisualizationService.x VisualizationService.y].
  repeat split; try assumption.
  - apply Lmin. apply in_map. assumption.
  - apply Lmax. apply in_map. assumption.
Qed.

Lemma X4_witness :
  exists first last,
    VisualizationService.generateRegressionPoints
      (VisualizationService.cleanPoints [#3; Num.NaN; #1; #2] [#1; #5; #4; #9])
      {| VisualizationService.slope := #2; VisualizationService.intercept := #1 |}
    = [first; last]
    /\ VisualizationService.x first = #1 /\ VisualizationService.x last = #3.
Proof.
  assert (H : VisualizationService.cleanPoints [#3; Num.NaN; #1; #2] [#1; #5; #4; #9] <> [])
    by (vm_compute; discriminate).
  destruct (X4_regression_line_spans_clean_points [#3; Num.NaN; #1; #2] [#1; #5; #4; #9]
              {| VisualizationService.slope := #2; VisualizationService.intercept := #1 |} H)
    as (first & last & E & _).
  exists first, last. split; [exact E|].
  revert E. vm_compute. intros E. injection E as <- <-. split; reflexivity.
Defined.

(** ** The statistics of a column *)

Lemma numericValues_not_NaN (Number : string -> number) (data : list row) (col : string) :
  Forall (fun v => Num.isNaN v = false) (CSVHandler.numericValues Number data col).
Proof.
  apply Forall_forall. intros v H. unfold CSVHandler.numericValues in H.
  apply filter_In in H. destruct H as [_ H]. apply negb_true_iff in H. exact H.
Qed.

Lemma columnStats_bounds (values : list number) (s : CSVHandler.column_stats) :
  Forall (fun v => Num.isNaN v = false) values ->
  CSVHandler.columnStats values = Some s ->
  In (CSVHandler.min s) values /\ In (CSVHandler.median s) values
  /\ In (CSVHandler.max s) values
  /\ forall v, In v values ->
       Num.leb (CSVHandler.min s) v = true /\ Num.leb v (CSVHandler.max s) = true.
Proof.
  intros Hall. unfold CSVHandler.columnStats.
  destruct (0 <? List.length values)%nat eqn:P; [|discriminate].
  apply Nat.ltb_lt in P.
  pose proof (Array_sort_Permutation CSVHandler.ascending values) as Hperm.
  pose proof (Permutation_length Hperm) as Hlen.
  set (sorted := Array_sort CSVHandler.ascending values) in *.
  assert (Hhalf : (List.length sorted / 2 < List.length sorted)%nat)
    by (apply Nat.div_lt; lia).
  intros E. injection E as <-.
  cbn [CSVHandler.min CSVHandler.median CSVHandler.max].
  assert (Hs : Forall (fun v => Num.isNaN v = false) sorted)
    by (eapply Permutation_Forall; eassumption).
  assert (Hne : sorted <> []) by (destruct sorted; [simpl in Hlen; lia | discriminate]).
  destruct (Math_min_spec sorted Hne Hs) as [Imin Lmin].
  destruct (Math_max_spec sorted Hne Hs) as [Imax Lmax].
  assert (back : forall v, In v sorted -> In v values)
    by (intros v; apply Permutation_in; apply Permutation_sym; exact Hperm).
  repeat split; auto.
  - apply back. apply nth_In. exact Hhalf.
  - apply Lmin. apply (Permutation_in _ Hperm). assumption.
  - apply Lmax. apply (Permutation_in _ Hperm). assumption.
Qed.

(** X5. Every entry [stats[col]] stored by [calculateBasicStats] belongs to
    a column of the first row and summarises the numeric values of that
    column: its minimum, median and maximum are three of these values, the
    minimum is at most the median, the median at most the maximum, and every
    value lies between the minimum and the maximum. This holds whatever
    [Number] makes of the cells. *)
Theorem X5_calculateBasicStats_min_median_max
        (Number : string -> number) (data : list row) (col : string)
        (s : CSVHandler.column_stats) :
  In (col, s) (CSVHandler.calculateBasicStats Number data) ->
  let values := CSVHandler.numericValues Number data col in
  In col (Object_keys (hd [] data))
  /\ CSVHandler.columnStats values = Some s
  /\ In (CSVHandler.min s) values /\ In (CSVHandler.median s) values
  /\ In (CSVHandler.max s) values
  /\ Num.leb (CSVHandler.min s) (CSVHandler.median s) = true
  /\ Num.leb (CSVHandler.median s) (CSVHandler.max s) = true
  /\ forall v, In v values ->
       Num.leb (CSVHandler.min s) v = true /\ Num.leb v (CSVHandler.max s) = true.
Proof.
  intros H values. unfold CSVHandler.calculateBasicStats in H.
  destruct data as [|first rest]; [contradiction|].
  apply in_flat_map in H. destruct H as (col' & Hcol & H).
  destruct (CSVHandler.columnStats (CSVHandler.numericValues Number (first :: rest) col'))
    as [s'|] eqn:E; [|contradiction].
  destruct H as [H|[]]. injection H as -> ->.
  destruct (columnStats_bounds _ s (numericValues_not_NaN Number (first :: rest) col) E)
    as (Imin & Imed & Imax & B).
  repeat split; try assumption; apply B; assumption.
Qed.

Lemma X5_witness :
  exists s,
    In ("Age"%string, s) (CSVHandler.calculateBasicStats Examples.decimalNumber Examples.staff)
    /\ CSVHandler.min s = #25 /\ CSVHandler.median s = #27 /\ CSVHandler.max s = #30
    /\ Num.leb (CSVHandler.min s) (CSVHandler.median s) = true
    /\ Num.leb (CSVHandler.median s) (CSVHandler.max s) = true.
Proof.
  eexists. 
  assert (H : In ("Age"%string,
                  {| CSVHandler.count := #3; CSVHandler.mean := #82 / #3;
                     CSVHandler.median := #27; CSVHandler.min := #25;
                     CSVHandler.max := #30;
                     CSVHandler.std_dev :=
                       CSVHandler.calculateStdDev [#25; #27; #30] |})
                 (CSVHandler.calculateBasicStats Examples.decimalNumber Examples.staff))
    by (vm_compute; left; reflexivity).
  pose proof (X5_calculateBasicStats_min_median_max _ _ _ _ H) as (_ & _ & _ & _ & _ & L1 & L2 & _).
  split; [exact H|]. repeat split; assumption.
Defined.

(** ** The records of a cleaned films table *)

Local Open Scope Z_scope.

(** The rounding of a positive mantissa is a finite value of the same sign
    whose exponent is not below the least exponent, or the infinity of that
    sign. *)
Lemma binary_round_aux_exponent (s : bool) (m e : Z) (l : location) :
  0 < m -> emin Num.prec Num.emax <= e ->
  (exists m' e', binary_round_aux Num.prec Num.emax s m e l = S754_finite s m' e'
                 /\ emin Num.prec Num.emax <= e')
  \/ binary_round_aux Num.prec Num.emax s m e l = S754_infinity s.
Proof.
  intros Hm He. unfold binary_round_aux.
  destruct (shr_fexp_positive m e l Hm He) as [H1 H2].
  destruct (shr_fexp Num.prec Num.emax m e l) as [mrs' e']. simpl in H1, H2.
  pose proof (round_nearest_even_ge (shr_m mrs') (loc_of_shr_record mrs')) as R.
  destruct (shr_fexp_positive (round_nearest_even (shr_m mrs') (loc_of_shr_record mrs'))
              e' loc_Exact ltac:(lia) H2) as [H3 H4].
  destruct (shr_fexp Num.prec Num.emax _ e' loc_Exact) as [mrs'' e'']. simpl in H3, H4.
  destruct (shr_m mrs'') as [|m''|m'']; try lia.
  destruct (e'' <=? Num.emax - Num.prec); [left; eauto | right; reflexivity].
Qed.

Lemma binary_round_exponent (s : bool) (m : positive) (e : Z) :
  emin Num.prec Num.emax <= e ->
  (exists m' e', binary_round Num.prec Num.emax s m e = S754_finite s m' e'
                 /\ emin Num.prec Num.emax <= e')
  \/ binary_round Num.prec Num.emax s m e = S754_infinity s.
Proof.
  intros He. unfold binary_round.
  destruct (shl_align m e (fexp Num.prec Num.emax (Zpos (digits2_pos m) + e))) as [mz ez] eqn:A.
  apply binary_round_aux_exponent; [lia|].
  unfold shl_align in A.
  destruct (fexp Num.prec Num.emax (Zpos (digits2_pos m) + e) - e) as [|d|d] eqn:D;
    injection A as <- <-; try exact He.
  unfold fexp. lia.
Qed.

(** The Number value of a count is [+0], a positive finite value or
    [+Infinity]; adding 1 to it gives a number that is neither 0 nor NaN. *)
Lemma of_nat_add_one_truthy (n : nat) :
  Num.truthy (Num.add (Num.of_nat n) (Num.of_Z 1)) = true.
Proof.
  unfold Num.of_nat, Num.of_Z at 1.
  destruct (Z.of_nat n) as [|p|p] eqn:E; [reflexivity| |lia].
  cbn [binary_normalize].
  destruct (binary_round_exponent false p 0) as [(m' & e' & -> & He')| ->];
    [unfold emin, Num.prec, Num.emax; lia | |reflexivity].
  change (Num.of_Z 1) with (S754_finite false 4503599627370496 (-52)).
  unfold Num.add, SFadd. cbv [cond_Zopp].
  assert (Hz : emin Num.prec Num.emax <= Z.min e' (-52))
    by (unfold emin, Num.prec, Num.emax in *; lia).
  destruct (Zpos (fst (shl_align m' e' (Z.min e' (-52))))
            + Zpos (fst (shl_align 4503599627370496 (-52) (Z.min e' (-52)))))
    as [|M|M] eqn:EM; try lia.
  cbn [binary_normalize].
  destruct (binary_round_sign false M (Z.min e' (-52)) Hz) as [(m2 & e2 & ->)| ->];
    reflexivity.
Qed.

Local Open Scope js_scope.

Lemma or_number_truthy (v : option number) (d : number) :
  Num.truthy d = true -> Num.truthy (WikipediaHandler.or_number v d) = true.
Proof.
  intros H. unfold WikipediaHandler.or_number.
  destruct v as [n|]; [|exact H]. destruct (Num.truthy n) eqn:T; assumption.
Qed.

(** Every record pushed by the loop has its four numeric and text fields
    truthy. *)
Lemma cleanRow_complete (cleaned : list WikipediaHandler.movie) (r : row)
      (m : WikipediaHandler.movie) :
  WikipediaHandler.cleanRow cleaned r = Ok (Some m) ->
  Num.truthy (WikipediaHandler.revenue m) = true
  /\ WikipediaHandler.title m <> ""%string
  /\ Num.truthy (WikipediaHandler.rank m) = true
  /\ Num.truthy (WikipediaHandler.peak m) = true.
Proof.
  destruct (cleanRow_spec cleaned r) as (revenue & year & rank & peak & _ & _ & _ & _ & ->).
  destruct (truthy_opt revenue && truthy_string (WikipediaHandler.titleValue r)) eqn:T;
    [|discriminate].
  apply andb_true_iff in T. destruct T as [T1 T2].
  intros E. injection E as <-. cbn [WikipediaHandler.revenue WikipediaHandler.title
    WikipediaHandler.rank WikipediaHandler.peak].
  pose proof (of_nat_add_one_truthy (List.length cleaned)) as Hnext.
  destruct revenue as [rev|]; [|discriminate].
  destruct (WikipediaHandler.titleValue r) as [t|]; [|discriminate].
  simpl in T1, T2. apply negb_true_iff in T2.
  repeat split.
  - exact T1.
  - intros ->. discriminate.
  - apply or_number_truthy. exact Hnext.
  - apply or_number_truthy. apply or_number_truthy. exact Hnext.
Qed.

Lemma cleanFilmsData_complete (rawData : list row) :
  Forall (fun m => Num.truthy (WikipediaHandler.revenue m) = true
                   /\ WikipediaHandler.title m <> ""%string
                   /\ Num.truthy (WikipediaHandler.rank m) = true
                   /\ Num.truthy (WikipediaHandler.peak m) = true)
         (WikipediaHandler.cleanFilmsData rawData).
Proof.
  induction rawData as [|r rawData IH] using rev_ind; [constructor|].
  rewrite cleanFilmsData_snoc.
  destruct (WikipediaHandler.cleanRow (WikipediaHandler.cleanFilmsData rawData) r)
    as [[m|]|] eqn:E; try exact IH.
  apply Forall_app. split; [exact IH|]. constructor; [|constructor].
  apply (cleanRow_complete _ _ _ E).
Qed.

Lemma filter_all {A : Type} (p : A -> bool) (l : list A) :
  Forall (fun a => p a = true) l -> filter p l = l.
Proof.
  induction 1 as [|a l H _ IH]; simpl; [reflexivity|]. rewrite H, IH. reflexivity.
Qed.

Lemma validData_all (rawData : list row) :
  filter (fun d => Num.truthy (WikipediaHandler.rank d) && Num.truthy (WikipediaHandler.peak d))
         (WikipediaHandler.cleanFilmsData rawData)
  = WikipediaHandler.cleanFilmsData rawData.
Proof.
  apply filter_all. eapply Forall_impl; [|apply cleanFilmsData_complete].
  intros m (_ & _ & -> & ->). reflexivity.
Qed.

Lemma cleanPoints_all (xs : list (number * number)) :
  Forall (fun p => Num.isNaN (fst p) = false /\ Num.isNaN (snd p) = false) xs ->
  VisualizationService.cleanPoints (map fst xs) (map snd xs)
  = map (fun p => {| VisualizationService.x := fst p; VisualizationService.y := snd p |}) xs.
Proof.
  intros H. unfold VisualizationService.cleanPoints. f_equal.
  assert (E : combine (map fst xs) (map snd xs) = xs).
  { clear H. induction xs as [|[a b] xs IH]; simpl; [reflexivity|]. rewrite IH. reflexivity. }
  rewrite E. apply filter_all. eapply Forall_impl; [|exact H].
  intros p [-> ->]. reflexivity.
Qed.

(** X6. Every record produced by [cleanFilmsData] has a revenue other than 0
    and NaN, a non-empty title, and a rank and a peak other than 0 and NaN
    (a missing rank is replaced by the position of the record, which is
    never 0). Hence the filter [d.rank && d.peak] of the correlation and of
    the scatterplot keeps every cleaned record, the chart's own cleaning
    drops none of their points, and the scatterplot of a cleaned table is
    empty only when it has fewer than two records or the chart service
    answers with the empty string. *)
Theorem X6_cleaned_films_all_enter_correlation_and_chart
        (rt : Runtime) (chart : VisualizationService.ChartJS) (rawData : list row) :
  let cleanData := WikipediaHandler.cleanFilmsData rawData in
  let validData :=
    filter (fun d => Num.truthy (WikipediaHandler.rank d) && Num.truthy (WikipediaHandler.peak d))
           cleanData in
  Forall (fun m => Num.truthy (WikipediaHandler.revenue m) = true
                   /\ WikipediaHandler.title m <> ""%string
                   /\ Num.truthy (WikipediaHandler.rank m) = true
                   /\ Num.truthy (WikipediaHandler.peak m) = true) cleanData
  /\ validData = cleanData
  /\ VisualizationService.cleanPoints
       (map WikipediaHandler.rank validData) (map WikipediaHandler.peak validData)
     = map (fun m => {| VisualizationService.x := WikipediaHandler.rank m;
                        VisualizationService.y := WikipediaHandler.peak m |}) cleanData
  /\ WikipediaHandler.generateRankPeakScatterplot rt chart cleanData
     = if (List.length cleanData <? 2)%nat then ""%string
       else VisualizationService.createScatterPlot rt chart
              (map WikipediaHandler.rank cleanData) (map WikipediaHandler.peak cleanData)
              "Rank" "Peak" "Rank vs Peak Correlation".
Proof.
  intros cleanData validData. subst validData.
  pose proof (cleanFilmsData_complete rawData) as Hc. fold cleanData in Hc.
  pose proof (validData_all rawData) as Hv. fold cleanData in Hv.
  split; [exact Hc|]. split; [exact Hv|]. rewrite Hv. split.
  - pose proof (cleanPoints_all
                  (map (fun m => (WikipediaHandler.rank m, WikipediaHandler.peak m)) cleanData))
      as H.
    rewrite !map_map in H. cbn [fst snd] in H. apply H.
    apply Forall_map. eapply Forall_impl; [|exact Hc].
    intros m (_ & _ & R & P). cbn [fst snd]. split; apply truthy_not_NaN; assumption.
  - unfold WikipediaHandler.generateRankPeakScatterplot. rewrite Hv. reflexivity.
Qed.

(** ** The count and the earliest film *)

Lemma leb_ltb_trans (a b c : number) :
  Num.leb a b = true -> Num.ltb b c = true -> Num.ltb a c = true.
Proof.
  unfold Num.leb, Num.ltb, SFleb, SFltb.
  destruct a as [sa|sa| |sa ma ea], b as [sb|sb| |sb mb eb], c as [sc|sc| |sc mc ec];
    simpl; try discriminate; try reflexivity; intros H1 H2; order_cases.
Qed.

Lemma of_nat_zero (n : nat) : Num.of_nat n = Num.zero -> n = 0%nat.
Proof.
  unfold Num.of_nat, Num.of_Z. destruct n as [|n]; [reflexivity|].
  rewrite Nat2Z.inj_succ. destruct (Z.succ (Z.of_nat n)) as [|p|p] eqn:E; try lia.
  cbn [binary_normalize].
  destruct (binary_round_sign false p 0) as [(m' & e' & ->)| ->];
    [unfold emin, Num.prec, Num.emax; lia | discriminate | discriminate].
Qed.

(** The film selected by the [reduce] is one of the films over $1.5bn, and no
    film over $1.5bn has a smaller year. *)
Lemma earliest_least (first : WikipediaHandler.movie) (others : list WikipediaHandler.movie) :
  (forall m, In m (first :: others) -> Num.isNaN (yearOf m) = false) ->
  In (fold_left WikipediaHandler.earlier others first) (first :: others)
  /\ forall m, In m (first :: others) ->
       Num.leb (yearOf (fold_left WikipediaHandler.earlier others first)) (yearOf m) = true.
Proof.
  intros Hnan.
  destruct (reduce_earlier others [] [] first) as (b & a & E & Hb & Ha).
  - exact Hnan.
  - intros m [].
  - intros m [].
  - cbn [app] in E. set (e := fold_left WikipediaHandler.earlier others first) in *.
    assert (Ie : In e (first :: others))
      by (rewrite E; apply in_or_app; right; left; reflexivity).
    split; [exact Ie|].
    intros m Hm. pose proof (Hnan m Hm) as Nm. pose proof (Hnan e Ie) as Ne.
    rewrite E in Hm. apply in_app_or in Hm. destruct Hm as [Hm|[<-|Hm]].
    + apply not_ltb_leb; auto.
    + apply leb_refl. exact Ne.
    + apply ltb_leb. auto.
Qed.

(** X7. The first two answers of the films analysis agree: whenever the count
    of $2bn films released before 2000 is not 0, the answer to the question
    about the earliest $1.5bn film names a film of the data that grossed at
    least $1.5bn and whose year is before 2000. *)
Theorem X7_film_counted_before_2000_bounds_the_earliest
        (rt : Runtime) (data : list WikipediaHandler.movie) :
  WikipediaHandler.count2BillionMoviesBefore2000 data <> #0 ->
  exists e,
    In e data
    /\ WikipediaHandler.findEarliest1_5BillionFilm rt data
       = (WikipediaHandler.title e ++ " (" ++
          WikipediaHandler.toString_opt rt (WikipediaHandler.year e) ++ ")")%string
    /\ Num.geb (WikipediaHandler.revenue e) #1500000000 = true
    /\ Num.ltb (yearOf e) #2000 = true.
Proof.
  intros Hcount. unfold WikipediaHandler.count2BillionMoviesBefore2000 in Hcount.
  destruct (filter _ data) as [|m counted] eqn:F; [exfalso; apply Hcount; reflexivity|].
  clear Hcount.
  assert (Hm : In m (filter (fun movie =>
                 Num.geb (WikipediaHandler.revenue movie) #2000000000
                 && truthy_opt (WikipediaHandler.year movie)
                 && Num.ltb (toNumber_opt (WikipediaHandler.year movie)) #2000) data))
    by (rewrite F; left; reflexivity).
  clear F. apply filter_In in Hm. destruct Hm as [Im Hm].
  apply andb_true_iff in Hm. destruct Hm as [Hm Hy].
  apply andb_true_iff in Hm. destruct Hm as [Hr Ht].
  assert (Io : In m (WikipediaHandler.over1_5bn data)).
  { unfold WikipediaHandler.over1_5bn. apply filter_In. split; [exact Im|].
    rewrite Ht, andb_true_r. unfold Num.geb in *.
    apply (leb_trans _ #2000000000); [reflexivity | exact Hr]. }
  unfold WikipediaHandler.findEarliest1_5BillionFilm.
  pose proof (over1_5bn_year data) as Hnan.
  assert (Hin : forall e, In e (WikipediaHandler.over1_5bn data) ->
                  In e data /\ Num.geb (WikipediaHandler.revenue e) #1500000000 = true).
  { intros e He. unfold WikipediaHandler.over1_5bn in He. apply filter_In in He.
    destruct He as [He Hp]. apply andb_true_iff in Hp. tauto. }
  destruct (WikipediaHandler.over1_5bn data) as [|first others]; [contradiction|].
  destruct (earliest_least first others Hnan) as [Ie Le].
  exists (fold_left WikipediaHandler.earlier others first).
  destruct (Hin _ Ie) as [Id Hrev].
  repeat split; try assumption.
  apply (leb_ltb_trans _ (yearOf m)); [apply Le; exact Io | exact Hy].
Qed.

Lemma X7_witness :
  exists e,
    In e Examples.sameYearFilms
    /\ WikipediaHandler.findEarliest1_5BillionFilm Examples.runtime Examples.sameYearFilms
       = (WikipediaHandler.title e ++ " (" ++
          WikipediaHandler.toString_opt Examples.runtime (WikipediaHandler.year e) ++ ")")%string
    /\ Num.geb (WikipediaHandler.revenue e) #1500000000 = true
    /\ Num.ltb (yearOf e) #2000 = true.
Proof.
  assert (H : WikipediaHandler.count2BillionMoviesBefore2000 Examples.sameYearFilms <> #0)
    by (vm_compute; discriminate).
  exact (X7_film_counted_before_2000_bounds_the_earliest Examples.runtime
           Examples.sameYearFilms H).
Defined.

(** ** The keyword classifier and the questions of a task *)

Lemma lowerChar_idempotent (c : ascii) : Str.lowerChar (Str.lowerChar c) = Str.lowerChar c.
Proof. destruct c as [[] [] [] [] [] [] [] []]; reflexivity. Qed.

Lemma toLowerCase_idempotent (s : string) :
  Str.toLowerCase (Str.toLowerCase s) = Str.toLowerCase s.
Proof.
  induction s as [|c s IH]; simpl; [reflexivity|].
  rewrite lowerChar_idempotent, IH. reflexivity.
Qed.


Lemma takeWhile_dropWhile (p : ascii -> bool) (s : string) :
  (Str.takeWhile p s ++ Str.dropWhile p s)%string = s.
Proof.
  induction s as [|c s IH]; simpl; [reflexivity|].
  destruct (p c); simpl; [rewrite IH|]; reflexivity.
Qed.

Lemma questionMarks_app (a b : string) :
  questionMarks (a ++ b) = (questionMarks a + questionMarks b)%nat.
Proof. induction a as [|c a IH]; simpl; [reflexivity|]. rewrite IH. lia. Qed.

Lemma takeWhile_no_questionMark (s : string) :
  questionMarks (Str.takeWhile (fun c => negb (LLMService.isQuestionMark c)) s) = 0%nat.
Proof.
  induction s as [|c s IH]; simpl; [reflexivity|].
  destruct (LLMService.isQuestionMark c) eqn:Q; simpl; [reflexivity|].
  rewrite Q. exact IH.
Qed.

Lemma dropWhile_head (p : ascii -> bool) (s : string) (c : ascii) (rest : string) :
  Str.dropWhile p s = String c rest -> p c = false.
Proof.
  induction s as [|d s IH]; simpl; [discriminate|].
  destruct (p d) eqn:P; [exact IH|]. intros E. injection E as <- _. exact P.
Qed.

Lemma dropWhile_suffix_questionMarks (p : ascii -> bool) (s : string) :
  (questionMarks (Str.dropWhile p s) <= questionMarks s)%nat.
Proof.
  induction s as [|c s IH]; simpl; [lia|]. destruct (p c); simpl; lia.
Qed.

Lemma digit_not_questionMark (c : ascii) :
  Str.isDigit c = true -> LLMService.isQuestionMark c = false.
Proof.
  unfold Str.isDigit, LLMService.isQuestionMark. intros H.
  apply andb_true_iff in H. destruct H as [_ H]. apply Nat.leb_le in H.
  apply Nat.eqb_neq. lia.
Qed.

Lemma space_not_questionMark (c : ascii) :
  Str.isSpace c = true -> LLMService.isQuestionMark c = false.
Proof.
  unfold Str.isSpace, LLMService.isQuestionMark. intros H. apply Nat.eqb_neq.
  apply orb_true_iff in H. destruct H as [H|H].
  - apply andb_true_iff in H. destruct H as [_ H]. apply Nat.leb_le in H. lia.
  - apply Nat.eqb_eq in H. lia.
Qed.

(** What a match at the start of a text looks like. *)
Lemma question_at_spec (s question : string) (matched : nat) :
  LLMService.question_at s = Some (question, matched) ->
  exists (d dot : ascii) (body rest : string),
    s = String d (String dot (body ++ String "?" rest))
    /\ LLMService.isQuestionMark d = false
    /\ LLMService.isQuestionMark dot = false
    /\ questionMarks body = 0%nat
    /\ question = (Str.dropWhile Str.isSpace body ++ "?")%string
    /\ matched = (String.length body + 3)%nat.
Proof.
  unfold LLMService.question_at.
  destruct s as [|d [|dot rest]]; try discriminate.
  destruct (Str.isDigit d) eqn:D; [|discriminate].
  destruct (Str.code dot =? 46)%nat eqn:P; [|discriminate]. cbn [andb].
  pose proof (takeWhile_dropWhile (fun c => negb (LLMService.isQuestionMark c)) rest) as E.
  pose proof (takeWhile_no_questionMark rest) as N.
  destruct (Str.takeWhile (fun c => negb (LLMService.isQuestionMark c)) rest)
    as [|b body] eqn:T; [discriminate|].
  destruct (Str.dropWhile (fun c => negb (LLMService.isQuestionMark c)) rest)
    as [|q rest'] eqn:R; [discriminate|].
  intros H. injection H as <- <-.
  pose proof (dropWhile_head _ _ _ _ R) as Q. apply negb_false_iff in Q.
  assert (q = "?"%char) as ->.
  { unfold LLMService.isQuestionMark, Str.code in Q. apply Nat.eqb_eq in Q.
    rewrite <- (ascii_nat_embedding q), Q. reflexivity. }
  exists d, dot, (String b body), rest'.
  repeat split; try assumption; try reflexivity.
  - rewrite E. reflexivity.
  - apply digit_not_questionMark. exact D.
  - unfold LLMService.isQuestionMark. apply Nat.eqb_eq in P. rewrite P. reflexivity.
Qed.

Lemma append_length (a b : string) :
  String.length (a ++ b) = (String.length a + String.length b)%nat.
Proof. induction a as [|c a IH]; simpl; [reflexivity|]. rewrite IH. reflexivity. Qed.

Lemma append_snoc (a b : string) (c : ascii) :
  ((a ++ String c "") ++ b)%string = (a ++ String c b)%string.
Proof. induction a as [|d a IH]; simpl; [reflexivity|]. rewrite IH. reflexivity. Qed.

(** Passing over the characters of a match. *)
Lemma questions_from_skip (pre rest : string) :
  LLMService.questions_from (String.length pre) (pre ++ rest)
  = LLMService.questions_from 0 rest.
Proof.
  induction pre as [|c pre IH]; [reflexivity|]. simpl. exact IH.
Qed.

Lemma dropWhile_isSpace_wellFormed (body : string) :
  questionMarks body = 0%nat ->
  wellFormedQuestion (Str.dropWhile Str.isSpace body ++ "?").
Proof.
  intros N. exists (Str.dropWhile Str.isSpace body). split; [reflexivity|]. split.
  - pose proof (dropWhile_suffix_questionMarks Str.isSpace body). lia.
  - destruct (Str.dropWhile Str.isSpace body) as [|c r] eqn:E; [exact I|].
    apply (dropWhile_head _ _ _ _ E).
Qed.

Lemma questions_from_spec (n : nat) :
  forall s, (String.length s <= n)%nat ->
    Forall wellFormedQuestion (LLMService.questions_from 0 s)
    /\ (List.length (LLMService.questions_from 0 s) <= questionMarks s)%nat.
Proof.
  induction n as [|n IH]; intros s L.
  - destruct s; [|simpl in L; lia]. split; [constructor | simpl; lia].
  - destruct s as [|c s']; [split; [constructor | simpl; lia]|].
    simpl in L. cbn [LLMService.questions_from].
    destruct (LLMService.question_at (String c s')) as [[question matched]|] eqn:Q.
    + destruct (question_at_spec _ _ _ Q) as (d & dot & body & rest & E & Qd & Qdot & N & -> & ->).
      injection E as -> ->.
      replace (String.length body + 3 - 1)%nat
        with (String.length (String dot (body ++ "?"))) by (simpl; rewrite append_length; simpl; lia).
      replace (String dot (body ++ String "?" rest))
        with ((String dot (body ++ "?")) ++ rest)%string
        by (simpl; rewrite append_snoc; reflexivity).
      rewrite questions_from_skip.
      destruct (IH rest) as [F Len].
      { cbn [String.length] in L. rewrite append_length in L. cbn [String.length] in L. lia. }
      split; [constructor; [apply dropWhile_isSpace_wellFormed; exact N | exact F]|].
      cbn [questionMarks List.length]. rewrite Qd. simpl questionMarks.
      rewrite Qdot, !questionMarks_app, N. simpl. lia.
    + destruct (IH s') as [F Len]; [lia|]. split; [exact F|]. simpl. lia.
Qed.

(** X9. Every question found by [extractQuestionsFromText] ends with a
    question mark, has no other question mark and does not start with white
    space; and there are at most as many questions as the text has question
    marks (so none for a text without question mark). *)
Theorem X9_extractQuestionsFromText_questions (text : string) :
  Forall wellFormedQuestion (LLMService.extractQuestionsFromText text)
  /\ (List.length (LLMService.extractQuestionsFromText text) <= questionMarks text)%nat.
Proof. apply (questions_from_spec (String.length text)). lia. Qed.

(** ** The court-data path *)


Lemma fold_left_filter {A B : Type} (p : B -> bool) (f : A -> B -> A) (l : list B) :
  (forall a b, p b = false -> f a b = a) ->
  forall a, fold_left f (filter p l) a = fold_left f l a.
Proof.
  intros H. induction l as [|b l IH]; intros a; cbn [filter fold_left]; [reflexivity|].
  destruct (p b) eqn:P; cbn [fold_left]; [apply IH|].
  rewrite (H a b P). apply IH.
Qed.

Lemma fold_left_growth {A B : Type} (size : A -> nat) (f : A -> B -> A) (l : list B) :
  (forall a b, (size (f a b) <= S (size a))%nat) ->
  forall a, (size (fold_left f l a) <= size a + List.length l)%nat.
Proof.
  intros H. induction l as [|b l IH]; intros a; cbn [fold_left List.length]; [lia|].
  specialize (IH (f a b)). specialize (H a b). lia.
Qed.

Lemma fold_left_invariant {A B : Type} (P : A -> Prop) (f : A -> B -> A) (l : list B) :
  (forall a b, P a -> P (f a b)) -> forall a, P a -> P (fold_left f l a).
Proof.
  intros H. induction l as [|b l IH]; intros a Pa; cbn [fold_left]; auto.
Qed.

Lemma insert_key_length (k : string) (sorted : list string) :
  List.length (DuckDBHandler.insert_key k sorted) = S (List.length sorted).
Proof.
  induction sorted as [|w rest IH]; simpl; [reflexivity|].
  destruct (String.ltb k w); simpl; [reflexivity | rewrite IH; reflexivity].
Qed.

Lemma sort_keys_length (keys : list string) :
  List.length (DuckDBHandler.sort_keys keys) = List.length keys.
Proof.
  unfold DuckDBHandler.sort_keys.
  assert (H : forall sorted,
             List.length (fold_left (fun sorted k => DuckDBHandler.insert_key k sorted) keys sorted)
             = (List.length keys + List.length sorted)%nat).
  { induction keys as [|k keys IH]; intros sorted; simpl; [reflexivity|].
    rewrite IH, insert_key_length. lia. }
  rewrite H. simpl. lia.
Qed.

Lemma yearly_push_length (key : string) (delay : number)
      (yearlyData : list (string * list number)) :
  (List.length (DuckDBHandler.yearly_push key delay yearlyData) <= S (List.length yearlyData))%nat.
Proof.
  induction yearlyData as [|[k delays] rest IH]; simpl; [lia|].
  destruct (String.eqb k key); simpl; lia.
Qed.

(** X10. [processDelayData] ignores the rows whose delay is negative, above
    3650 days or NaN: it gives the same series as on the remaining rows
    alone. The arrays [years] and [avgDelays] it returns have the same
    length, which is at most the number of rows kept; so the regression and
    the chart that follow never see arrays of different lengths. *)
Theorem X10_processDelayData_series (rt : Runtime) (rawData : list DuckDBHandler.delay_row) :
  let kept := filter reasonableDelay rawData in
  let series := DuckDBHandler.processDelayData rt rawData in
  DuckDBHandler.processDelayData rt kept = series
  /\ List.length (DuckDBHandler.years series) = List.length (DuckDBHandler.avgDelays series)
  /\ (List.length (DuckDBHandler.years series) <= List.length kept)%nat.
Proof.
  intros kept series. subst kept series. unfold DuckDBHandler.processDelayData.
  match goal with |- context [fold_left ?f rawData []] => set (group := f) end.
  assert (E : fold_left group (filter reasonableDelay rawData) [] = fold_left group rawData []).
  { apply fold_left_filter. intros a b P. unfold group. fold (reasonableDelay b).
    rewrite P. reflexivity. }
  assert (L : (List.length (fold_left group rawData [])
               <= List.length (filter reasonableDelay rawData))%nat).
  { rewrite <- E.
    apply (fold_left_growth (@List.length _) group (filter reasonableDelay rawData)).
    intros a b. unfold group. destruct (_ && _); [apply yearly_push_length | lia]. }
  rewrite E. split; [reflexivity|].
  set (yearlyData := fold_left group rawData []) in *.
  match goal with |- context [fold_left ?f (DuckDBHandler.sort_keys ?k) ?a] =>
    set (average := f); set (keys := DuckDBHandler.sort_keys k); set (start := a) end.
  split.
  - apply (fold_left_invariant
             (fun s => List.length (DuckDBHandler.years s)
                       = List.length (DuckDBHandler.avgDelays s)) average keys);
      [|reflexivity].
    intros a k H. unfold average. destruct (0 <? _)%nat; [|exact H].
    cbn [DuckDBHandler.years DuckDBHandler.avgDelays]. rewrite !length_app, H. reflexivity.
  - pose proof (fold_left_growth (fun s => List.length (DuckDBHandler.years s)) average keys)
      as G.
    eapply Nat.le_trans; [apply G|].
    + intros a k. unfold average. destruct (0 <? _)%nat; [|lia].
      cbn [DuckDBHandler.years]. rewrite length_app. simpl. lia.
    + unfold keys, start. rewrite sort_keys_length, length_map. simpl. exact L.
Qed.


(** X11. Once the database has been opened, the connection is kept even when
    loading the extensions failed: the field [connection] is set after the
    call, and the next [initializeConnection] returns at once, without
    loading an extension again. *)
Theorem X11_connection_kept_after_failed_initialization
        (db : DuckDBHandler.DuckDB) (connected : bool) :
  DuckDBHandler.open_database db = Ok tt ->
  snd (DuckDBHandler.initializeConnection db connected) = true
  /\ DuckDBHandler.initializeConnection db
       (snd (DuckDBHandler.initializeConnection db connected)) = (Ok tt, true).
Proof.
  intros H. unfold DuckDBHandler.initializeConnection.
  destruct connected; [split; reflexivity|]. rewrite H. split; reflexivity.
Qed.

Lemma X11_witness :
  fst (DuckDBHandler.initializeConnection Examples.offlineDatabase false) = Throw "HTTP Error"
  /\ snd (DuckDBHandler.initializeConnection Examples.offlineDatabase false) = true
  /\ DuckDBHandler.initializeConnection Examples.offlineDatabase
       (snd (DuckDBHandler.initializeConnection Examples.offlineDatabase false)) = (Ok tt, true).
Proof.
  split; [reflexivity|].
  exact (X11_connection_kept_after_failed_initialization Examples.offlineDatabase false eq_refl).
Defined.

(** The slope reported when the delays cannot be queried: the one of the
    sample series, -10. *)
Lemma calculateRegressionSlope_sample (rt : Runtime) (chart : VisualizationService.ChartJS)
      (db : DuckDBHandler.DuckDB) :
  (match DuckDBHandler.query_delays db DuckDBHandler.regressionQuery with
   | Ok rawData => (List.length rawData <? 2)%nat
   | Throw _ => true
   end) = true ->
  DuckDBHandler.calculateRegressionSlope rt chart db
  = {| DuckDBHandler.slope := #(-10);
       DuckDBHandler.visualization :=
         VisualizationService.createScatterPlot rt chart
           [#2019; #2020; #2021; #2022] [#150; #140; #130; #120]
           "Year" "Average Delay (days)" "Case Processing Time Trend (Sample Data)";
       DuckDBHandler.data_points := #4;
       DuckDBHandler.note := Some "Sample data used due to external service unavailability"%string |}.
Proof.
  intros H. unfold DuckDBHandler.calculateRegressionSlope.
  assert (S : Num.Math_round
                (DuckDBHandler.calculateLinearRegressionSlope
                   [#2019; #2020; #2021; #2022] [#150; #140; #130; #120] * #100) / #100
              = #(-10)) by (vm_compute; reflexivity).
  destruct (DuckDBHandler.query_delays db DuckDBHandler.regressionQuery) as [rawData|m];
    cbn [bind].
  - rewrite H. cbv zeta. rewrite S. reflexivity.
  - cbv zeta. rewrite S. reflexivity.
Qed.

(** X12. For a task that asks for the regression slope only, without a
    visualization, the two fallbacks of the court-data path answer
    differently, in value and in shape. When [initializeConnection] throws,
    the answer is the object [{regression_slope_court_33_10: -2.34}] of
    [getSampleCourtData]; when the connection is there but the query of the
    delays fails, it is the bare number -10, the slope of the sample series
    of [calculateRegressionSlope]. *)
Theorem X12_regression_fallbacks_disagree
        (rt : Runtime) (chart : VisualizationService.ChartJS) (db : DuckDBHandler.DuckDB)
        (taskDescription : string) (taskAnalysis : LLMService.analysis) :
  let task := Str.toLowerCase taskDescription in
  Str.includes task "regression slope" = true ->
  Str.includes task "disposed the most cases" = false ->
  Str.includes task "which high court" = false ->
  LLMService.visualizationNeeded taskAnalysis = false ->
  (forall connected m,
     fst (DuckDBHandler.initializeConnection db connected) = Throw m ->
     fst (DuckDBHandler.processCourtDataTask rt chart db connected taskDescription taskAnalysis)
     = Ok (VObject [("regression_slope_court_33_10"%string,
                     VNumber (Num.neg (#234 / #100)))]))
  /\ (forall connected m,
        fst (DuckDBHandler.initializeConnection db connected) = Ok tt ->
        DuckDBHandler.query_delays db DuckDBHandler.regressionQuery = Throw m ->
        fst (DuckDBHandler.processCourtDataTask rt chart db connected taskDescription taskAnalysis)
        = Ok (VNumber #(-10))).
Proof.
  intros task H1 H2 H3 H4. subst task. split.
  - intros connected m H. unfold DuckDBHandler.processCourtDataTask.
    destruct (DuckDBHandler.initializeConnection db connected) as [init connected'].
    cbn [fst] in *. subst init. cbn [DuckDBHandler.processCourtDataTask_body bind try_catch].
    unfold DuckDBHandler.getSampleCourtData. rewrite H1, H2, H4. reflexivity.
  - intros connected m H Hq. unfold DuckDBHandler.processCourtDataTask.
    destruct (DuckDBHandler.initializeConnection db connected) as [init connected'].
    cbn [fst] in *. subst init. unfold DuckDBHandler.processCourtDataTask_body.
    cbn [bind]. cbv zeta. rewrite H1, H2, H3, H4. cbn [orb app].
    rewrite (calculateRegressionSlope_sample rt chart db) by (rewrite Hq; reflexivity).
    reflexivity.
Qed.

Lemma X12_witness :
  fst (DuckDBHandler.processCourtDataTask Examples.runtime Examples.oversizedChart
         Examples.unreachableDatabase false Examples.slopeTask
         (LLMService.fallbackAnalysis Examples.slopeTask))
  = Ok (VObject [("regression_slope_court_33_10"%string, VNumber (Num.neg (#234 / #100)))])
  /\ fst (DuckDBHandler.processCourtDataTask Examples.runtime Examples.oversizedChart
            Examples.unreachableDatabase true Examples.slopeTask
            (LLMService.fallbackAnalysis Examples.slopeTask))
     = Ok (VNumber #(-10)).
Proof.
  pose proof (X12_regression_fallbacks_disagree Examples.runtime Examples.oversizedChart
                Examples.unreachableDatabase Examples.slopeTask
                (LLMService.fallbackAnalysis Examples.slopeTask)
                eq_refl eq_refl eq_refl eq_refl) as [A B].
  split.
  - exact (A false "IO Error"%string eq_refl).
  - exact (B true "IO Error"%string eq_refl eq_refl).
Defined.

(** ** The chart and the slope *)

Lemma cleanPoints_length (xData yData : list number) :
  (List.length (VisualizationService.cleanPoints xData yData) <= List.length xData)%nat.
Proof.
  unfold VisualizationService.cleanPoints. rewrite length_map.
  eapply Nat.le_trans; [apply filter_length_le|].
  rewrite length_combine. lia.
Qed.

Lemma cleanPoints_idempotent (xData yData : list number) :
  let cleanData := VisualizationService.cleanPoints xData yData in
  VisualizationService.cleanPoints
    (map VisualizationService.x cleanData) (map VisualizationService.y cleanData)
  = cleanData.
Proof.
  intros cleanData. subst cleanData. unfold VisualizationService.cleanPoints at 2 3.
  rewrite !map_map. cbn [VisualizationService.x VisualizationService.y].
  rewrite cleanPoints_all.
  - unfold VisualizationService.cleanPoints. reflexivity.
  - apply Forall_forall. intros p H. apply filter_In in H. destruct H as [_ H].
    apply andb_true_iff in H. destruct H as [H1 H2].
    apply negb_true_iff in H1, H2. tauto.
Qed.

(** X13. A pair with a NaN coordinate has no influence on a scatter plot:
    for two arrays of the same length, [createScatterPlot] returns what it
    returns for the arrays without these pairs. *)
Theorem X13_createScatterPlot_ignores_NaN_points
        (rt : Runtime) (chart : VisualizationService.ChartJS)
        (xData yData : list number) (xLabel yLabel title : string) :
  List.length xData = List.length yData ->
  let cleanData := VisualizationService.cleanPoints xData yData in
  VisualizationService.createScatterPlot rt chart xData yData xLabel yLabel title
  = VisualizationService.createScatterPlot rt chart
      (map VisualizationService.x cleanData) (map VisualizationService.y cleanData)
      xLabel yLabel title.
Proof.
  intros L cleanData.
  pose proof (cleanPoints_idempotent xData yData) as I. cbv zeta in I. fold cleanData in I.
  pose proof (cleanPoints_length xData yData) as B. fold cleanData in B.
  unfold VisualizationService.createScatterPlot, VisualizationService.createScatterPlot_body.
  rewrite I, !length_map, L, !Nat.eqb_refl. cbn [negb]. fold cleanData.
  rewrite <- L.
  destruct (List.length xData <? 2)%nat eqn:X.
  - apply Nat.ltb_lt in X.
    assert (C : (List.length cleanData <? 2)%nat = true) by (apply Nat.ltb_lt; lia).
    rewrite C. reflexivity.
  - destruct (List.length cleanData <? 2)%nat eqn:C; reflexivity.
Qed.

Lemma X13_witness :
  VisualizationService.createScatterPlot Examples.runtime Examples.oversizedChart
    [#3; Num.NaN; #1; #2] [#1; #5; #4; #9] "x" "y" "t"
  = VisualizationService.createScatterPlot Examples.runtime Examples.oversizedChart
      [#3; #1; #2] [#1; #4; #9] "x" "y" "t".
Proof.
  pose proof (X13_createScatterPlot_ignores_NaN_points Examples.runtime Examples.oversizedChart
                [#3; Num.NaN; #1; #2] [#1; #5; #4; #9] "x" "y" "t" eq_refl) as H.
  cbv zeta in H.
  assert (E : VisualizationService.cleanPoints [#3; Num.NaN; #1; #2] [#1; #5; #4; #9]
              = [ {| VisualizationService.x := #3; VisualizationService.y := #1 |};
                  {| VisualizationService.x := #1; VisualizationService.y := #4 |};
                  {| VisualizationService.x := #2; VisualizationService.y := #9 |} ])
    by (vm_compute; reflexivity).
  rewrite E in H. exact H.
Defined.

Lemma combine_fst_snd (xs ys : list number) :
  List.length xs = List.length ys ->
  map fst (combine xs ys) = xs /\ map snd (combine xs ys) = ys.
Proof.
  revert ys. induction xs as [|x xs IH]; intros [|y ys] L; try discriminate;
    [split; reflexivity|].
  simpl in L. injection L as L. destruct (IH ys L) as [E1 E2].
  simpl. rewrite E1, E2. split; reflexivity.
Qed.

(** The sums of [calculateRegression] over the points made of two arrays of
    one length are the sums over the arrays. *)
Lemma point_sums (l : list (number * number)) :
  let points :=
    map (fun p => {| VisualizationService.x := fst p; VisualizationService.y := snd p |}) l in
  forall acc,
    fold_left (fun sum point => sum + VisualizationService.x point) points acc
    = fold_left (fun a b => a + b) (map fst l) acc
    /\ fold_left (fun sum point => sum + VisualizationService.y point) points acc
       = fold_left (fun a b => a + b) (map snd l) acc
    /\ fold_left (fun sum point =>
                    sum + (VisualizationService.x point * VisualizationService.y point))
                 points acc
       = fold_left (fun sum p => sum + fst p * snd p) l acc
    /\ fold_left (fun sum point =>
                    sum + (VisualizationService.x point * VisualizationService.x point))
                 points acc
       = fold_left (fun sum x => sum + x * x) (map fst l) acc.
Proof.
  cbv zeta. induction l as [|[a b] l IH]; intros acc; cbn [map fold_left].
  - repeat split.
  - cbn [VisualizationService.x VisualizationService.y fst snd].
    repeat split; apply IH.
Qed.

Lemma calculateRegression_of_arrays (xs ys : list number) :
  List.length xs = List.length ys ->
  let n := Num.of_nat (List.length xs) in
  let sumX := fold_left (fun a b => a + b) xs Num.zero in
  let sumY := fold_left (fun a b => a + b) ys Num.zero in
  let sumXY := reducei (fun sum x i => sum + x * at_index ys i) xs Num.zero in
  let sumXX := fold_left (fun sum x => sum + x * x) xs Num.zero in
  VisualizationService.slope
    (VisualizationService.calculateRegression
       (map (fun p => {| VisualizationService.x := fst p; VisualizationService.y := snd p |})
            (combine xs ys)))
  = (n * sumXY - sumX * sumY) / (n * sumXX - sumX * sumX).
Proof.
  intros L. cbv zeta. unfold VisualizationService.calculateRegression.
  cbn [VisualizationService.slope].
  destruct (combine_fst_snd xs ys L) as [E1 E2].
  destruct (point_sums (combine xs ys) Num.zero) as (SX & SY & SXY & SXX).
  rewrite SX, SY, SXY, SXX, E1, E2.
  rewrite length_map, length_combine, <- L, Nat.min_id.
  unfold reducei.
  pose proof (reduce_products xs ys [] Num.zero L) as P. cbn [app List.length] in P.
  rewrite P. reflexivity.
Qed.

(** X14. The slope reported for the court data and the slope of the line
    drawn in the chart are computed alike: on two arrays of the same length,
    with at least two entries and no NaN, [calculateLinearRegressionSlope]
    returns the slope of [calculateRegression] on the cleaned points, except
    that a NaN slope (as for constant abscissas) is reported as 0. *)
Theorem X14_reported_slope_is_the_slope_of_the_chart (xValues yValues : list number) :
  List.length xValues = List.length yValues ->
  (2 <= List.length xValues)%nat ->
  Forall (fun v => Num.isNaN v = false) xValues ->
  Forall (fun v => Num.isNaN v = false) yValues ->
  let chartSlope :=
    VisualizationService.slope
      (VisualizationService.calculateRegression
         (VisualizationService.cleanPoints xValues yValues)) in
  DuckDBHandler.calculateLinearRegressionSlope xValues yValues
  = if Num.isNaN chartSlope then Num.zero else chartSlope.
Proof.
  intros L G Hx Hy chartSlope. subst chartSlope.
  destruct (combine_fst_snd xValues yValues L) as [E1 E2].
  assert (C : VisualizationService.cleanPoints xValues yValues
              = map (fun p => {| VisualizationService.x := fst p;
                                 VisualizationService.y := snd p |})
                    (combine xValues yValues)).
  { pose proof (cleanPoints_all (combine xValues yValues)) as A.
    rewrite E1, E2 in A. apply A.
    apply Forall_forall. intros [a b] H. cbn [fst snd].
    rewrite Forall_forall in Hx, Hy. split.
    - apply Hx. apply (in_combine_l _ _ _ _ H).
    - apply Hy. apply (in_combine_r _ _ _ _ H). }
  rewrite C, (calculateRegression_of_arrays xValues yValues L).
  unfold DuckDBHandler.calculateLinearRegressionSlope.
  rewrite L, Nat.eqb_refl. rewrite <- L.
  assert (X : (List.length xValues <? 2)%nat = false) by (apply Nat.ltb_ge; lia).
  rewrite X. reflexivity.
Qed.

Lemma X14_witness :
  DuckDBHandler.calculateLinearRegressionSlope
    [#2019; #2020; #2021; #2022] [#150; #140; #130; #120]
  = VisualizationService.slope
      (VisualizationService.calculateRegression
         (VisualizationService.cleanPoints
            [#2019; #2020; #2021; #2022] [#150; #140; #130; #120])).
Proof.
  assert (Hx : Forall (fun v => Num.isNaN v = false) [#2019; #2020; #2021; #2022])
    by (repeat constructor).
  assert (Hy : Forall (fun v => Num.isNaN v = false) [#150; #140; #130; #120])
    by (repeat constructor).
  assert (G : (2 <= List.length [#2019; #2020; #2021; #2022])%nat) by (simpl; lia).
  rewrite (X14_reported_slope_is_the_slope_of_the_chart
             [#2019; #2020; #2021; #2022] [#150; #140; #130; #120] eq_refl G Hx Hy).
  vm_compute. reflexivity.
Defined.

(** ** Numbers that are not NaN *)

Local Open Scope Z_scope.

(** Rounding never produces NaN: a mantissa that is not negative is rounded
    to a zero, a finite value or an infinity. *)
Lemma shr_fexp_nonneg (m e : Z) (l : location) :
  0 <= m -> 0 <= shr_m (fst (shr_fexp Num.prec Num.emax m e l)).
Proof.
  intros Hm. unfold shr_fexp, shr.
  destruct (fexp Num.prec Num.emax (Zdigits2 m + e) - e) as [|p|p];
    simpl fst; rewrite ?shr_record_of_loc_m; try exact Hm.
  rewrite shr_iter_m by (rewrite shr_record_of_loc_m; exact Hm).
  rewrite shr_record_of_loc_m. apply Z.div_pos; [exact Hm | apply Z.pow_pos_nonneg; lia].
Qed.

Lemma binary_round_aux_not_NaN (s : bool) (m e : Z) (l : location) :
  0 <= m -> Num.isNaN (binary_round_aux Num.prec Num.emax s m e l) = false.
Proof.
  intros Hm. unfold binary_round_aux.
  pose proof (shr_fexp_nonneg m e l Hm) as H1.
  destruct (shr_fexp Num.prec Num.emax m e l) as [mrs' e']. simpl in H1.
  pose proof (round_nearest_even_ge (shr_m mrs') (loc_of_shr_record mrs')) as R.
  pose proof (shr_fexp_nonneg (round_nearest_even (shr_m mrs') (loc_of_shr_record mrs'))
                e' loc_Exact ltac:(lia)) as H2.
  destruct (shr_fexp Num.prec Num.emax _ e' loc_Exact) as [mrs'' e'']. simpl in H2.
  destruct (shr_m mrs'') as [|m''|m'']; try lia; [reflexivity|].
  destruct (e'' <=? Num.emax - Num.prec); reflexivity.
Qed.

Lemma binary_normalize_not_NaN (m e : Z) (szero : bool) :
  Num.isNaN (binary_normalize Num.prec Num.emax m e szero) = false.
Proof.
  destruct m as [|p|p]; simpl binary_normalize; [reflexivity| |];
    unfold binary_round;
    destruct (shl_align p e (fexp Num.prec Num.emax (Zpos (digits2_pos p) + e))) as [mz ez];
    apply binary_round_aux_not_NaN; lia.
Qed.

Lemma of_Z_not_NaN (z : Z) : Num.isNaN (Num.of_Z z) = false.
Proof. apply binary_normalize_not_NaN. Qed.

(** [Math.round] of a number other than NaN is not NaN. *)
Lemma Math_round_not_NaN (x : number) :
  Num.isNaN x = false -> Num.isNaN (Num.Math_round x) = false.
Proof.
  intros H. destruct x as [s|s| |s m e]; try exact H.
  unfold Num.Math_round. destruct e as [|p|p]; try reflexivity.
  destruct (Num.round_half_up s m (Zneg p) =? 0)%Z; [reflexivity | apply of_Z_not_NaN].
Qed.

(** The product and the quotient of a number other than NaN by a finite
    number other than zero are not NaN. *)
Lemma mul_finite_not_NaN (x : number) (s : bool) (m : positive) (e : Z) :
  Num.isNaN x = false -> Num.isNaN (Num.mul x (S754_finite s m e)) = false.
Proof.
  intros H. destruct x as [sx|sx| |sx mx ex]; try exact H; try reflexivity.
  unfold Num.mul, SFmul. apply binary_round_aux_not_NaN. lia.
Qed.

Lemma div_finite_not_NaN (x : number) (s : bool) (m : positive) (e : Z) :
  Num.isNaN x = false -> Num.isNaN (Num.div x (S754_finite s m e)) = false.
Proof.
  intros H. destruct x as [sx|sx| |sx mx ex]; try exact H; try reflexivity.
  unfold Num.div, SFdiv, SFdiv_core_binary.
  match goal with |- context [Z.div_eucl ?a ?b] =>
    pose proof (Z.div_pos a b) as Q; unfold Z.div in Q;
    assert (A : 0 <= a); [|destruct (Z.div_eucl a b) as [q r]]
  end.
  - destruct (_ - _ - _) as [|p|p]; try lia. rewrite Z.shiftl_mul_pow2 by lia.
    apply Z.mul_nonneg_nonneg; [lia | apply Z.pow_nonneg; lia].
  - apply binary_round_aux_not_NaN. apply Q; [exact A | lia].
Qed.

Local Open Scope js_scope.

(** Rounding to a number of decimal places, [Math.round(x * 10^k) / 10^k],
    keeps a number other than NaN so. *)
Lemma round_to_places_not_NaN (x : number) (z : positive) :
  Num.isNaN x = false ->
  Zpos z < 2 ^ Num.prec ->
  Num.isNaN (Num.Math_round (x * Num.of_Z (Zpos z)) / Num.of_Z (Zpos z)) = false.
Proof.
  intros H B.
  destruct (aligned_mantissa z (digits2_le_prec z B)) as [mz E].
  rewrite (of_Z_small z mz B E).
  apply div_finite_not_NaN. apply Math_round_not_NaN. apply mul_finite_not_NaN. exact H.
Qed.

(** X15. The slope reported by [calculateRegressionSlope] for the court data
    is never NaN, whatever the database answers: the slope comes from
    [calculateLinearRegressionSlope], which replaces NaN by 0, and rounding
    to two decimal places does not produce NaN. *)
Theorem X15_reported_court_slope_is_never_NaN
        (rt : Runtime) (chart : VisualizationService.ChartJS) (db : DuckDBHandler.DuckDB) :
  Num.isNaN (DuckDBHandler.slope (DuckDBHandler.calculateRegressionSlope rt chart db)) = false.
Proof.
  assert (B : (100 < 2 ^ Num.prec)%Z) by reflexivity.
  unfold DuckDBHandler.calculateRegressionSlope.
  destruct (DuckDBHandler.query_delays db DuckDBHandler.regressionQuery) as [rawData|m];
    cbn [bind].
  - destruct (List.length rawData <? 2)%nat; cbv zeta; cbn [DuckDBHandler.slope];
      apply (round_to_places_not_NaN _ 100);
      try exact B; apply calculateLinearRegressionSlope_not_NaN.
  - cbv zeta. cbn [DuckDBHandler.slope].
    apply (round_to_places_not_NaN _ 100); [|exact B].
    apply calculateLinearRegressionSlope_not_NaN.
Qed.

(** ** Correlations and charts of a CSV table *)


Lemma fold_left_invariant_In {A B : Type} (P : A -> Prop) (f : A -> B -> A) (l : list B) :
  (forall a b, In b l -> P a -> P (f a b)) -> forall a, P a -> P (fold_left f l a).
Proof.
  induction l as [|b l IH]; intros H a Pa; cbn [fold_left]; [exact Pa|].
  apply IH.
  - intros a' b' I. apply H. right. exact I.
  - apply H; [left; reflexivity | exact Pa].
Qed.

Lemma assign_In {V : Type} (key k : string) (v w : V) (object : list (string * V)) :
  In (k, w) (CSVHandler.assign key v object) -> (k = key /\ w = v) \/ In (k, w) object.
Proof.
  induction object as [|[k' w'] rest IH]; simpl.
  - intros [E|[]]. injection E as <- <-. left. split; reflexivity.
  - destruct (String.eqb k' key) eqn:K.
    + apply String.eqb_eq in K. subst k'.
      intros [E|I]; [injection E as <- <-; left; split; reflexivity | right; right; exact I].
    + intros [E|I]; [right; left; exact E|].
      destruct (IH I) as [?|?]; [left; assumption | right; right; assumption].
Qed.

Lemma pairs_In (columns : list string) (col1 col2 : string) :
  In (col1, col2) (CSVHandler.pairs columns) ->
  exists before between after, columns = before ++ col1 :: between ++ col2 :: after.
Proof.
  induction columns as [|c rest IH]; simpl; [contradiction|].
  intros H. apply in_app_or in H. destruct H as [H|H].
  - apply in_map_iff in H. destruct H as (d & E & I). injection E as <- <-.
    apply in_split in I. destruct I as (between & after & ->).
    exists [], between, after. reflexivity.
  - destruct (IH H) as (before & between & after & ->).
    exists (c :: before), between, after. reflexivity.
Qed.

(** X16. Every entry of the object returned by [calculateCorrelations] is a
    number other than NaN. Its key is [col1_vs_col2] for two numeric columns
    of which [col1] is listed before [col2]; the table has at least two
    rows; the two columns have the same number, at least 2, of cells that
    convert to a number; and the value is the correlation of these cells
    rounded to three decimal places. *)
Theorem X16_calculateCorrelations_entries
        (Number : string -> number) (data : list row) (key : string) (v : number) :
  In (key, v) (CSVHandler.calculateCorrelations Number data) ->
  Num.isNaN v = false
  /\ (2 <= List.length data)%nat
  /\ exists col1 col2 before between after,
       CSVHandler.numericColumns Number data = before ++ col1 :: between ++ col2 :: after
       /\ key = (col1 ++ "_vs_" ++ col2)%string
       /\ List.length (CSVHandler.numbersOf Number data col1)
          = List.length (CSVHandler.numbersOf Number data col2)
       /\ (2 <= List.length (CSVHandler.numbersOf Number data col1))%nat
       /\ v = Num.Math_round
                (CSVHandler.pearsonCorrelation (CSVHandler.numbersOf Number data col1)
                   (CSVHandler.numbersOf Number data col2) * #1000) / #1000.
Proof.
  unfold CSVHandler.calculateCorrelations.
  destruct (List.length data <? 2)%nat eqn:L; [contradiction|].
  apply Nat.ltb_ge in L. revert key v.
  apply fold_left_invariant_In; [|intros key v []].
  intros correlations [col1 col2] I IH key v H.
  destruct (Nat.eqb _ _ && _) eqn:C; [|apply IH; exact H].
  cbv zeta in H. apply assign_In in H. destruct H as [[-> ->]|H]; [|apply IH; exact H].
  apply andb_true_iff in C. destruct C as [C1 C2].
  apply Nat.eqb_eq in C1. apply Nat.ltb_lt in C2.
  split; [|split; [exact L|]].
  - apply (round_to_places_not_NaN _ 1000); [|reflexivity].
    apply CSVHandler_pearsonCorrelation_not_NaN.
  - destruct (pairs_In _ _ _ I) as (before & between & after & E).
    exists col1, col2, before, between, after. repeat split; try assumption.
Qed.

Lemma X16_witness :
  Num.isNaN (Num.div (Num.of_Z 991) (Num.of_Z 1000)) = false
  /\ exists col1 col2 before between after,
       CSVHandler.numericColumns Examples.decimalNumber Examples.employees
       = before ++ col1 :: between ++ col2 :: after
       /\ "Age_vs_Salary"%string = (col1 ++ "_vs_" ++ col2)%string.
Proof.
  assert (H : In ("Age_vs_Salary"%string, Num.div (Num.of_Z 991) (Num.of_Z 1000))
                 (CSVHandler.calculateCorrelations Examples.decimalNumber Examples.employees))
    by (vm_compute; left; reflexivity).
  destruct (X16_calculateCorrelations_entries Examples.decimalNumber Examples.employees
              _ _ H) as (N & _ & col1 & col2 & before & between & after & E & K & _).
  split; [exact N|]. exists col1, col2, before, between, after. split; assumption.
Defined.

Lemma prefix_append (a b : string) : String.prefix a (a ++ b) = true.
Proof.
  induction a as [|c a IH]; simpl; [destruct b; reflexivity|].
  destruct (ascii_dec c c); [exact IH | congruence].
Qed.

Lemma createScatterPlot_nonempty (rt : Runtime) (chart : VisualizationService.ChartJS)
      (xData yData : list number) (xLabel yLabel title : string) :
  VisualizationService.createScatterPlot rt chart xData yData xLabel yLabel title
    <> ""%string ->
  List.length xData = List.length yData
  /\ (2 <= List.length xData)%nat
  /\ String.prefix "data:image/png;base64,"
       (VisualizationService.createScatterPlot rt chart xData yData xLabel yLabel title)
     = true.
Proof.
  unfold VisualizationService.createScatterPlot, VisualizationService.createScatterPlot_body.
  destruct (Nat.eqb (List.length xData) (List.length yData)) eqn:E; cbn [negb];
    [|intros H; exfalso; apply H; reflexivity].
  destruct (List.length xData <? 2)%nat eqn:L; [intros H; exfalso; apply H; reflexivity|].
  destruct (List.length (VisualizationService.cleanPoints xData yData) <? 2)%nat;
    [intros H; exfalso; apply H; reflexivity|].
  destruct (snd (VisualizationService.renderImage chart _)) as [b|m]; cbn [bind];
    [|intros H; exfalso; apply H; reflexivity].
  intros _. apply Nat.eqb_eq in E. apply Nat.ltb_ge in L.
  repeat split; try assumption. apply prefix_append.
Qed.

(** X17. [generateVisualizations] returns the empty object or an object with
    the single property [scatter_plot]. In the second case the value is what
    [createScatterPlot] returns for the first two numeric columns, it starts
    with "data:image/png;base64,", and the two columns have the same number,
    at least 2, of cells that convert to a number. *)
Theorem X17_generateVisualizations_scatter_plot
        (Number : string -> number) (rt : Runtime) (chart : VisualizationService.ChartJS)
        (data : list row) :
  CSVHandler.generateVisualizations Number rt chart data = []
  \/ exists col1 col2 others dataUri,
       CSVHandler.numericColumns Number data = col1 :: col2 :: others
       /\ CSVHandler.generateVisualizations Number rt chart data
          = [("scatter_plot"%string, dataUri)]
       /\ dataUri
          = VisualizationService.createScatterPlot rt chart
              (CSVHandler.numbersOf Number data col1) (CSVHandler.numbersOf Number data col2)
              col1 col2 (col1 ++ " vs " ++ col2)%string
       /\ String.prefix "data:image/png;base64," dataUri = true
       /\ List.length (CSVHandler.numbersOf Number data col1)
          = List.length (CSVHandler.numbersOf Number data col2)
       /\ (2 <= List.length (CSVHandler.numbersOf Number data col1))%nat.
Proof.
  unfold CSVHandler.generateVisualizations.
  destruct data as [|first rest]; [left; reflexivity|].
  destruct (CSVHandler.numericColumns Number (first :: rest)) as [|col1 [|col2 others]];
    try (left; reflexivity).
  destruct (_ && _); [|left; reflexivity]. cbv zeta.
  destruct (String.eqb _ "") eqn:E; cbn [negb]; [left; reflexivity|].
  apply String.eqb_neq in E.
  destruct (createScatterPlot_nonempty _ _ _ _ _ _ _ E) as (L & G & P).
  right. exists col1, col2, others. eexists. repeat split; assumption.
Qed.

(** ** The page address *)


Lemma substring_all (s : string) : String.substring 0 (String.length s) s = s.
Proof. induction s as [|c s IH]; simpl; [reflexivity | rewrite IH; reflexivity]. Qed.

Lemma prefix_split (a s : string) :
  String.prefix a s = true ->
  exists rest,
    s = (a ++ rest)%string
    /\ String.substring (String.length a) (String.length s - String.length a) s = rest.
Proof.
  revert s. induction a as [|c a IH]; intros s H.
  - exists s. split; [reflexivity|]. simpl. rewrite Nat.sub_0_r. apply substring_all.
  - destruct s as [|d s]; [discriminate|]. simpl in H.
    destruct (ascii_dec c d) as [->|]; [|discriminate].
    destruct (IH s H) as (rest & E & S). exists rest. split.
    + simpl. rewrite <- E. reflexivity.
    + simpl. exact S.
Qed.

Lemma takeWhile_no_space (s : string) :
  hasWhiteSpace (Str.takeWhile (fun c => negb (Str.isSpace c)) s) = false.
Proof.
  induction s as [|c s IH]; simpl; [reflexivity|].
  destruct (Str.isSpace c) eqn:W; simpl; [reflexivity|]. rewrite W. exact IH.
Qed.

Lemma append_assoc (a b c : string) : ((a ++ b) ++ c)%string = (a ++ b ++ c)%string.
Proof. induction a as [|d a IH]; simpl; [reflexivity | rewrite IH; reflexivity]. Qed.

(** An address matched at the start of a text. *)
Lemma url_at_spec (s url : string) :
  WikipediaHandler.url_at s = Some url ->
  exists scheme rest after,
    (scheme = "https://"%string \/ scheme = "http://"%string)
    /\ url = (scheme ++ rest)%string
    /\ rest <> ""%string
    /\ hasWhiteSpace rest = false
    /\ s = (url ++ after)%string.
Proof.
  unfold WikipediaHandler.url_at.
  assert (G : forall scheme,
             String.prefix scheme s = true ->
             let rest := Str.takeWhile (fun c => negb (Str.isSpace c))
                           (String.substring (String.length scheme)
                              (String.length s - String.length scheme) s) in
             hasWhiteSpace rest = false
             /\ exists after, s = ((scheme ++ rest) ++ after)%string).
  { intros scheme P rest. subst rest. split; [apply takeWhile_no_space|].
    destruct (prefix_split scheme s P) as (tail & E & ->).
    exists (Str.dropWhile (fun c => negb (Str.isSpace c)) tail).
    rewrite append_assoc, takeWhile_dropWhile. exact E. }
  cbv zeta beta.
  set (r1 := Str.takeWhile (fun c => negb (Str.isSpace c))
               (String.substring (String.length "https://")
                  (String.length s - String.length "https://") s)).
  set (r2 := Str.takeWhile (fun c => negb (Str.isSpace c))
               (String.substring (String.length "http://")
                  (String.length s - String.length "http://") s)).
  assert (G2 : String.prefix "http://" s && negb (String.eqb r2 "") = true ->
               exists scheme rest after,
                 (scheme = "https://"%string \/ scheme = "http://"%string)
                 /\ ("http://" ++ r2)%string = (scheme ++ rest)%string
                 /\ rest <> ""%string
                 /\ hasWhiteSpace rest = false
                 /\ s = (("http://" ++ r2) ++ after)%string).
  { intros H. apply andb_true_iff in H. destruct H as [P N].
    apply negb_true_iff in N. apply String.eqb_neq in N.
    destruct (G "http://"%string P) as [W [after E]].
    exists "http://"%string, r2, after. auto. }
  destruct (String.prefix "https://" s && negb (String.eqb r1 "")) eqn:C1.
  - intros H. injection H as <-.
    apply andb_true_iff in C1. destruct C1 as [P N].
    apply negb_true_iff in N. apply String.eqb_neq in N.
    destruct (G "https://"%string P) as [W [after E]].
    exists "https://"%string, r1, after. auto.
  - destruct (String.prefix "http://" s && negb (String.eqb r2 "")) eqn:C2; [|discriminate].
    intros H. injection H as <-. apply G2. reflexivity.
Qed.

Lemma match_url_spec (s url : string) :
  WikipediaHandler.match_url s = Some url ->
  exists before scheme rest after,
    (scheme = "https://"%string \/ scheme = "http://"%string)
    /\ url = (scheme ++ rest)%string
    /\ rest <> ""%string
    /\ hasWhiteSpace rest = false
    /\ s = (before ++ url ++ after)%string.
Proof.
  induction s as [|c s IH]; cbn [WikipediaHandler.match_url].
  - destruct (WikipediaHandler.url_at "") as [u|] eqn:U; [|discriminate].
    intros H. injection H as ->.
    destruct (url_at_spec _ _ U) as (scheme & rest & after & A & B & C & D & E).
    exists ""%string, scheme, rest, after. auto.
  - destruct (WikipediaHandler.url_at (String c s)) as [u|] eqn:U.
    + intros H. injection H as ->.
      destruct (url_at_spec _ _ U) as (scheme & rest & after & A & B & C & D & E).
      exists ""%string, scheme, rest, after. auto.
    + intros H. destruct (IH H) as (before & scheme & rest & after & A & B & C & D & E).
      exists (String c before), scheme, rest, after. repeat split; auto.
      simpl. rewrite <- E. reflexivity.
Qed.

(** X18. The address that [determineWikipediaUrl] hands to the scraper is the
    page of the highest-grossing films, or, for a task that mentions neither
    "highest-grossing" nor "films", an address written in the task text: a
    piece of the text that starts with "https://" or "http://" followed by
    at least one character, and has no white space. *)
Theorem X18_determineWikipediaUrl_address (taskDescription : string) :
  let url := WikipediaHandler.determineWikipediaUrl taskDescription in
  url = "https://en.wikipedia.org/wiki/List_of_highest-grossing_films"%string
  \/ (Str.includes (Str.toLowerCase taskDescription) "highest-grossing" = false
      /\ Str.includes (Str.toLowerCase taskDescription) "films" = false
      /\ exists before scheme rest after,
           (scheme = "https://"%string \/ scheme = "http://"%string)
           /\ url = (scheme ++ rest)%string
           /\ rest <> ""%string
           /\ hasWhiteSpace rest = false
           /\ taskDescription = (before ++ url ++ after)%string).
Proof.
  intros url. subst url. unfold WikipediaHandler.determineWikipediaUrl.
  destruct (Str.includes (Str.toLowerCase taskDescription) "highest-grossing");
    [left; reflexivity|].
  destruct (Str.includes (Str.toLowerCase taskDescription) "films");
    [left; reflexivity|]. cbn [orb].
  destruct (WikipediaHandler.match_url taskDescription) as [u|] eqn:M; [|left; reflexivity].
  right. split; [reflexivity|]. split; [reflexivity|]. apply match_url_spec. exact M.
Qed.

(** ** The title of a film *)


(** The first column always passes the title test, and it is the first of
    the keys that do. *)
Lemma titleValue_first_column (key cell : string) (others : row) :
  WikipediaHandler.titleValue ((key, cell) :: others) = Some cell.
Proof.
  unfold WikipediaHandler.titleValue. cbn [Object_keys map fst filter].
  assert (T : WikipediaHandler.isTitleKey ((key, cell) :: others) key = true).
  { unfold WikipediaHandler.isTitleKey. cbn [Object_keys map fst].
    rewrite String.eqb_refl. rewrite !orb_true_r. reflexivity. }
  rewrite T. cbn [row_get]. rewrite String.eqb_refl. reflexivity.
Qed.

Lemma titleValue_empty_row : WikipediaHandler.titleValue [] = None.
Proof. reflexivity. Qed.

Lemma cleanRow_title (cleaned : list WikipediaHandler.movie) (r : row)
      (m : WikipediaHandler.movie) :
  WikipediaHandler.cleanRow cleaned r = Ok (Some m) ->
  exists key others, r = (key, WikipediaHandler.title m) :: others.
Proof.
  destruct (cleanRow_spec cleaned r) as (revenue & year & rank & peak & _ & _ & _ & _ & ->).
  destruct r as [|[key cell] others].
  - rewrite titleValue_empty_row, andb_false_r. discriminate.
  - rewrite titleValue_first_column.
    destruct (truthy_opt revenue && _); [|discriminate].
    intros E. injection E as <-. exists key, others. reflexivity.
Qed.

(** X19. The title of a record is always the cell of the first column of its
    row: the first key of a row passes the title test whatever its name,
    and it comes before any key with "title", "film" or "movie" in its
    name. So every record of [cleanFilmsData] carries as title the first
    cell of one of the rows. *)
Theorem X19_title_is_the_first_column (rawData : list row) :
  (forall key cell others,
     WikipediaHandler.titleValue ((key, cell) :: others) = Some cell)
  /\ Forall (fun m => exists key others,
                        In ((key, WikipediaHandler.title m) :: others) rawData)
            (WikipediaHandler.cleanFilmsData rawData).
Proof.
  split; [apply titleValue_first_column|].
  induction rawData as [|r rawData IH] using rev_ind; [constructor|].
  assert (IH' : Forall (fun m => exists key others,
                          In ((key, WikipediaHandler.title m) :: others) (rawData ++ [r]))
                       (WikipediaHandler.cleanFilmsData rawData)).
  { eapply Forall_impl; [|exact IH]. intros m (key & others & I).
    exists key, others. apply in_or_app. left. exact I. }
  rewrite cleanFilmsData_snoc.
  destruct (WikipediaHandler.cleanRow (WikipediaHandler.cleanFilmsData rawData) r)
    as [[m|]|] eqn:E; try exact IH'.
  apply Forall_app. split; [exact IH'|]. constructor; [|constructor].
  destruct (cleanRow_title _ _ _ E) as (key & others & ->).
  exists key, others. apply in_or_app. right. left. reflexivity.
Qed.

(** On a row of the films page, whose first column is the rank, the title
    of the record is the rank cell "1", not "Avatar". *)
Lemma rankedRow_title :
  map WikipediaHandler.title (WikipediaHandler.cleanFilmsData [Examples.rankedRow])
  = ["1"%string].
Proof. vm_compute. reflexivity. Qed.

(** ** The rows of a CSV text *)

Lemma collectRows_from (emitted : list row) :
  forall results,
    (List.length results <= CSVHandler.maxRows)%nat ->
    fold_left
      (fun results data =>
         if (List.length results <? CSVHandler.maxRows)%nat then (results ++ [data])%list
         else results)
      emitted results
    = (results ++ firstn (CSVHandler.maxRows - List.length results) emitted)%list.
Proof.
  induction emitted as [|data emitted IH]; intros results L; cbn [fold_left].
  - rewrite firstn_nil, app_nil_r. reflexivity.
  - destruct (List.length results <? CSVHandler.maxRows)%nat eqn:B.
    + apply Nat.ltb_lt in B. rewrite IH by (rewrite length_app; simpl; lia).
      rewrite length_app. cbn [List.length].
      replace (CSVHandler.maxRows - List.length results)%nat
        with (S (CSVHandler.maxRows - (List.length results + 1)))%nat by lia.
      cbn [firstn]. rewrite <- app_assoc. reflexivity.
    + apply Nat.ltb_ge in B.
      rewrite IH by exact L.
      replace (CSVHandler.maxRows - List.length results)%nat with 0%nat by lia.
      reflexivity.
Qed.

(** X20. [parseCSV] resolves with the first [maxRows] = 10000 rows that the
    parser emits, in their order, and drops the others without an error; it
    never resolves with more than 10000 rows, and it rejects exactly when
    the parser fails. *)
Theorem X20_parseCSV_keeps_the_first_rows
        (csv : string -> result (list row)) (csvData : string) :
  CSVHandler.parseCSV csv csvData
  = match csv csvData with
    | Ok emitted => Ok (firstn CSVHandler.maxRows emitted)
    | Throw message => Throw message
    end
  /\ forall emitted,
       CSVHandler.collectRows emitted = firstn CSVHandler.maxRows emitted
       /\ (List.length (CSVHandler.collectRows emitted) <= CSVHandler.maxRows)%nat.
Proof.
  assert (C : forall emitted,
             CSVHandler.collectRows emitted = firstn CSVHandler.maxRows emitted).
  { intros emitted. unfold CSVHandler.collectRows.
    rewrite collectRows_from by (cbn [List.length]; lia).
    cbn [List.length app]. rewrite Nat.sub_0_r. reflexivity. }
  split.
  - unfold CSVHandler.parseCSV. destruct (csv csvData) as [emitted|message]; cbn [bind];
      [rewrite C|]; reflexivity.
  - intros emitted. split; [apply C|]. rewrite C. apply firstn_le_length.
Qed.

(** ** The keyword classifier *)

Lemma includes_prefix (s sub : string) :
  String.prefix sub s = true -> Str.includes s sub = true.
Proof.
  intros H. destruct s as [|c s].
  - rewrite includes_nil. exact H.
  - rewrite includes_cons, H. reflexivity.
Qed.

(** [s.includes(sub)] holds exactly when [sub] is a piece of [s]. *)
Lemma includes_piece (s sub : string) :
  Str.includes s sub = true <-> exists before after, s = (before ++ sub ++ after)%string.
Proof.
  split.
  - induction s as [|c s IH].
    + rewrite includes_nil. intros H. destruct (prefix_split _ _ H) as (rest & E & _).
      exists ""%string, rest. exact E.
    + rewrite includes_cons. destruct (String.prefix sub (String c s)) eqn:P.
      * intros _. destruct (prefix_split _ _ P) as (rest & E & _).
        exists ""%string, rest. exact E.
      * intros H. destruct (IH H) as (before & after & ->).
        exists (String c before), after. reflexivity.
  - intros (before & after & ->). induction before as [|c before IH].
    + change ("" ++ sub ++ after)%string with (sub ++ after)%string.
      apply includes_prefix. apply prefix_append.
    + cbn [append]. rewrite includes_cons. rewrite IH.
      destruct (String.prefix sub _); reflexivity.
Qed.

(** A text that contains [a ++ b] contains [b]. *)
Lemma includes_app_r (s a b : string) :
  Str.includes s (a ++ b) = true -> Str.includes s b = true.
Proof.
  intros H. apply includes_piece in H. destruct H as (before & after & ->).
  apply includes_piece. exists (before ++ a)%string, after.
  rewrite !append_assoc. reflexivity.
Qed.

(** X8. What the keyword classifier returns for any task text, in terms of
    the keywords that occur in the text put in lower case. The letter case
    of the text does not matter. Each flag is set exactly when one of its
    keywords occurs; for the court data these are "court" and "judgment"
    ("indian high court" adds nothing, since it contains "court"). The data
    source is the first of wikipedia, court_data and csv whose flag is set,
    or "unknown". The statistical operations are, in this order, those of
    "correlation", "regression" and "count" whose keyword occurs, and the
    analysis type is the last of them, or "statistical_summary" when there
    is none. The output format is "base64_image" exactly when "base64" or
    "data:image" occurs, and then a visualization is asked for; otherwise it
    is "json_array"; it is never "json_object". No question is extracted. *)
Theorem X8_fallbackAnalysis_invariants (taskDescription : string) :
  let a := LLMService.fallbackAnalysis taskDescription in
  let mentions := existsb (Str.includes (Str.toLowerCase taskDescription)) in
  LLMService.fallbackAnalysis (Str.toLowerCase taskDescription) = a
  /\ LLMService.requiresWikipedia a
     = mentions ["wikipedia"; "highest-grossing"; "films"]%string
  /\ LLMService.requiresCourtData a = mentions ["court"; "judgment"]%string
  /\ LLMService.requiresCSV a = mentions ["csv"; "upload"]%string
  /\ LLMService.dataSource a
     = hd "unknown"%string
          (map fst (filter snd [ ("wikipedia"%string, LLMService.requiresWikipedia a);
                                 ("court_data"%string, LLMService.requiresCourtData a);
                                 ("csv"%string, LLMService.requiresCSV a) ]))
  /\ LLMService.statisticalOperations a
     = map fst (filter snd [ ("correlation"%string, mentions ["correlation"%string]);
                             ("regression"%string, mentions ["regression"%string]);
                             ("count"%string, mentions ["how many"; "count"]%string) ])
  /\ LLMService.analysisType a
     = last (LLMService.statisticalOperations a) "statistical_summary"%string
  /\ LLMService.visualizationNeeded a
     = mentions ["plot"; "chart"; "scatter"; "graph"; "base64"; "data:image"]%string
  /\ LLMService.expectedOutputFormat a
     = (if mentions ["base64"; "data:image"]%string then "base64_image" else "json_array")%string
  /\ LLMService.questions a = [].
Proof.
  intros a mentions. subst a mentions. unfold LLMService.fallbackAnalysis.
  rewrite toLowerCase_idempotent.
  set (task := Str.toLowerCase taskDescription).
  assert (Court : Str.includes task "indian high court" = true ->
                  Str.includes task "court" = true)
    by apply (includes_app_r task "indian high ").
  cbn [existsb]. rewrite !orb_false_r.
  set (correlation := Str.includes task "correlation").
  set (regression := Str.includes task "regression").
  set (count := Str.includes task "how many" || Str.includes task "count").
  set (base64 := Str.includes task "base64").
  set (image := Str.includes task "data:image").
  set (wikipedia := Str.includes task "wikipedia" || Str.includes task "highest-grossing"
                    || Str.includes task "films").
  set (csv := Str.includes task "csv" || Str.includes task "upload").
  set (plot := Str.includes task "plot" || Str.includes task "chart"
               || Str.includes task "scatter" || Str.includes task "graph").
  set (court := Str.includes task "court") in *.
  set (judgment := Str.includes task "judgment").
  set (indian := Str.includes task "indian high court") in *.
  assert (Wikipedia : wikipedia
                      = Str.includes task "wikipedia"
                        || (Str.includes task "highest-grossing" || Str.includes task "films"))
    by (unfold wikipedia; symmetry; apply orb_assoc).
  assert (Plot : forall rest,
             plot || rest
             = Str.includes task "plot"
               || (Str.includes task "chart"
                   || (Str.includes task "scatter" || (Str.includes task "graph" || rest))))
    by (intros rest; unfold plot; rewrite <- !orb_assoc; reflexivity).
  rewrite <- Wikipedia, <- Plot.
  clearbody correlation regression count base64 image wikipedia csv plot court judgment indian.
  clear Wikipedia Plot.
  repeat split;
    destruct correlation, regression, count, base64, image;
    cbn [orb fst snd LLMService.requiresWikipedia LLMService.requiresCourtData
         LLMService.requiresCSV LLMService.dataSource LLMService.statisticalOperations
         LLMService.analysisType LLMService.visualizationNeeded
         LLMService.expectedOutputFormat LLMService.questions];
    try reflexivity;
    try (destruct court, judgment, indian; try reflexivity; discriminate (Court eq_refl));
    try (destruct wikipedia, court, judgment, indian, csv; reflexivity);
    try (destruct plot; reflexivity).
Qed.
